(** * work21-backend: the project / application / rating workflow

    A shallow embedding of the request handlers of
    [app/api/projects.py] and [app/api/ratings.py], and of the handlers of
    [app/api/admin.py] that write projects, ratings, roles and active flags,
    over the tables declared in [app/models].

    - A table is the list of its rows, in insertion order.
    - A handler runs inside one SQLAlchemy session.  The session sees its own
      pending writes; only [commit] makes them durable; the [get_db]
      dependency closes the session when the handler returns or raises, which
      drops whatever was not committed.
    - [HTTPException], the two exceptions of [Result.scalar_one] /
      [Result.scalar_one_or_none] and the two errors with which the database
      refuses a statement are the error values.  The database is the one of
      [core/config.py], PostgreSQL: INTEGER has 32 bits, NOT NULL and
      FOREIGN KEY are enforced.  The aggregates [func.avg] and [func.max]
      are taken exactly.
    - [Op] lists the operations of the workflow (section 6 of the
      specification) and the operator's cancel.  The owner's
      [update_project] and the operator's endpoints are handlers beside
      them; what is stated of a run of [Op] is stated of those operations,
      and the other handlers are treated one by one.
    - [User.rating_score] is a float in the source: a binary64 value, kept
      here as the rational it denotes.  [float] rounds a rational to the
      nearest such value.
    - The caller of a request ([current_user], [current_admin]) is the user
      row that the authentication dependency of [app/api/deps.py] hands to
      the handler; it is a parameter of each handler here, as it is there. *)

From Stdlib Require Import ZArith List Bool QArith Qround Qabs Qpower.
From Stdlib Require Import Lia Lqa Permutation.
Import ListNotations.
Open Scope Z_scope.

(** ** Enumerations ([app/models/user.py], [app/models/project.py]) *)

Inductive UserRole := STUDENT | CUSTOMER | ADMIN.

Inductive ProjectStatus :=
  DRAFT | OPEN | IN_PROGRESS | REVIEW | COMPLETED | CANCELLED.

Inductive TaskStatus :=
  TASK_PENDING | TASK_IN_PROGRESS | TASK_REVIEW | TASK_COMPLETED.

Inductive ApplicationStatus := PENDING | ACCEPTED | REJECTED.

Definition UserRole_eqb (a b : UserRole) : bool :=
  match a, b with
  | STUDENT, STUDENT | CUSTOMER, CUSTOMER | ADMIN, ADMIN => true
  | _, _ => false
  end.

Definition ProjectStatus_eqb (a b : ProjectStatus) : bool :=
  match a, b with
  | DRAFT, DRAFT | OPEN, OPEN | IN_PROGRESS, IN_PROGRESS
  | REVIEW, REVIEW | COMPLETED, COMPLETED | CANCELLED, CANCELLED => true
  | _, _ => false
  end.

Definition ApplicationStatus_eqb (a b : ApplicationStatus) : bool :=
  match a, b with
  | PENDING, PENDING | ACCEPTED, ACCEPTED | REJECTED, REJECTED => true
  | _, _ => false
  end.

(** ** Rows

    Each module is one mapped class.  Columns that no handler below reads or
    writes one by one (names, e-mail, free text, timestamps) are left out. *)

Module User.
Record t := mk {
    id : Z;
    role : UserRole;
    rating_score : Q;
    completed_projects : Z;
    is_active : bool
  }.

Definition with_rating_score (v : Q) (u : t) : t :=
    mk (id u) (role u) v (completed_projects u) (is_active u).

Definition with_completed_projects (v : Z) (u : t) : t :=
    mk (id u) (role u) (rating_score u) v (is_active u).

Definition with_is_active (v : bool) (u : t) : t :=
    mk (id u) (role u) (rating_score u) (completed_projects u) v.
End User.

Module Project.
Record t := mk {
    id : Z;
    budget : Q;
    status : ProjectStatus;
    customer_id : Z;
    assignee_id : option Z
  }.

Definition with_status (v : ProjectStatus) (p : t) : t :=
    mk (id p) (budget p) v (customer_id p) (assignee_id p).

Definition with_assignee_id (v : option Z) (p : t) : t :=
    mk (id p) (budget p) (status p) (customer_id p) v.
End Project.

Module Task.
Record t := mk {
    id : Z;
    complexity : Z;
    estimated_hours : option Z;
    status : TaskStatus;
    order : Z;
    project_id : Z;
    assignee_id : option Z
  }.

Definition with_assignee_id (v : option Z) (k : t) : t :=
    mk (id k) (complexity k) (estimated_hours k) (status k) (order k)
       (project_id k) v.
End Task.

Module Application.
Record t := mk {
    id : Z;
    project_id : Z;
    student_id : Z;
    proposed_rate : option Q;
    status : ApplicationStatus
  }.

Definition with_status (v : ApplicationStatus) (a : t) : t :=
    mk (id a) (project_id a) (student_id a) (proposed_rate a) v.
End Application.

Module Rating.
Record t := mk {
    id : Z;
    project_id : Z;
    reviewer_id : Z;
    reviewee_id : Z;
    score : Z;
    quality_score : option Z;
    communication_score : option Z;
    deadline_score : option Z
  }.
End Rating.

(** ** The database *)

Record DB := mkDB {
  users : list User.t;
  projects : list Project.t;
  tasks : list Task.t;
  applications : list Application.t;
  ratings : list Rating.t
}.

Definition with_users (v : list User.t) (d : DB) : DB :=
  mkDB v (projects d) (tasks d) (applications d) (ratings d).

Definition with_projects (v : list Project.t) (d : DB) : DB :=
  mkDB (users d) v (tasks d) (applications d) (ratings d).

Definition with_tasks (v : list Task.t) (d : DB) : DB :=
  mkDB (users d) (projects d) v (applications d) (ratings d).

Definition with_applications (v : list Application.t) (d : DB) : DB :=
  mkDB (users d) (projects d) (tasks d) v (ratings d).

Definition with_ratings (v : list Rating.t) (d : DB) : DB :=
  mkDB (users d) (projects d) (tasks d) (applications d) v.

(** ** Generic table operations, by primary key *)

Section Table.
Context {A : Type} (key : A -> Z).

  (** [select(A).where(A.id == k)] *)
Definition by_id (k : Z) (rows : list A) : list A :=
    filter (fun r => key r =? k) rows.

  (** The UPDATE that a flush issues for a loaded object [obj] whose
      attributes were assigned: the row with its primary key is replaced. *)
Definition flush_row (obj : A) (rows : list A) : list A :=
    map (fun r => if key r =? key obj then obj else r) rows.

  (** The primary key the database gives a new row: a fresh one. *)
Definition next_id (rows : list A) : Z :=
    1 + fold_right (fun r m => Z.max (key r) m) 0 rows.
End Table.

(** ** Errors *)

(** The [detail] of each [HTTPException] raised by the handlers. *)
Inductive Detail :=
  | Only_customers_create_projects   (* projects.py:47 *)
  | Project_not_found                (* projects.py:174 and others *)
  | No_rights_to_publish             (* projects.py:254 *)
  | Only_draft_can_be_published      (* projects.py:260 *)
  | Only_customer_can_complete       (* projects.py:304 *)
  | Complete_needs_in_progress_or_review (* projects.py:310 *)
  | Cannot_complete_without_assignee (* projects.py:316 *)
  | Only_assignee_requests_review    (* projects.py:359 *)
  | Review_needs_in_progress         (* projects.py:365 *)
  | Only_students_apply              (* projects.py:399 *)
  | Project_not_open                 (* projects.py:417 *)
  | Already_applied                  (* projects.py:429 *)
  | No_access                        (* projects.py:502 *)
  | Application_not_found            (* projects.py:516 *)
  | Only_owner_assigns               (* projects.py:564, 650 *)
  | Task_not_found                   (* projects.py:578 *)
  | Assignee_not_found               (* projects.py:591, 663; admin.py:622 *)
  | Assignee_must_be_student         (* projects.py:597, 669 *)
  | Only_owner_creates_tasks         (* projects.py:743 *)
  | Rating_only_after_completion     (* ratings.py:71 *)
  | Not_customer_of_project          (* ratings.py:78 *)
  | Wrong_assignee                   (* ratings.py:83 *)
  | Not_assignee_of_project          (* ratings.py:89 *)
  | Wrong_customer                   (* ratings.py:94 *)
  | Only_customers_and_students_rate (* ratings.py:99 *)
  | Already_rated                    (* ratings.py:110 *)
  | No_rights_to_edit                (* projects.py:204 *)
  | User_not_found                   (* admin.py:427, 475, 498, 518 *)
  | Cannot_block_yourself            (* admin.py:478 *)
  | Cannot_delete_yourself           (* admin.py:521 *)
  | Customer_not_found               (* admin.py:615 *)
  | Rating_not_found                 (* admin.py:917 *)
  | Validation_error.                (* pydantic, before the handler runs *)

Inductive Error :=
  | HTTPException (status_code : Z) (detail : Detail)
  | MultipleResultsFound
  | NoResultFound
  | IntegrityError   (* the database refuses a row: NOT NULL, FOREIGN KEY *)
  | DBAPIError.      (* the driver refuses a parameter: integer out of range *)

Inductive Result (A : Type) :=
  | Ok (a : A)
  | Err (e : Error).
Arguments Ok {A} a.
Arguments Err {A} e.

(** ** The session monad *)

Record Session := mkSession {
  committed : DB;   (* what the database holds *)
  pending : DB      (* what this session sees: committed plus its own writes *)
}.

Definition Handler (A : Type) : Type := Session -> Result A * Session.

Definition ret {A} (a : A) : Handler A := fun s => (Ok a, s).

Definition raise {A} (e : Error) : Handler A := fun s => (Err e, s).

Definition bind {A B} (m : Handler A) (k : A -> Handler B) : Handler B :=
  fun s =>
    match m s with
    | (Ok a, s') => k a s'
    | (Err e, s') => (Err e, s')
    end.

Declare Scope handler_scope.
Delimit Scope handler_scope with handler.
Notation "x <- m ;; k" := (bind m (fun x => k))
  (at level 61, m at next level, right associativity) : handler_scope.
Notation "m ;;; k" := (bind m (fun _ => k))
  (at level 61, right associativity) : handler_scope.
Open Scope handler_scope.

(** [db.execute(select ...)]: a query is answered from the session's view. *)
Definition execute {A} (q : DB -> A) : Handler A :=
  fun s => (Ok (q (pending s)), s).

(** An attribute assignment on a loaded object, or [db.add]: a write that
    stays in the session until it is committed. *)
Definition write (f : DB -> DB) : Handler unit :=
  fun s => (Ok tt, mkSession (committed s) (f (pending s))).

(** [await db.commit()] *)
Definition commit : Handler unit :=
  fun s => (Ok tt, mkSession (pending s) (pending s)).

(** [Result.scalar_one_or_none()] *)
Definition scalar_one_or_none {A} (rows : list A) : Handler (option A) :=
  match rows with
  | [] => ret None
  | [r] => ret (Some r)
  | _ :: _ :: _ => raise MultipleResultsFound
  end.

(** [Result.scalar_one()] *)
Definition scalar_one {A} (rows : list A) : Handler A :=
  match rows with
  | [] => raise NoResultFound
  | [r] => ret r
  | _ :: _ :: _ => raise MultipleResultsFound
  end.

(** One request: [get_db] opens a session on the database, the handler runs,
    the session is closed.  What was not committed is gone. *)
Definition run_request {A} (h : Handler A) (db : DB) : Result A * DB :=
  let (r, s) := h (mkSession db db) in (r, committed s).

(** Python truthiness of an [Optional[int]]: [None] and [0] are falsy. *)
Definition truthy (o : option Z) : bool :=
  match o with
  | Some n => negb (n =? 0)
  | None => false
  end.

(** [o != n] for [o : Optional[int]] and [n : int]. *)
Definition opt_neq (o : option Z) (n : Z) : bool :=
  match o with
  | Some m => negb (m =? n)
  | None => true
  end.

(** ** Request bodies ([app/schemas/project.py], [app/api/ratings.py],
       [app/api/projects.py]) with their pydantic field constraints.
       Fields that a handler only copies into a column left out above
       (titles, texts, dates) are left out here too. *)

Record ProjectCreate := {
  pc_budget : Q                      (* Field(..., gt=0) *)
}.

Record TaskCreate := {
  tc_complexity : Z;                 (* Field(default=1, ge=1, le=5) *)
  tc_estimated_hours : option Z      (* Optional[int]: any integer *)
}.

Record ApplicationCreate := {
  ac_proposed_rate : option Q        (* Field(None, gt=0) *)
}.

Record RatingCreate := {
  rc_project_id : Z;
  rc_reviewee_id : Z;
  rc_score : Z;                      (* Field(..., ge=1, le=5) *)
  rc_quality_score : option Z;       (* Field(None, ge=1, le=5) *)
  rc_communication_score : option Z; (* Field(None, ge=1, le=5) *)
  rc_deadline_score : option Z       (* Field(None, ge=1, le=5) *)
}.

Definition in_1_5 (n : Z) : bool := (1 <=? n) && (n <=? 5).

Definition opt_in_1_5 (o : option Z) : bool :=
  match o with Some n => in_1_5 n | None => true end.

Definition gt0 (q : Q) : bool := negb (Qle_bool q 0).

Definition valid_ProjectCreate (d : ProjectCreate) : bool := gt0 (pc_budget d).

Definition valid_TaskCreate (d : TaskCreate) : bool := in_1_5 (tc_complexity d).

Definition valid_ApplicationCreate (d : ApplicationCreate) : bool :=
  match ac_proposed_rate d with Some q => gt0 q | None => true end.

Definition valid_RatingCreate (d : RatingCreate) : bool :=
  in_1_5 (rc_score d) && opt_in_1_5 (rc_quality_score d)
  && opt_in_1_5 (rc_communication_score d) && opt_in_1_5 (rc_deadline_score d).

(** ** Bodies of the update requests

    [model_dump(exclude_unset=True)] keeps the fields that the request sent,
    those sent as null too: a field of an update body is left out, null or
    a value.  The fields of nullable columns that have no column here
    (requirements, deadline, tech_stack, generated_spec, llm_estimation, bio,
    skills) are left out: whatever they carry is stored. *)

Inductive Sent (A : Type) :=
  | Unset
  | Null
  | Value (a : A).
Arguments Unset {A}.
Arguments Null {A}.
Arguments Value {A} a.

(** [setattr(obj, field, value)] for each field of [update_data], on a
    column that is not nullable and on one that is.  A null sent for a column
    that is not nullable is refused by the UPDATE that [commit] sends. *)
Definition setattr {A} (v : Sent A) (old : A) : A :=
  match v with
  | Value a => a
  | Unset | Null => old
  end.

Definition setattr_nullable {A} (v : Sent A) (old : option A) : option A :=
  match v with
  | Value a => Some a
  | Null => None
  | Unset => old
  end.

Definition is_null {A} (v : Sent A) : bool :=
  match v with
  | Null => true
  | Unset | Value _ => false
  end.

(** [ProjectUpdate] ([schemas/project.py]).  Title and description have no
    column here; they are kept for the null they may carry. *)
Record ProjectUpdate := {
  pu_title : Sent unit;              (* Field(None, min_length=1, max_length=255) *)
  pu_description : Sent unit;
  pu_budget : Sent Q;                (* Field(None, gt=0) *)
  pu_status : Sent ProjectStatus
}.

Definition valid_ProjectUpdate (d : ProjectUpdate) : bool :=
  match pu_budget d with
  | Value q => gt0 q
  | Unset | Null => true
  end.

(** [ProjectAdminUpdate] and [ProjectAdminCreate] ([api/admin.py]) *)
Record ProjectAdminUpdate := {
  pau_title : Sent unit;
  pau_description : Sent unit;
  pau_budget : Sent Q;
  pau_status : Sent ProjectStatus;
  pau_customer_id : Sent Z;
  pau_assignee_id : Sent Z
}.

Record ProjectAdminCreate := {
  pac_budget : Q;                    (* Field(..., ge=0) *)
  pac_status : ProjectStatus;        (* default DRAFT *)
  pac_customer_id : Z;
  pac_assignee_id : option Z
}.

Definition valid_ProjectAdminCreate (d : ProjectAdminCreate) : bool :=
  Qle_bool 0 (pac_budget d).

(** [UserAdminUpdate] ([api/admin.py]), without [email], which is unique and
    has no column here: the bodies modelled do not send it. *)
Record UserAdminUpdate := {
  uau_first_name : Sent unit;        (* Field(None, min_length=1, max_length=100) *)
  uau_last_name : Sent unit;
  uau_role : Sent UserRole;
  uau_rating_score : Sent Q;         (* Field(None, ge=0, le=5) *)
  uau_completed_projects : Sent Z;   (* Field(None, ge=0) *)
  uau_is_active : Sent bool;
  uau_is_verified : Sent unit
}.

Definition valid_UserAdminUpdate (d : UserAdminUpdate) : bool :=
  match uau_rating_score d with
  | Value q => Qle_bool 0 q && Qle_bool q 5
  | Unset | Null => true
  end
  && match uau_completed_projects d with
     | Value n => 0 <=? n
     | Unset | Null => true
     end.

(** ** Queries and writes shared by the handlers *)

Definition select_project (project_id : Z) : Handler (list Project.t) :=
  execute (fun d => by_id Project.id project_id (projects d)).

Definition select_user (user_id : Z) : Handler (list User.t) :=
  execute (fun d => by_id User.id user_id (users d)).

Definition flush_project (p : Project.t) : Handler unit :=
  write (fun d => with_projects (flush_row Project.id p (projects d)) d).

Definition flush_task (k : Task.t) : Handler unit :=
  write (fun d => with_tasks (flush_row Task.id k (tasks d)) d).

Definition flush_application (a : Application.t) : Handler unit :=
  write (fun d => with_applications (flush_row Application.id a (applications d)) d).

Definition flush_user (u : User.t) : Handler unit :=
  write (fun d => with_users (flush_row User.id u (users d)) d).

(** [db.add(obj)]: the new row gets its primary key and joins the table. *)
Definition add_project (row : Z -> Project.t) : Handler Project.t :=
  new_id <- execute (fun d => next_id Project.id (projects d)) ;;
  write (fun d => with_projects (projects d ++ [row new_id]) d) ;;;
  ret (row new_id).

Definition add_task (row : Z -> Task.t) : Handler Task.t :=
  new_id <- execute (fun d => next_id Task.id (tasks d)) ;;
  write (fun d => with_tasks (tasks d ++ [row new_id]) d) ;;;
  ret (row new_id).

Definition add_application (row : Z -> Application.t) : Handler Application.t :=
  new_id <- execute (fun d => next_id Application.id (applications d)) ;;
  write (fun d => with_applications (applications d ++ [row new_id]) d) ;;;
  ret (row new_id).

Definition add_rating (row : Z -> Rating.t) : Handler Rating.t :=
  new_id <- execute (fun d => next_id Rating.id (ratings d)) ;;
  write (fun d => with_ratings (ratings d ++ [row new_id]) d) ;;;
  ret (row new_id).

(** [func.max(Task.order)] over the rows of a project: NULL on no row. *)
Definition max_order (rows : list Task.t) : option Z :=
  match rows with
  | [] => None
  | k :: rest => Some (fold_right (fun r m => Z.max (Task.order r) m) (Task.order k) rest)
  end.

(** [func.avg(Rating.score)]: NULL on no row, and otherwise the mean of the
    scores, taken exactly. *)
Definition sql_avg (scores : list Z) : option Q :=
  match scores with
  | [] => None
  | _ :: _ => Some (Qmake (fold_right Z.add 0 scores) (Pos.of_nat (length scores)))
  end.

(** [x or 0] on the result of [scalar()]. *)
Definition or_0 (x : option Q) : Q :=
  match x with
  | Some q => if Qeq_bool q 0 then 0%Q else q
  | None => 0%Q
  end.

Definition or_0Z (x : option Z) : Z :=
  match x with
  | Some n => if n =? 0 then 0 else n
  | None => 0
  end.

(** A parameter bound to an INTEGER column.  The database configured in
    [core/config.py] is PostgreSQL, whose INTEGER has 32 bits; its driver
    refuses a value outside that range when the statement is sent, and the
    transaction is lost.  (SQLite, which [core/database.py] also accepts,
    takes 64 bits.) *)
Definition INTEGER_fits (n : Z) : bool := (- 2 ^ 31 <=? n) && (n <? 2 ^ 31).

Definition INTEGER_fits_opt (o : option Z) : bool :=
  match o with
  | Some n => INTEGER_fits n
  | None => true
  end.

Definition INTEGER_fits_sent (v : Sent Z) : bool :=
  match v with
  | Value n => INTEGER_fits n
  | Unset | Null => true
  end.

(** [ForeignKey("users.id")] on a column that the statement sets: the
    database configured refuses a value that names no user.  (SQLite checks
    foreign keys only when asked to.) *)
Definition names_a_user (user_id : option Z) (rows : list User.t) : bool :=
  match user_id with
  | Some n => existsb (fun u => User.id u =? n) rows
  | None => true
  end.

Definition sent_names_a_user (v : Sent Z) (rows : list User.t) : bool :=
  match v with
  | Value n => names_a_user (Some n) rows
  | Unset | Null => true
  end.

(** The int held by an [Optional[int]] that passed a truthiness test. *)
Definition the_id (o : option Z) : Z :=
  match o with
  | Some n => n
  | None => 0
  end.

(** ** [float(avg_score)]

    Python's [float] is IEEE 754 binary64: 53 significant bits, rounding to
    nearest, ties to even.  A value in the binade [2^e <= |q| < 2^(e+1)] is
    rounded to a multiple of [2^(e-52)].  The exponent range is left
    unbounded: an average of stored INTEGER scores is far from both ends of
    it.  (A database that computes [avg] in binary64 itself, as SQLite does,
    divides the exact sum by the count with this same rounding, and [float]
    then has nothing left to round.) *)

(** [floor(log2 q)] for [0 < q]. *)
Definition floor_log2 (q : Q) : Z :=
  let e := Z.log2 (Qnum q) - Z.log2 (Zpos (Qden q)) in
  if Qle_bool (2 ^ e) q then e else e - 1.

(** The nearest integer, the even one of two that are equally near. *)
Definition round_half_even (x : Q) : Z :=
  let n := Qfloor x in
  match Qcompare (x - inject_Z n) (1 # 2) with
  | Lt => n
  | Gt => n + 1
  | Eq => if Z.even n then n else n + 1
  end.

(** The unit in the last place of the binade of [q]. *)
Definition ulp (q : Q) : Q := (2 ^ (floor_log2 (Qabs q) - 52))%Q.

Definition float (q : Q) : Q :=
  let q := Qred q in
  if Qeq_bool q 0 then 0%Q
  else Qred (inject_Z (round_half_even (q / ulp q)) * ulp q).

(** ** [app/api/projects.py] *)

Module Projects.

(** [POST /projects/] *)
Definition create_project (project_data : ProjectCreate) (current_user : User.t)
  : Handler Project.t :=
  if negb (UserRole_eqb (User.role current_user) CUSTOMER) then
    raise (HTTPException 403 Only_customers_create_projects)
  else
    project <- add_project (fun new_id =>
      Project.mk new_id (pc_budget project_data) DRAFT (User.id current_user) None) ;;
    commit ;;;
    rows <- select_project (Project.id project) ;;
    scalar_one rows.

(** [PUT /projects/{project_id}] *)
Definition update_project (project_id : Z) (project_data : ProjectUpdate)
    (current_user : User.t) : Handler Project.t :=
  rows <- select_project project_id ;;
  found <- scalar_one_or_none rows ;;
  match found with
  | None => raise (HTTPException 404 Project_not_found)
  | Some project =>
    if negb (Project.customer_id project =? User.id current_user) then
      raise (HTTPException 403 No_rights_to_edit)
    else
      flush_project
        (Project.mk (Project.id project)
           (setattr (pu_budget project_data) (Project.budget project))
           (setattr (pu_status project_data) (Project.status project))
           (Project.customer_id project)
           (Project.assignee_id project)) ;;;
      (* the UPDATE that commit sends: NOT NULL on the columns it sets *)
      (if is_null (pu_title project_data) || is_null (pu_description project_data)
          || is_null (pu_budget project_data) || is_null (pu_status project_data)
       then raise IntegrityError else commit) ;;;
      rows <- select_project project_id ;;
      scalar_one rows
  end.

(** [POST /projects/{project_id}/publish] *)
Definition publish_project (project_id : Z) (current_user : User.t)
  : Handler Project.t :=
  rows <- select_project project_id ;;
  found <- scalar_one_or_none rows ;;
  match found with
  | None => raise (HTTPException 404 Project_not_found)
  | Some project =>
    if negb (Project.customer_id project =? User.id current_user) then
      raise (HTTPException 403 No_rights_to_publish)
    else if negb (ProjectStatus_eqb (Project.status project) DRAFT) then
      raise (HTTPException 400 Only_draft_can_be_published)
    else
      flush_project (Project.with_status OPEN project) ;;;
      commit ;;;
      rows <- select_project project_id ;;
      scalar_one rows
  end.

(** [POST /projects/{project_id}/complete] *)
Definition complete_project (project_id : Z) (current_user : User.t)
  : Handler Project.t :=
  rows <- select_project project_id ;;
  found <- scalar_one_or_none rows ;;
  match found with
  | None => raise (HTTPException 404 Project_not_found)
  | Some project =>
    if negb (Project.customer_id project =? User.id current_user) then
      raise (HTTPException 403 Only_customer_can_complete)
    else if negb (ProjectStatus_eqb (Project.status project) IN_PROGRESS
                  || ProjectStatus_eqb (Project.status project) REVIEW) then
      raise (HTTPException 400 Complete_needs_in_progress_or_review)
    else if negb (truthy (Project.assignee_id project)) then
      raise (HTTPException 400 Cannot_complete_without_assignee)
    else
      flush_project (Project.with_status COMPLETED project) ;;;
      commit ;;;
      rows <- select_project project_id ;;
      scalar_one rows
  end.

(** [POST /projects/{project_id}/request-review] *)
Definition request_review (project_id : Z) (current_user : User.t)
  : Handler Project.t :=
  rows <- select_project project_id ;;
  found <- scalar_one_or_none rows ;;
  match found with
  | None => raise (HTTPException 404 Project_not_found)
  | Some project =>
    if opt_neq (Project.assignee_id project) (User.id current_user) then
      raise (HTTPException 403 Only_assignee_requests_review)
    else if negb (ProjectStatus_eqb (Project.status project) IN_PROGRESS) then
      raise (HTTPException 400 Review_needs_in_progress)
    else
      flush_project (Project.with_status REVIEW project) ;;;
      commit ;;;
      rows <- select_project project_id ;;
      scalar_one rows
  end.

(** [POST /projects/{project_id}/apply] *)
Definition apply_for_project (project_id : Z) (application_data : ApplicationCreate)
    (current_user : User.t) : Handler Application.t :=
  if negb (UserRole_eqb (User.role current_user) STUDENT) then
    raise (HTTPException 403 Only_students_apply)
  else
    rows <- select_project project_id ;;
    found <- scalar_one_or_none rows ;;
    match found with
    | None => raise (HTTPException 404 Project_not_found)
    | Some project =>
      if negb (ProjectStatus_eqb (Project.status project) OPEN) then
        raise (HTTPException 400 Project_not_open)
      else
        rows <- execute (fun d =>
          filter (fun a => Application.student_id a =? User.id current_user)
            (filter (fun a => Application.project_id a =? project_id)
               (applications d))) ;;
        existing <- scalar_one_or_none rows ;;
        match existing with
        | Some _ => raise (HTTPException 400 Already_applied)
        | None =>
          application <- add_application (fun new_id =>
            Application.mk new_id project_id (User.id current_user)
              (ac_proposed_rate application_data) PENDING) ;;
          commit ;;;
          rows <- execute (fun d =>
            by_id Application.id (Application.id application) (applications d)) ;;
          scalar_one rows
        end
    end.

(** [PUT /projects/{project_id}/applications/{application_id}] *)
Definition update_application_status (project_id application_id : Z)
    (status_data : ApplicationStatus) (current_user : User.t)
  : Handler Application.t :=
  rows <- select_project project_id ;;
  found <- scalar_one_or_none rows ;;
  match found with
  | None => raise (HTTPException 403 No_access)
  | Some project =>
    if negb (Project.customer_id project =? User.id current_user) then
      raise (HTTPException 403 No_access)
    else
      rows <- execute (fun d =>
        filter (fun a => Application.project_id a =? project_id)
          (filter (fun a => Application.id a =? application_id)
             (applications d))) ;;
      found <- scalar_one_or_none rows ;;
      match found with
      | None => raise (HTTPException 404 Application_not_found)
      | Some application =>
        flush_application (Application.with_status status_data application) ;;;
        (if ApplicationStatus_eqb status_data ACCEPTED then
           flush_project (Project.with_status IN_PROGRESS project)
         else ret tt) ;;;
        commit ;;;
        rows <- execute (fun d =>
          by_id Application.id (Application.id application) (applications d)) ;;
        scalar_one rows
      end
  end.

(** [PUT /projects/{project_id}/tasks/{task_id}/assign] *)
Definition assign_task_assignee (project_id task_id : Z) (assignee_data : option Z)
    (current_user : User.t) : Handler Task.t :=
  rows <- select_project project_id ;;
  found <- scalar_one_or_none rows ;;
  match found with
  | None => raise (HTTPException 404 Project_not_found)
  | Some project =>
    if negb (Project.customer_id project =? User.id current_user) then
      raise (HTTPException 403 Only_owner_assigns)
    else
      rows <- execute (fun d =>
        filter (fun k => Task.project_id k =? project_id)
          (filter (fun k => Task.id k =? task_id) (tasks d))) ;;
      found <- scalar_one_or_none rows ;;
      match found with
      | None => raise (HTTPException 404 Task_not_found)
      | Some task =>
        (if truthy assignee_data then
           rows <- select_user (the_id assignee_data) ;;
           found <- scalar_one_or_none rows ;;
           match found with
           | None => raise (HTTPException 404 Assignee_not_found)
           | Some assignee =>
             if negb (UserRole_eqb (User.role assignee) STUDENT) then
               raise (HTTPException 400 Assignee_must_be_student)
             else
               flush_task (Task.with_assignee_id assignee_data task)
           end
         else
           flush_task (Task.with_assignee_id None task)) ;;;
        commit ;;;
        rows <- execute (fun d => by_id Task.id task_id (tasks d)) ;;
        scalar_one rows
      end
  end.

(** [PUT /projects/{project_id}/assign] *)
Definition assign_project_assignee (project_id : Z) (assignee_data : option Z)
    (current_user : User.t) : Handler Project.t :=
  rows <- select_project project_id ;;
  found <- scalar_one_or_none rows ;;
  match found with
  | None => raise (HTTPException 404 Project_not_found)
  | Some project =>
    if negb (Project.customer_id project =? User.id current_user) then
      raise (HTTPException 403 Only_owner_assigns)
    else
      (if truthy assignee_data then
         rows <- select_user (the_id assignee_data) ;;
         found <- scalar_one_or_none rows ;;
         match found with
         | None => raise (HTTPException 404 Assignee_not_found)
         | Some assignee =>
           if negb (UserRole_eqb (User.role assignee) STUDENT) then
             raise (HTTPException 400 Assignee_must_be_student)
           else
             let project := Project.with_assignee_id assignee_data project in
             flush_project
               (if ProjectStatus_eqb (Project.status project) OPEN
                then Project.with_status IN_PROGRESS project
                else project)
         end
       else
         flush_project (Project.with_assignee_id None project)) ;;;
      commit ;;;
      rows <- select_project project_id ;;
      scalar_one rows
  end.

(** [POST /projects/{project_id}/tasks] *)
Definition create_task (project_id : Z) (task_data : TaskCreate)
    (current_user : User.t) : Handler Task.t :=
  rows <- select_project project_id ;;
  found <- scalar_one_or_none rows ;;
  match found with
  | None => raise (HTTPException 404 Project_not_found)
  | Some project =>
    if negb (Project.customer_id project =? User.id current_user) then
      raise (HTTPException 403 Only_owner_creates_tasks)
    else
      max_order <- execute (fun d =>
        max_order (filter (fun k => Task.project_id k =? project_id) (tasks d))) ;;
      let next_order := or_0Z max_order + 1 in
      task <- add_task (fun new_id =>
        Task.mk new_id (tc_complexity task_data) (tc_estimated_hours task_data)
          TASK_PENDING next_order project_id None) ;;
      (* the INSERT that commit sends binds estimated_hours and order *)
      (if INTEGER_fits_opt (tc_estimated_hours task_data)
          && INTEGER_fits next_order
       then commit else raise DBAPIError) ;;;
      rows <- execute (fun d => by_id Task.id (Task.id task) (tasks d)) ;;
      task <- scalar_one rows ;;
      rows <- execute (fun d => by_id Task.id (Task.id task) (tasks d)) ;;
      scalar_one rows
  end.

End Projects.

(** ** [app/api/ratings.py] *)

Module Ratings.

(** [POST /ratings/] *)
Definition create_rating (rating_data : RatingCreate) (current_user : User.t)
  : Handler Rating.t :=
  rows <- select_project (rc_project_id rating_data) ;;
  found <- scalar_one_or_none rows ;;
  match found with
  | None => raise (HTTPException 404 Project_not_found)
  | Some project =>
    if negb (ProjectStatus_eqb (Project.status project) COMPLETED) then
      raise (HTTPException 400 Rating_only_after_completion)
    else
      (match User.role current_user with
       | CUSTOMER =>
         if negb (Project.customer_id project =? User.id current_user) then
           raise (HTTPException 403 Not_customer_of_project)
         else if negb (truthy (Project.assignee_id project))
                 || opt_neq (Project.assignee_id project) (rc_reviewee_id rating_data) then
           raise (HTTPException 400 Wrong_assignee)
         else ret tt
       | STUDENT =>
         if opt_neq (Project.assignee_id project) (User.id current_user) then
           raise (HTTPException 403 Not_assignee_of_project)
         else if negb (Project.customer_id project =? rc_reviewee_id rating_data) then
           raise (HTTPException 400 Wrong_customer)
         else ret tt
       | ADMIN => raise (HTTPException 403 Only_customers_and_students_rate)
       end) ;;;
      rows <- execute (fun d =>
        filter (fun r => Rating.reviewer_id r =? User.id current_user)
          (filter (fun r => Rating.project_id r =? rc_project_id rating_data)
             (ratings d))) ;;
      existing <- scalar_one_or_none rows ;;
      match existing with
      | Some _ => raise (HTTPException 400 Already_rated)
      | None =>
        rating <- add_rating (fun new_id =>
          Rating.mk new_id (rc_project_id rating_data) (User.id current_user)
            (rc_reviewee_id rating_data) (rc_score rating_data)
            (rc_quality_score rating_data) (rc_communication_score rating_data)
            (rc_deadline_score rating_data)) ;;
        rows <- select_user (rc_reviewee_id rating_data) ;;
        found <- scalar_one_or_none rows ;;
        (match found with
         | Some reviewee =>
           avg_result <- execute (fun d =>
             sql_avg (map Rating.score
               (filter (fun r => Rating.reviewee_id r =? User.id reviewee)
                  (ratings d)))) ;;
           let avg_score := or_0 avg_result in
           let reviewee := User.with_rating_score (float avg_score) reviewee in
           flush_user
             (if UserRole_eqb (User.role current_user) CUSTOMER
              then User.with_completed_projects
                     (User.completed_projects reviewee + 1) reviewee
              else reviewee)
         | None => ret tt
         end) ;;;
        commit ;;;
        rows <- execute (fun d => by_id Rating.id (Rating.id rating) (ratings d)) ;;
        scalar_one rows
      end
  end.

End Ratings.

(** ** [app/api/admin.py]: the endpoints of the operator that write the
       tables of the workflow *)

Module Admin.

(** [DELETE /admin/projects/{project_id}]: the project is cancelled, not
    removed.  [current_admin] comes from the [get_current_admin_user]
    dependency; the handler itself does not look at it. *)
Definition delete_project (project_id : Z) (current_admin : User.t)
  : Handler unit :=
  rows <- select_project project_id ;;
  found <- scalar_one_or_none rows ;;
  match found with
  | None => raise (HTTPException 404 Project_not_found)
  | Some project =>
    flush_project (Project.with_status CANCELLED project) ;;;
    commit
  end.

(** [PATCH /admin/projects/{project_id}]: every field sent is written, the
    status, the owner and the assignee among them, with no check of the
    handler's own; the database checks the columns. *)
Definition update_project (project_id : Z) (data : ProjectAdminUpdate)
    (current_admin : User.t) : Handler unit :=
  rows <- select_project project_id ;;
  found <- scalar_one_or_none rows ;;
  match found with
  | None => raise (HTTPException 404 Project_not_found)
  | Some project =>
    flush_project
      (Project.mk (Project.id project)
         (setattr (pau_budget data) (Project.budget project))
         (setattr (pau_status data) (Project.status project))
         (setattr (pau_customer_id data) (Project.customer_id project))
         (setattr_nullable (pau_assignee_id data) (Project.assignee_id project))) ;;;
    (* the UPDATE that commit sends: its INTEGER parameters, then NOT NULL
       and FOREIGN KEY on the columns it sets *)
    stored_users <- execute users ;;
    (if negb (INTEGER_fits_sent (pau_customer_id data)
              && INTEGER_fits_sent (pau_assignee_id data)) then
       raise DBAPIError
     else if is_null (pau_title data) || is_null (pau_description data)
             || is_null (pau_budget data) || is_null (pau_status data)
             || is_null (pau_customer_id data)
             || negb (sent_names_a_user (pau_customer_id data) stored_users)
             || negb (sent_names_a_user (pau_assignee_id data) stored_users) then
       raise IntegrityError
     else commit) ;;;
    rows <- select_project project_id ;;
    _ <- scalar_one rows ;;
    ret tt
  end.

(** [POST /admin/projects]: the owner must be a stored user, of any role;
    the assignee, when given and not 0, must be a stored user, of any role. *)
Definition create_project (data : ProjectAdminCreate) (current_admin : User.t)
  : Handler unit :=
  rows <- select_user (pac_customer_id data) ;;
  customer <- scalar_one_or_none rows ;;
  match customer with
  | None => raise (HTTPException 400 Customer_not_found)
  | Some _ =>
    (if truthy (pac_assignee_id data) then
       rows <- select_user (the_id (pac_assignee_id data)) ;;
       assignee <- scalar_one_or_none rows ;;
       match assignee with
       | None => raise (HTTPException 400 Assignee_not_found)
       | Some _ => ret tt
       end
     else ret tt) ;;;
    project <- add_project (fun new_id =>
      Project.mk new_id (pac_budget data) (pac_status data)
        (pac_customer_id data) (pac_assignee_id data)) ;;
    (* the INSERT that commit sends: an assignee of 0 passed the test above
       unchecked and meets the FOREIGN KEY *)
    stored_users <- execute users ;;
    (if names_a_user (pac_assignee_id data) stored_users
     then commit else raise IntegrityError) ;;;
    rows <- select_project (Project.id project) ;;
    _ <- scalar_one rows ;;
    ret tt
  end.

(** [DELETE /admin/ratings/{rating_id}]: the row is removed.  The handler
    does not touch the reviewee. *)
Definition delete_rating (rating_id : Z) (current_admin : User.t)
  : Handler unit :=
  rows <- execute (fun d => by_id Rating.id rating_id (ratings d)) ;;
  found <- scalar_one_or_none rows ;;
  match found with
  | None => raise (HTTPException 404 Rating_not_found)
  | Some rating =>
    write (fun d =>
      with_ratings
        (filter (fun r => negb (Rating.id r =? Rating.id rating)) (ratings d)) d) ;;;
    commit
  end.

(** [PATCH /admin/users/{user_id}] *)
Definition update_user (user_id : Z) (data : UserAdminUpdate)
    (current_admin : User.t) : Handler unit :=
  rows <- select_user user_id ;;
  found <- scalar_one_or_none rows ;;
  match found with
  | None => raise (HTTPException 404 User_not_found)
  | Some user =>
    flush_user
      (User.mk (User.id user)
         (setattr (uau_role data) (User.role user))
         (setattr (uau_rating_score data) (User.rating_score user))
         (setattr (uau_completed_projects data) (User.completed_projects user))
         (setattr (uau_is_active data) (User.is_active user))) ;;;
    (* the UPDATE that commit sends: its INTEGER parameter, then NOT NULL *)
    (if negb (INTEGER_fits_sent (uau_completed_projects data)) then
       raise DBAPIError
     else if is_null (uau_first_name data) || is_null (uau_last_name data)
             || is_null (uau_role data) || is_null (uau_rating_score data)
             || is_null (uau_completed_projects data)
             || is_null (uau_is_active data) || is_null (uau_is_verified data) then
       raise IntegrityError
     else commit) ;;;
    rows <- select_user user_id ;;
    _ <- scalar_one rows ;;
    ret tt
  end.

(** [POST /admin/users/{user_id}/block] *)
Definition block_user (user_id : Z) (current_admin : User.t) : Handler unit :=
  rows <- select_user user_id ;;
  found <- scalar_one_or_none rows ;;
  match found with
  | None => raise (HTTPException 404 User_not_found)
  | Some user =>
    if User.id user =? User.id current_admin then
      raise (HTTPException 400 Cannot_block_yourself)
    else
      flush_user (User.with_is_active false user) ;;;
      commit
  end.

(** [POST /admin/users/{user_id}/unblock] *)
Definition unblock_user (user_id : Z) (current_admin : User.t) : Handler unit :=
  rows <- select_user user_id ;;
  found <- scalar_one_or_none rows ;;
  match found with
  | None => raise (HTTPException 404 User_not_found)
  | Some user =>
    flush_user (User.with_is_active true user) ;;;
    commit
  end.

End Admin.

(** ** The operations of the workflow, as requests *)

Inductive Op :=
  | CreateProject (fields : ProjectCreate) (caller : User.t)
  | PublishProject (project_id : Z) (caller : User.t)
  | AssignWorker (project_id : Z) (worker_id : option Z) (caller : User.t)
  | Apply (project_id : Z) (fields : ApplicationCreate) (worker : User.t)
  | DecideApplication (project_id application_id : Z)
      (decision : ApplicationStatus) (caller : User.t)
  | RequestReview (project_id : Z) (caller : User.t)
  | CompleteProject (project_id : Z) (caller : User.t)
  | CreateTask (project_id : Z) (fields : TaskCreate) (caller : User.t)
  | AssignTask (project_id task_id : Z) (worker_id : option Z) (caller : User.t)
  | SubmitRating (fields : RatingCreate) (reviewer : User.t)
  | Cancel (project_id : Z) (operator : User.t).

(** FastAPI validates the body against its schema before the handler is
    called, and answers 422 if it does not fit. *)
Definition validated {A} (ok : bool) (h : Handler A) : Handler A :=
  if ok then h else raise (HTTPException 422 Validation_error).

Definition answered {A} (h : Handler A) : Handler unit :=
  _ <- h ;; ret tt.

Definition handler_of (op : Op) : Handler unit :=
  match op with
  | CreateProject fields caller =>
      answered (validated (valid_ProjectCreate fields)
                  (Projects.create_project fields caller))
  | PublishProject project_id caller =>
      answered (Projects.publish_project project_id caller)
  | AssignWorker project_id worker_id caller =>
      answered (Projects.assign_project_assignee project_id worker_id caller)
  | Apply project_id fields worker =>
      answered (validated (valid_ApplicationCreate fields)
                  (Projects.apply_for_project project_id fields worker))
  | DecideApplication project_id application_id decision caller =>
      answered (Projects.update_application_status project_id application_id
                  decision caller)
  | RequestReview project_id caller =>
      answered (Projects.request_review project_id caller)
  | CompleteProject project_id caller =>
      answered (Projects.complete_project project_id caller)
  | CreateTask project_id fields caller =>
      answered (validated (valid_TaskCreate fields)
                  (Projects.create_task project_id fields caller))
  | AssignTask project_id task_id worker_id caller =>
      answered (Projects.assign_task_assignee project_id task_id worker_id caller)
  | SubmitRating fields reviewer =>
      answered (validated (valid_RatingCreate fields)
                  (Ratings.create_rating fields reviewer))
  | Cancel project_id operator =>
      Admin.delete_project project_id operator
  end.

Definition run_op (op : Op) (db : DB) : Result unit * DB :=
  run_request (handler_of op) db.

(** A run of requests, one after the other; [None] as soon as one fails. *)
Fixpoint run_all_ok (ops : list Op) (db : DB) : option DB :=
  match ops with
  | [] => Some db
  | op :: rest =>
    match run_op op db with
    | (Ok _, db') => run_all_ok rest db'
    | (Err _, _) => None
    end
  end.

(** ** The error classes of the specification

    The source reports every failure as an [HTTPException] with a status code
    and a message.  The specification (section 7) speaks of five classes; the
    table below reads each raised exception as the class section 4 and
    section 7 give to its guard. *)

Inductive ErrorClass := NotFound | Forbidden | InvalidState | InvalidArgument | Conflict.

Definition error_class (e : Error) : option ErrorClass :=
  match e with
  | HTTPException code d =>
    if code =? 404 then Some NotFound
    else if code =? 403 then Some Forbidden
    else if code =? 400 then
      match d with
      | Only_draft_can_be_published | Complete_needs_in_progress_or_review
      | Review_needs_in_progress | Project_not_open
      | Rating_only_after_completion => Some InvalidState
      | Cannot_complete_without_assignee | Assignee_must_be_student
      | Wrong_assignee | Wrong_customer => Some InvalidArgument
      | Already_applied | Already_rated => Some Conflict
      | _ => None
      end
    else None
  | MultipleResultsFound | NoResultFound | IntegrityError | DBAPIError => None
  end.

(** The transition graph of section 4.1 of the specification. *)
Definition graph_edge (a b : ProjectStatus) : bool :=
  match a, b with
  | DRAFT, OPEN | OPEN, IN_PROGRESS | IN_PROGRESS, REVIEW
  | IN_PROGRESS, COMPLETED | REVIEW, COMPLETED => true
  | (DRAFT | OPEN | IN_PROGRESS | REVIEW), CANCELLED => true
  | _, _ => false
  end.

Definition terminal (a : ProjectStatus) : bool :=
  match a with
  | COMPLETED | CANCELLED => true
  | _ => false
  end.


(** ** Integrity of the stored data: primary keys are unique, and the
       [project_id] of an application or of a rating names a stored
       project ([primary_key=True], [ForeignKey("projects.id")]). *)

Definition pk_unique (db : DB) : Prop :=
  NoDup (map User.id (users db)) /\
  NoDup (map Project.id (projects db)) /\
  NoDup (map Task.id (tasks db)) /\
  NoDup (map Application.id (applications db)) /\
  NoDup (map Rating.id (ratings db)).

Definition fk_project (db : DB) : Prop :=
  (forall a, In a (applications db) ->
     In (Application.project_id a) (map Project.id (projects db))) /\
  (forall r, In r (ratings db) ->
     In (Rating.project_id r) (map Project.id (projects db))).

(** ** Readings of [create_rating] used to state what it does *)

(** The scores of the ratings given to a user: what
    [select(func.avg(Rating.score)).where(Rating.reviewee_id == id)] averages. *)
Definition scores_of (reviewee_id : Z) (rows : list Rating.t) : list Z :=
  map Rating.score (filter (fun r => Rating.reviewee_id r =? reviewee_id) rows).

(** The exception, if any, of the reviewer / reviewee check of
    [create_rating] (ratings.py:74-100). *)
Definition pairing_error (project : Project.t) (d : RatingCreate) (u : User.t)
  : option Error :=
  match User.role u with
  | CUSTOMER =>
    if negb (Project.customer_id project =? User.id u) then
      Some (HTTPException 403 Not_customer_of_project)
    else if negb (truthy (Project.assignee_id project))
            || opt_neq (Project.assignee_id project) (rc_reviewee_id d) then
      Some (HTTPException 400 Wrong_assignee)
    else None
  | STUDENT =>
    if opt_neq (Project.assignee_id project) (User.id u) then
      Some (HTTPException 403 Not_assignee_of_project)
    else if negb (Project.customer_id project =? rc_reviewee_id d) then
      Some (HTTPException 400 Wrong_customer)
    else None
  | ADMIN => Some (HTTPException 403 Only_customers_and_students_rate)
  end.

(** The row [create_rating] adds. *)
Definition new_rating (db : DB) (d : RatingCreate) (u : User.t) : Rating.t :=
  Rating.mk (next_id Rating.id (ratings db)) (rc_project_id d) (User.id u)
    (rc_reviewee_id d) (rc_score d) (rc_quality_score d)
    (rc_communication_score d) (rc_deadline_score d).

(** The reviewee after [create_rating] has recomputed the score from
    [rows], the ratings table with the new row in it. *)
Definition rated (rows : list Rating.t) (u : User.t) (reviewee : User.t) : User.t :=
  let reviewee :=
    User.with_rating_score
      (float (or_0 (sql_avg (scores_of (User.id reviewee) rows)))) reviewee in
  if UserRole_eqb (User.role u) CUSTOMER
  then User.with_completed_projects (User.completed_projects reviewee + 1) reviewee
  else reviewee.

(** ** Observations used to state the scenario *)

Definition status_of (project_id : Z) (db : DB) : list ProjectStatus :=
  map Project.status (by_id Project.id project_id (projects db)).

Definition assignee_of (project_id : Z) (db : DB) : list (option Z) :=
  map Project.assignee_id (by_id Project.id project_id (projects db)).

Definition application_status_of (application_id : Z) (db : DB)
  : list ApplicationStatus :=
  map Application.status (by_id Application.id application_id (applications db)).

(** ** Concrete data for the examples

    [U1] and [U4] are requesters, [U2] and [U3] workers, [U5] an operator;
    [db0] holds them and nothing else. *)

Definition U1 : User.t := User.mk 1 CUSTOMER 0 0 true.
Definition U2 : User.t := User.mk 2 STUDENT 0 0 true.
Definition U3 : User.t := User.mk 3 STUDENT 0 0 true.
Definition U4 : User.t := User.mk 4 CUSTOMER 0 0 true.
Definition U5 : User.t := User.mk 5 ADMIN 0 0 true.

Definition db0 : DB := mkDB [U1; U2; U3; U4; U5] [] [] [] [].

Definition budget_1000 : ProjectCreate := Build_ProjectCreate 1000.
Definition no_rate : ApplicationCreate := Build_ApplicationCreate None.

(** U1 creates and publishes project 1, U2 applies, U1 accepts. *)
Definition accepting_run : list Op :=
  [CreateProject budget_1000 U1; PublishProject 1 U1; Apply 1 no_rate U2;
   DecideApplication 1 1 ACCEPTED U1].

Definition db_accepted : DB :=
  mkDB [U1; U2; U3; U4; U5]
    [Project.mk 1 1000 IN_PROGRESS 1 None] []
    [Application.mk 1 1 2 None ACCEPTED] [].

(** U2 and U3 both apply to project 1, U1 assigns U2 directly, U2 asks for
    review, U1 completes. *)
Definition completing_run : list Op :=
  [CreateProject budget_1000 U1; PublishProject 1 U1; Apply 1 no_rate U2;
   Apply 1 no_rate U3; AssignWorker 1 (Some 2) U1; RequestReview 1 U2;
   CompleteProject 1 U1].

Definition db_completed : DB :=
  mkDB [U1; U2; U3; U4; U5]
    [Project.mk 1 1000 COMPLETED 1 (Some 2)] []
    [Application.mk 1 1 2 None PENDING; Application.mk 2 1 3 None PENDING] [].

(** Project 1 published and nothing more. *)
Definition db_open : DB :=
  mkDB [U1; U2; U3; U4; U5] [Project.mk 1 1000 OPEN 1 None] [] [] [].

(** Project 1 in progress with U2 assigned directly. *)
Definition db_assigned : DB :=
  mkDB [U1; U2; U3; U4; U5] [Project.mk 1 1000 IN_PROGRESS 1 (Some 2)] [] [] [].

(** Project 1 published, U2 has applied. *)
Definition db_applied : DB :=
  mkDB [U1; U2; U3; U4; U5] [Project.mk 1 1000 OPEN 1 None] []
    [Application.mk 1 1 2 None PENDING] [].

(** Two completed projects, of U1 and of U4, both done by U2. *)
Definition db_two_completed : DB :=
  mkDB [U1; U2; U3; U4; U5]
    [Project.mk 1 1000 COMPLETED 1 (Some 2);
     Project.mk 2 500 COMPLETED 4 (Some 2)] [] [] [].

Definition rate_U2 (project_id score : Z) : RatingCreate :=
  Build_RatingCreate project_id 2 score None None None.

(** [db_two_completed] after U1 has rated U2 with 5 and U4 with 4. *)
Definition db_two_rated : DB :=
  mkDB [U1; User.mk 2 STUDENT (9 # 2) 2 true; U3; U4; U5]
    [Project.mk 1 1000 COMPLETED 1 (Some 2);
     Project.mk 2 500 COMPLETED 4 (Some 2)] [] []
    [Rating.mk 1 1 1 2 5 None None None; Rating.mk 2 2 4 2 4 None None None].



(** ** What the workflow leaves alone

    The columns of a row that no request of the workflow writes. *)

Definition user_identity (u : User.t) : Z * UserRole * bool :=
  (User.id u, User.role u, User.is_active u).

Definition project_fixed (p : Project.t) : Z * Q * Z :=
  (Project.id p, Project.budget p, Project.customer_id p).

Definition task_fixed (k : Task.t) : Z * Z * option Z * TaskStatus * Z * Z :=
  (Task.id k, Task.complexity k, Task.estimated_hours k, Task.status k,
   Task.order k, Task.project_id k).

Definition application_fixed (a : Application.t) : Z * Z * Z * option Q :=
  (Application.id a, Application.project_id a, Application.student_id a,
   Application.proposed_rate a).

(** ** Uniqueness laws that the handlers check by hand (no table has a
       unique constraint besides its primary key) *)

Definition application_pair (a : Application.t) : Z * Z :=
  (Application.project_id a, Application.student_id a).

Definition applications_unique (db : DB) : Prop :=
  NoDup (map application_pair (applications db)).

Definition rating_pair (r : Rating.t) : Z * Z :=
  (Rating.project_id r, Rating.reviewer_id r).

Definition ratings_unique (db : DB) : Prop :=
  NoDup (map rating_pair (ratings db)).

Definition task_slot (k : Task.t) : Z * Z :=
  (Task.project_id k, Task.order k).

Definition task_orders_unique (db : DB) : Prop :=
  NoDup (map task_slot (tasks db)).

(** ** Score columns as pydantic admits them *)

Definition scores_in_range (db : DB) : Prop :=
  Forall (fun r => 1 <= Rating.score r <= 5) (ratings db).

(** ** The assignee of a project or of a task, when there is one, is a
       stored worker *)

Definition names_a_worker (stored : list User.t) (assignee : option Z) : Prop :=
  truthy assignee = true ->
  exists w, by_id User.id (the_id assignee) stored = [w] /\ User.role w = STUDENT.

Definition assignees_are_workers (db : DB) : Prop :=
  (forall p, In p (projects db) -> names_a_worker (users db) (Project.assignee_id p)) /\
  (forall k, In k (tasks db) -> names_a_worker (users db) (Task.assignee_id k)).

(** ** Reading a project ([app/api/projects.py], [GET /projects/{project_id}]) *)

Definition get_project (project_id : Z) : Handler Project.t :=
  rows <- select_project project_id ;;
  found <- scalar_one_or_none rows ;;
  match found with
  | None => raise (HTTPException 404 Project_not_found)
  | Some project => ret project
  end.

(** ** Paging of the listings of [app/api/admin.py]

    Each listing counts the rows of its query ([total]), orders them, and
    answers the slice [query.offset(offset).limit(per_page)] together with
    the number of pages.  [page] and [per_page] are validated by
    [Query(1, ge=1)] and [Query(20, ge=1, le=100)].  [ordered] stands for
    the ordered rows of the query. *)

(** [offset = (page - 1) * per_page] *)
Definition page_offset (page per_page : Z) : Z := (page - 1) * per_page.

(** [query.offset(offset).limit(per_page)] *)
Definition page_items {A} (ordered : list A) (page per_page : Z) : list A :=
  firstn (Z.to_nat per_page) (skipn (Z.to_nat (page_offset page per_page)) ordered).

(** ["pages": (total + per_page - 1) // per_page if per_page > 0 else 0] *)
Definition pages (total per_page : Z) : Z :=
  if per_page >? 0 then (total + per_page - 1) / per_page else 0.

(** ** The statistics of the platform ([get_admin_stats]) *)

Module Contract.
Inductive Status :=
  DRAFT | PENDING_SIGNATURE | ACTIVE | COMPLETED | CANCELLED | DISPUTED.

Record t := mk {
  id : Z;
  project_id : Z;
  customer_id : Z;
  student_id : Z;
  status : Status
}.

Definition is_active (c : t) : bool :=
  match status c with ACTIVE => true | _ => false end.
End Contract.

Module Stats.
Record StatsResponse := mk {
  total_users : Z;
  total_students : Z;
  total_customers : Z;
  total_admins : Z;
  total_projects : Z;
  open_projects : Z;
  in_progress_projects : Z;
  completed_projects : Z;
  total_applications : Z;
  pending_applications : Z;
  total_contracts : Z;
  active_contracts : Z
}.
End Stats.

(** [await db.scalar(select(func.count(X.id)).where(...)) or 0] on the rows
    that pass the [where]. *)
Definition count_rows {A} (rows : list A) : Z :=
  or_0Z (Some (Z.of_nat (length rows))).

(** [GET /admin/stats].  No handler above touches the contracts table, and
    [DB] does not hold it: its rows are given. *)
Definition get_admin_stats (contracts : list Contract.t) (current_admin : User.t)
  : Handler Stats.StatsResponse :=
  execute (fun d =>
    Stats.mk
      (count_rows (users d))
      (count_rows (filter (fun u => UserRole_eqb (User.role u) STUDENT) (users d)))
      (count_rows (filter (fun u => UserRole_eqb (User.role u) CUSTOMER) (users d)))
      (count_rows (filter (fun u => UserRole_eqb (User.role u) ADMIN) (users d)))
      (count_rows (projects d))
      (count_rows (filter (fun p => ProjectStatus_eqb (Project.status p) OPEN)
                     (projects d)))
      (count_rows (filter (fun p => ProjectStatus_eqb (Project.status p) IN_PROGRESS)
                     (projects d)))
      (count_rows (filter (fun p => ProjectStatus_eqb (Project.status p) COMPLETED)
                     (projects d)))
      (count_rows (applications d))
      (count_rows (filter (fun a => ApplicationStatus_eqb (Application.status a) PENDING)
                     (applications d)))
      (count_rows contracts)
      (count_rows (filter Contract.is_active contracts))).

(** ** Every request, answered or refused, one after the other *)

Fixpoint run_all (ops : list Op) (db : DB) : DB :=
  match ops with
  | [] => db
  | op :: rest => run_all rest (snd (run_op op db))
  end.

(** What the tables hold by construction when the workflow is their only
    writer. *)
Definition integrity (db : DB) : Prop :=
  pk_unique db /\ fk_project db /\ applications_unique db /\
  ratings_unique db /\ task_orders_unique db /\ assignees_are_workers db /\
  scores_in_range db.

(** ** More concrete data *)

(** Project 1 of U1 as a draft. *)
Definition db_draft : DB :=
  mkDB [U1; U2; U3; U4; U5] [Project.mk 1 1000 DRAFT 1 None] [] [] [].

(** Project 1 in progress with two tasks, project 2 of U4 with one. *)
Definition db_with_tasks : DB :=
  mkDB [U1; U2; U3; U4; U5]
    [Project.mk 1 1000 IN_PROGRESS 1 (Some 2); Project.mk 2 500 OPEN 4 None]
    [Task.mk 1 1 None TASK_PENDING 1 1 None;
     Task.mk 2 3 (Some 8) TASK_PENDING 2 1 (Some 2);
     Task.mk 3 2 None TASK_PENDING 1 2 None]
    [] [].

Definition one_task : TaskCreate := Build_TaskCreate 2 None.

(** A task whose estimated_hours no INTEGER column holds. *)
Definition huge_task : TaskCreate := Build_TaskCreate 2 (Some (2 ^ 63)).

(** The columns of a project that the owner's update leaves alone. *)
Definition project_parties (p : Project.t) : Z * Z * option Z :=
  (Project.id p, Project.customer_id p, Project.assignee_id p).

(** Update bodies that send one field and nothing else. *)
Definition budget_only (budget : Q) : ProjectUpdate :=
  Build_ProjectUpdate Unset Unset (Value budget) Unset.

Definition admin_owner_only (customer_id : Z) : ProjectAdminUpdate :=
  Build_ProjectAdminUpdate Unset Unset Unset Unset (Value customer_id) Unset.

Definition admin_assignee_only (assignee_id : Z) : ProjectAdminUpdate :=
  Build_ProjectAdminUpdate Unset Unset Unset Unset Unset (Value assignee_id).

Definition role_only (role : UserRole) : UserAdminUpdate :=
  Build_UserAdminUpdate Unset Unset (Value role) Unset Unset Unset Unset.

(** Update bodies that send the status and nothing else. *)
Definition status_only (target : ProjectStatus) : ProjectUpdate :=
  Build_ProjectUpdate Unset Unset Unset (Value target).

Definition admin_status_only (target : ProjectStatus) : ProjectAdminUpdate :=
  Build_ProjectAdminUpdate Unset Unset Unset (Value target) Unset Unset.

(** * Proof automation: running a handler symbolically *)

Ltac hstep :=
  cbv beta iota zeta delta
    [run_request bind ret raise execute write commit scalar_one
     scalar_one_or_none select_project select_user flush_project
     flush_task flush_application flush_user add_project add_task
     add_application add_rating answered validated committed pending].

Ltac rsimpl :=
  cbn [users projects tasks applications ratings
       with_users with_projects with_tasks with_applications with_ratings
       User.id User.role User.rating_score User.completed_projects
       User.is_active
       User.with_rating_score User.with_completed_projects
       User.with_is_active
       Project.id Project.budget Project.status Project.customer_id
       Project.assignee_id
       Project.with_status Project.with_assignee_id
       Task.id Task.project_id Task.assignee_id Task.with_assignee_id
       Application.id Application.project_id Application.student_id
       Application.status Application.with_status
       Rating.id Rating.project_id Rating.reviewer_id Rating.reviewee_id
       Rating.score fst snd] in *.

(** Case analysis on a scrutinee that has no other [match] inside. *)
Ltac inner_destruct_goal :=
  match goal with
  | |- context [match ?x with _ => _ end] =>
      lazymatch x with
      | context [match _ with _ => _ end] => fail
      | _ => destruct x eqn:?
      end
  end.

(** * Facts about tables *)

Section TableFacts.
Context {A : Type} (key : A -> Z).

Lemma by_id_In (k : Z) (rows : list A) (r : A) :
  In r (by_id key k rows) -> key r = k /\ In r rows.
Proof.
  unfold by_id. rewrite filter_In. intros [Hin Hk].
  apply Z.eqb_eq in Hk. auto.
Qed.

Lemma by_id_app (k : Z) (l l' : list A) :
  by_id key k (l ++ l') = by_id key k l ++ by_id key k l'.
Proof. apply filter_app. Qed.

Lemma by_id_cons (k : Z) (r : A) (rows : list A) :
  by_id key k (r :: rows) =
  if key r =? k then r :: by_id key k rows else by_id key k rows.
Proof. reflexivity. Qed.

Lemma by_id_nil (k : Z) : by_id key k [] = [].
Proof. reflexivity. Qed.

Lemma by_id_none (k : Z) (rows : list A) :
  ~ In k (map key rows) -> by_id key k rows = [].
Proof.
  induction rows as [|r rows IH]; simpl; intros Hn; [reflexivity|].
  destruct (key r =? k) eqn:E.
  - apply Z.eqb_eq in E. tauto.
  - apply IH. tauto.
Qed.

Lemma key_lt_next_id (rows : list A) (r : A) :
  In r rows -> key r < next_id key rows.
Proof.
  unfold next_id. induction rows as [|x rows IH]; cbn [fold_right In]; [tauto|].
  intros [->|Hin]; [lia|]. specialize (IH Hin). lia.
Qed.

Lemma next_id_fresh (rows : list A) : ~ In (next_id key rows) (map key rows).
Proof.
  rewrite in_map_iff. intros [r [Hk Hin]].
  apply key_lt_next_id in Hin. lia.
Qed.

Lemma next_id_pos (rows : list A) : 0 < next_id key rows.
Proof.
  unfold next_id. induction rows as [|x rows IH]; cbn [fold_right]; lia.
Qed.

Lemma by_id_next_id (rows : list A) : by_id key (next_id key rows) rows = [].
Proof. apply by_id_none, next_id_fresh. Qed.

Lemma by_id_flush_row (k : Z) (obj : A) (rows : list A) :
  by_id key k (flush_row key obj rows) =
  if key obj =? k then map (fun _ => obj) (by_id key k rows)
  else by_id key k rows.
Proof.
  unfold by_id, flush_row.
  induction rows as [|r rows IH]; simpl.
  - destruct (key obj =? k); reflexivity.
  - destruct (key r =? key obj) eqn:E1, (key obj =? k) eqn:E2,
             (key r =? k) eqn:E3; simpl; rewrite ?E2, ?E3, IH, ?E2;
      try reflexivity;
      apply Z.eqb_eq in E1 || apply Z.eqb_neq in E1;
      apply Z.eqb_eq in E2 || apply Z.eqb_neq in E2;
      apply Z.eqb_eq in E3 || apply Z.eqb_neq in E3; congruence.
Qed.

Lemma by_id_flush_row_one (k : Z) (obj r : A) (rows : list A) :
  key obj = k -> by_id key k rows = [r] ->
  by_id key k (flush_row key obj rows) = [obj].
Proof.
  intros Hk Hr. rewrite by_id_flush_row, Hr.
  apply Z.eqb_eq in Hk. rewrite Hk. reflexivity.
Qed.

Lemma map_key_flush_row (obj : A) (rows : list A) :
  map key (flush_row key obj rows) = map key rows.
Proof.
  unfold flush_row. rewrite map_map. apply map_ext_in.
  intros r _. destruct (key r =? key obj) eqn:E; [|reflexivity].
  apply Z.eqb_eq in E. congruence.
Qed.

Lemma by_id_unique (rows : list A) (r : A) :
  NoDup (map key rows) -> In r rows -> by_id key (key r) rows = [r].
Proof.
  induction rows as [|x rows IH]; simpl; [tauto|].
  intros Hnd Hin. inversion Hnd as [|? ? Hx Hnd']; subst.
  destruct Hin as [->|Hin].
  - rewrite Z.eqb_refl. f_equal. apply by_id_none. exact Hx.
  - destruct (key x =? key r) eqn:E.
    + apply Z.eqb_eq in E. exfalso. apply Hx. rewrite E.
      apply in_map. exact Hin.
    + apply IH; assumption.
Qed.

Lemma NoDup_add_row (rows : list A) (r : A) :
  NoDup (map key rows) -> key r = next_id key rows ->
  NoDup (map key (rows ++ [r])).
Proof.
  intros Hnd Hk. rewrite map_app. simpl.
  apply (Permutation_NoDup (l := key r :: map key rows)).
  - apply Permutation_cons_append.
  - constructor; [|exact Hnd]. rewrite Hk. apply next_id_fresh.
Qed.

End TableFacts.

Lemma filter_head_In {A} (f : A -> bool) (l : list A) (r : A) (rest : list A) :
  filter f l = r :: rest -> f r = true /\ In r l.
Proof.
  intros H. assert (Hin : In r (filter f l)) by (rewrite H; left; reflexivity).
  apply filter_In in Hin. tauto.
Qed.

Lemma by_id_head {A} (key : A -> Z) k rows r rest :
  by_id key k rows = r :: rest -> key r = k.
Proof.
  intros H. apply filter_head_In in H. destruct H as [H _].
  apply Z.eqb_eq in H. exact H.
Qed.

Ltac key_facts :=
  repeat match goal with
  | H : by_id ?key ?k ?rows = ?r :: _ |- _ =>
      lazymatch goal with
      | _ : key r = k |- _ => fail
      | _ => pose proof (by_id_head key k rows r _ H)
      end
  end.

Ltac use_facts :=
  repeat match goal with
  | H : by_id _ _ _ = _ |- _ => rewrite H
  | H : filter _ _ = _ |- _ => rewrite H
  | H : ?key ?r = ?k |- context [?key ?r =? ?k] => rewrite H
  | H : (_ =? _) = _ |- _ => rewrite H
  | H : negb _ = _ |- _ => rewrite H
  end.

Ltac tidy :=
  first
    [ progress rsimpl
    | progress key_facts
    | rewrite by_id_flush_row
    | rewrite by_id_app
    | rewrite by_id_next_id
    | rewrite by_id_cons
    | rewrite by_id_nil
    | rewrite Z.eqb_refl
    | progress use_facts
    | progress cbn [map app] ].

Ltac run := repeat first [ tidy | inner_destruct_goal ].

(** * What each request does to the database

    One equation per handler: the answer and the committed database, as a
    function of the database the request started from. *)

Lemma create_project_run db d u :
  run_request (Projects.create_project d u) db =
  if negb (UserRole_eqb (User.role u) CUSTOMER) then
    (Err (HTTPException 403 Only_customers_create_projects), db)
  else
    let project :=
      Project.mk (next_id Project.id (projects db)) (pc_budget d) DRAFT
        (User.id u) None in
    (Ok project, with_projects (projects db ++ [project]) db).
Proof.
  unfold Projects.create_project. hstep. run; reflexivity.
Qed.

Lemma publish_project_run db pid u :
  run_request (Projects.publish_project pid u) db =
  match by_id Project.id pid (projects db) with
  | [] => (Err (HTTPException 404 Project_not_found), db)
  | [project] =>
    if negb (Project.customer_id project =? User.id u) then
      (Err (HTTPException 403 No_rights_to_publish), db)
    else if negb (ProjectStatus_eqb (Project.status project) DRAFT) then
      (Err (HTTPException 400 Only_draft_can_be_published), db)
    else
      (Ok (Project.with_status OPEN project),
       with_projects (flush_row Project.id (Project.with_status OPEN project)
                        (projects db)) db)
  | _ :: _ :: _ => (Err MultipleResultsFound, db)
  end.
Proof.
  unfold Projects.publish_project. hstep. run; reflexivity.
Qed.

Lemma complete_project_run db pid u :
  run_request (Projects.complete_project pid u) db =
  match by_id Project.id pid (projects db) with
  | [] => (Err (HTTPException 404 Project_not_found), db)
  | [project] =>
    if negb (Project.customer_id project =? User.id u) then
      (Err (HTTPException 403 Only_customer_can_complete), db)
    else if negb (ProjectStatus_eqb (Project.status project) IN_PROGRESS
                  || ProjectStatus_eqb (Project.status project) REVIEW) then
      (Err (HTTPException 400 Complete_needs_in_progress_or_review), db)
    else if negb (truthy (Project.assignee_id project)) then
      (Err (HTTPException 400 Cannot_complete_without_assignee), db)
    else
      (Ok (Project.with_status COMPLETED project),
       with_projects (flush_row Project.id (Project.with_status COMPLETED project)
                        (projects db)) db)
  | _ :: _ :: _ => (Err MultipleResultsFound, db)
  end.
Proof.
  unfold Projects.complete_project. hstep. run; reflexivity.
Qed.

Lemma request_review_run db pid u :
  run_request (Projects.request_review pid u) db =
  match by_id Project.id pid (projects db) with
  | [] => (Err (HTTPException 404 Project_not_found), db)
  | [project] =>
    if opt_neq (Project.assignee_id project) (User.id u) then
      (Err (HTTPException 403 Only_assignee_requests_review), db)
    else if negb (ProjectStatus_eqb (Project.status project) IN_PROGRESS) then
      (Err (HTTPException 400 Review_needs_in_progress), db)
    else
      (Ok (Project.with_status REVIEW project),
       with_projects (flush_row Project.id (Project.with_status REVIEW project)
                        (projects db)) db)
  | _ :: _ :: _ => (Err MultipleResultsFound, db)
  end.
Proof.
  unfold Projects.request_review. hstep. run; reflexivity.
Qed.

Lemma delete_project_run db pid admin :
  run_request (Admin.delete_project pid admin) db =
  match by_id Project.id pid (projects db) with
  | [] => (Err (HTTPException 404 Project_not_found), db)
  | [project] =>
      (Ok tt,
       with_projects (flush_row Project.id (Project.with_status CANCELLED project)
                        (projects db)) db)
  | _ :: _ :: _ => (Err MultipleResultsFound, db)
  end.
Proof.
  unfold Admin.delete_project. hstep. run; reflexivity.
Qed.

Lemma apply_for_project_run db pid d u :
  run_request (Projects.apply_for_project pid d u) db =
  if negb (UserRole_eqb (User.role u) STUDENT) then
    (Err (HTTPException 403 Only_students_apply), db)
  else
    match by_id Project.id pid (projects db) with
    | [] => (Err (HTTPException 404 Project_not_found), db)
    | [project] =>
      if negb (ProjectStatus_eqb (Project.status project) OPEN) then
        (Err (HTTPException 400 Project_not_open), db)
      else
        match filter (fun a => Application.student_id a =? User.id u)
                (filter (fun a => Application.project_id a =? pid)
                   (applications db)) with
        | [] =>
          let application :=
            Application.mk (next_id Application.id (applications db)) pid
              (User.id u) (ac_proposed_rate d) PENDING in
          (Ok application,
           with_applications (applications db ++ [application]) db)
        | [_] => (Err (HTTPException 400 Already_applied), db)
        | _ :: _ :: _ => (Err MultipleResultsFound, db)
        end
    | _ :: _ :: _ => (Err MultipleResultsFound, db)
    end.
Proof.
  unfold Projects.apply_for_project. hstep. run; reflexivity.
Qed.

Lemma update_application_status_run db pid aid st u :
  NoDup (map Application.id (applications db)) ->
  run_request (Projects.update_application_status pid aid st u) db =
  match by_id Project.id pid (projects db) with
  | [] => (Err (HTTPException 403 No_access), db)
  | [project] =>
    if negb (Project.customer_id project =? User.id u) then
      (Err (HTTPException 403 No_access), db)
    else
      match filter (fun a => Application.project_id a =? pid)
              (filter (fun a => Application.id a =? aid) (applications db)) with
      | [] => (Err (HTTPException 404 Application_not_found), db)
      | [application] =>
        let application := Application.with_status st application in
        let db1 :=
          with_applications
            (flush_row Application.id application (applications db)) db in
        (Ok application,
         if ApplicationStatus_eqb st ACCEPTED then
           with_projects
             (flush_row Project.id (Project.with_status IN_PROGRESS project)
                (projects db)) db1
         else db1)
      | _ :: _ :: _ => (Err MultipleResultsFound, db)
      end
  | _ :: _ :: _ => (Err MultipleResultsFound, db)
  end.
Proof.
  intros Hnd. unfold Projects.update_application_status. hstep.
  destruct (by_id Project.id pid (projects db)) as [|p [|]] eqn:Hp;
    [reflexivity | | reflexivity].
  destruct (negb (Project.customer_id p =? User.id u)); [reflexivity|].
  destruct (filter _ (filter _ (applications db))) as [|a [|]] eqn:Ha;
    [reflexivity | | reflexivity].
  assert (Hone : by_id Application.id (Application.id a) (applications db) = [a]).
  { apply by_id_unique; [exact Hnd|].
    apply filter_head_In in Ha. destruct Ha as [_ Ha].
    apply filter_In in Ha. tauto. }
  destruct (ApplicationStatus_eqb st ACCEPTED); run; reflexivity.
Qed.

Lemma assign_project_assignee_run db pid target u :
  run_request (Projects.assign_project_assignee pid target u) db =
  match by_id Project.id pid (projects db) with
  | [] => (Err (HTTPException 404 Project_not_found), db)
  | [project] =>
    if negb (Project.customer_id project =? User.id u) then
      (Err (HTTPException 403 Only_owner_assigns), db)
    else if truthy target then
      match by_id User.id (the_id target) (users db) with
      | [] => (Err (HTTPException 404 Assignee_not_found), db)
      | [assignee] =>
        if negb (UserRole_eqb (User.role assignee) STUDENT) then
          (Err (HTTPException 400 Assignee_must_be_student), db)
        else
          let project :=
            if ProjectStatus_eqb (Project.status project) OPEN
            then Project.with_status IN_PROGRESS
                   (Project.with_assignee_id target project)
            else Project.with_assignee_id target project in
          (Ok project,
           with_projects (flush_row Project.id project (projects db)) db)
      | _ :: _ :: _ => (Err MultipleResultsFound, db)
      end
    else
      (Ok (Project.with_assignee_id None project),
       with_projects (flush_row Project.id (Project.with_assignee_id None project)
                        (projects db)) db)
  | _ :: _ :: _ => (Err MultipleResultsFound, db)
  end.
Proof.
  unfold Projects.assign_project_assignee. hstep. run; reflexivity.
Qed.

Lemma assign_task_assignee_run db pid tid target u :
  NoDup (map Task.id (tasks db)) ->
  run_request (Projects.assign_task_assignee pid tid target u) db =
  match by_id Project.id pid (projects db) with
  | [] => (Err (HTTPException 404 Project_not_found), db)
  | [project] =>
    if negb (Project.customer_id project =? User.id u) then
      (Err (HTTPException 403 Only_owner_assigns), db)
    else
      match filter (fun k => Task.project_id k =? pid)
              (filter (fun k => Task.id k =? tid) (tasks db)) with
      | [] => (Err (HTTPException 404 Task_not_found), db)
      | [task] =>
        if truthy target then
          match by_id User.id (the_id target) (users db) with
          | [] => (Err (HTTPException 404 Assignee_not_found), db)
          | [assignee] =>
            if negb (UserRole_eqb (User.role assignee) STUDENT) then
              (Err (HTTPException 400 Assignee_must_be_student), db)
            else
              (Ok (Task.with_assignee_id target task),
               with_tasks (flush_row Task.id (Task.with_assignee_id target task)
                             (tasks db)) db)
          | _ :: _ :: _ => (Err MultipleResultsFound, db)
          end
        else
          (Ok (Task.with_assignee_id None task),
           with_tasks (flush_row Task.id (Task.with_assignee_id None task)
                         (tasks db)) db)
      | _ :: _ :: _ => (Err MultipleResultsFound, db)
      end
  | _ :: _ :: _ => (Err MultipleResultsFound, db)
  end.
Proof.
  intros Hnd. unfold Projects.assign_task_assignee. hstep.
  destruct (by_id Project.id pid (projects db)) as [|p [|]] eqn:Hp;
    [reflexivity | | reflexivity].
  destruct (negb (Project.customer_id p =? User.id u)); [reflexivity|].
  destruct (filter _ (filter _ (tasks db))) as [|k [|]] eqn:Hk;
    [reflexivity | | reflexivity].
  assert (Hin : In k (tasks db) /\ Task.id k = tid).
  { apply filter_head_In in Hk. destruct Hk as [_ Hk].
    apply filter_In in Hk. destruct Hk as [Hk Hid].
    apply Z.eqb_eq in Hid. tauto. }
  destruct Hin as [Hin Hid].
  assert (Hone : by_id Task.id tid (tasks db) = [k]).
  { rewrite <- Hid. apply by_id_unique; assumption. }
  run; reflexivity.
Qed.

Lemma create_task_run db pid d u :
  run_request (Projects.create_task pid d u) db =
  match by_id Project.id pid (projects db) with
  | [] => (Err (HTTPException 404 Project_not_found), db)
  | [project] =>
    if negb (Project.customer_id project =? User.id u) then
      (Err (HTTPException 403 Only_owner_creates_tasks), db)
    else
      let next_order :=
        or_0Z (max_order (filter (fun k => Task.project_id k =? pid) (tasks db)))
        + 1 in
      let task :=
        Task.mk (next_id Task.id (tasks db)) (tc_complexity d)
          (tc_estimated_hours d) TASK_PENDING next_order pid None in
      if INTEGER_fits_opt (tc_estimated_hours d) && INTEGER_fits next_order
      then (Ok task, with_tasks (tasks db ++ [task]) db)
      else (Err DBAPIError, db)
  | _ :: _ :: _ => (Err MultipleResultsFound, db)
  end.
Proof.
  unfold Projects.create_task. hstep. run; reflexivity.
Qed.

Lemma create_rating_run db d u :
  run_request (Ratings.create_rating d u) db =
  match by_id Project.id (rc_project_id d) (projects db) with
  | [] => (Err (HTTPException 404 Project_not_found), db)
  | [project] =>
    if negb (ProjectStatus_eqb (Project.status project) COMPLETED) then
      (Err (HTTPException 400 Rating_only_after_completion), db)
    else
      match pairing_error project d u with
      | Some e => (Err e, db)
      | None =>
        match filter (fun r => Rating.reviewer_id r =? User.id u)
                (filter (fun r => Rating.project_id r =? rc_project_id d)
                   (ratings db)) with
        | [] =>
          let rows := ratings db ++ [new_rating db d u] in
          match by_id User.id (rc_reviewee_id d) (users db) with
          | [] => (Ok (new_rating db d u), with_ratings rows db)
          | [reviewee] =>
            (Ok (new_rating db d u),
             with_users (flush_row User.id (rated rows u reviewee) (users db))
               (with_ratings rows db))
          | _ :: _ :: _ => (Err MultipleResultsFound, db)
          end
        | [_] => (Err (HTTPException 400 Already_rated), db)
        | _ :: _ :: _ => (Err MultipleResultsFound, db)
        end
      end
  | _ :: _ :: _ => (Err MultipleResultsFound, db)
  end.
Proof.
  unfold Ratings.create_rating, pairing_error, rated, scores_of, new_rating.
  hstep. run; reflexivity.
Qed.

(** The row that [update_project] writes. *)
Lemma update_project_run db pid d u :
  run_request (Projects.update_project pid d u) db =
  match by_id Project.id pid (projects db) with
  | [] => (Err (HTTPException 404 Project_not_found), db)
  | [project] =>
    if negb (Project.customer_id project =? User.id u) then
      (Err (HTTPException 403 No_rights_to_edit), db)
    else if is_null (pu_title d) || is_null (pu_description d)
            || is_null (pu_budget d) || is_null (pu_status d) then
      (Err IntegrityError, db)
    else
      let project' :=
        Project.mk (Project.id project)
          (setattr (pu_budget d) (Project.budget project))
          (setattr (pu_status d) (Project.status project))
          (Project.customer_id project) (Project.assignee_id project) in
      (Ok project',
       with_projects (flush_row Project.id project' (projects db)) db)
  | _ :: _ :: _ => (Err MultipleResultsFound, db)
  end.
Proof.
  unfold Projects.update_project. hstep. run; reflexivity.
Qed.

Lemma admin_update_project_run db pid d admin :
  run_request (Admin.update_project pid d admin) db =
  match by_id Project.id pid (projects db) with
  | [] => (Err (HTTPException 404 Project_not_found), db)
  | [project] =>
    if negb (INTEGER_fits_sent (pau_customer_id d)
             && INTEGER_fits_sent (pau_assignee_id d)) then
      (Err DBAPIError, db)
    else if is_null (pau_title d) || is_null (pau_description d)
            || is_null (pau_budget d) || is_null (pau_status d)
            || is_null (pau_customer_id d)
            || negb (sent_names_a_user (pau_customer_id d) (users db))
            || negb (sent_names_a_user (pau_assignee_id d) (users db)) then
      (Err IntegrityError, db)
    else
      let project' :=
        Project.mk (Project.id project)
          (setattr (pau_budget d) (Project.budget project))
          (setattr (pau_status d) (Project.status project))
          (setattr (pau_customer_id d) (Project.customer_id project))
          (setattr_nullable (pau_assignee_id d) (Project.assignee_id project)) in
      (Ok tt, with_projects (flush_row Project.id project' (projects db)) db)
  | _ :: _ :: _ => (Err MultipleResultsFound, db)
  end.
Proof.
  unfold Admin.update_project. hstep. run; reflexivity.
Qed.

Lemma admin_create_project_run db d admin :
  run_request (Admin.create_project d admin) db =
  match by_id User.id (pac_customer_id d) (users db) with
  | [] => (Err (HTTPException 400 Customer_not_found), db)
  | [_] =>
    let project :=
      Project.mk (next_id Project.id (projects db)) (pac_budget d)
        (pac_status d) (pac_customer_id d) (pac_assignee_id d) in
    let added :=
      if names_a_user (pac_assignee_id d) (users db)
      then (Ok tt, with_projects (projects db ++ [project]) db)
      else (Err IntegrityError, db) in
    if truthy (pac_assignee_id d) then
      match by_id User.id (the_id (pac_assignee_id d)) (users db) with
      | [] => (Err (HTTPException 400 Assignee_not_found), db)
      | [_] => added
      | _ :: _ :: _ => (Err MultipleResultsFound, db)
      end
    else added
  | _ :: _ :: _ => (Err MultipleResultsFound, db)
  end.
Proof.
  unfold Admin.create_project. hstep. run; reflexivity.
Qed.

Lemma delete_rating_run db rid admin :
  run_request (Admin.delete_rating rid admin) db =
  match by_id Rating.id rid (ratings db) with
  | [] => (Err (HTTPException 404 Rating_not_found), db)
  | [rating] =>
      (Ok tt,
       with_ratings
         (filter (fun r => negb (Rating.id r =? Rating.id rating)) (ratings db)) db)
  | _ :: _ :: _ => (Err MultipleResultsFound, db)
  end.
Proof.
  unfold Admin.delete_rating. hstep. run; reflexivity.
Qed.

Lemma update_user_run db uid d admin :
  run_request (Admin.update_user uid d admin) db =
  match by_id User.id uid (users db) with
  | [] => (Err (HTTPException 404 User_not_found), db)
  | [user] =>
    if negb (INTEGER_fits_sent (uau_completed_projects d)) then
      (Err DBAPIError, db)
    else if is_null (uau_first_name d) || is_null (uau_last_name d)
            || is_null (uau_role d) || is_null (uau_rating_score d)
            || is_null (uau_completed_projects d)
            || is_null (uau_is_active d) || is_null (uau_is_verified d) then
      (Err IntegrityError, db)
    else
      let user' :=
        User.mk (User.id user)
          (setattr (uau_role d) (User.role user))
          (setattr (uau_rating_score d) (User.rating_score user))
          (setattr (uau_completed_projects d) (User.completed_projects user))
          (setattr (uau_is_active d) (User.is_active user)) in
      (Ok tt, with_users (flush_row User.id user' (users db)) db)
  | _ :: _ :: _ => (Err MultipleResultsFound, db)
  end.
Proof.
  unfold Admin.update_user. hstep. run; reflexivity.
Qed.

Lemma block_user_run db uid admin :
  run_request (Admin.block_user uid admin) db =
  match by_id User.id uid (users db) with
  | [] => (Err (HTTPException 404 User_not_found), db)
  | [user] =>
    if User.id user =? User.id admin then
      (Err (HTTPException 400 Cannot_block_yourself), db)
    else
      (Ok tt,
       with_users (flush_row User.id (User.with_is_active false user) (users db)) db)
  | _ :: _ :: _ => (Err MultipleResultsFound, db)
  end.
Proof.
  unfold Admin.block_user. hstep. run; reflexivity.
Qed.

Lemma unblock_user_run db uid admin :
  run_request (Admin.unblock_user uid admin) db =
  match by_id User.id uid (users db) with
  | [] => (Err (HTTPException 404 User_not_found), db)
  | [user] =>
      (Ok tt,
       with_users (flush_row User.id (User.with_is_active true user) (users db)) db)
  | _ :: _ :: _ => (Err MultipleResultsFound, db)
  end.
Proof.
  unfold Admin.unblock_user. hstep. run; reflexivity.
Qed.

Lemma run_answered {A} (h : Handler A) db :
  run_request (answered h) db =
  (match fst (run_request h db) with Ok _ => Ok tt | Err e => Err e end,
   snd (run_request h db)).
Proof.
  unfold run_request, answered, bind, ret.
  destruct (h (mkSession db db)) as [[a|e] s]; reflexivity.
Qed.

Lemma run_validated {A} (ok : bool) (h : Handler A) db :
  run_request (validated ok h) db =
  if ok then run_request h db
  else (Err (HTTPException 422 Validation_error), db).
Proof. destruct ok; reflexivity. Qed.

(** The database after each kind of request, whatever the answer. *)
Lemma run_op_unfold op db :
  run_op op db =
  match op with
  | CreateProject d u =>
      let r := run_request (validated (valid_ProjectCreate d)
                              (Projects.create_project d u)) db in
      (match fst r with Ok _ => Ok tt | Err e => Err e end, snd r)
  | PublishProject pid u =>
      let r := run_request (Projects.publish_project pid u) db in
      (match fst r with Ok _ => Ok tt | Err e => Err e end, snd r)
  | AssignWorker pid w u =>
      let r := run_request (Projects.assign_project_assignee pid w u) db in
      (match fst r with Ok _ => Ok tt | Err e => Err e end, snd r)
  | Apply pid d u =>
      let r := run_request (validated (valid_ApplicationCreate d)
                              (Projects.apply_for_project pid d u)) db in
      (match fst r with Ok _ => Ok tt | Err e => Err e end, snd r)
  | DecideApplication pid aid st u =>
      let r := run_request (Projects.update_application_status pid aid st u) db in
      (match fst r with Ok _ => Ok tt | Err e => Err e end, snd r)
  | RequestReview pid u =>
      let r := run_request (Projects.request_review pid u) db in
      (match fst r with Ok _ => Ok tt | Err e => Err e end, snd r)
  | CompleteProject pid u =>
      let r := run_request (Projects.complete_project pid u) db in
      (match fst r with Ok _ => Ok tt | Err e => Err e end, snd r)
  | CreateTask pid d u =>
      let r := run_request (validated (valid_TaskCreate d)
                              (Projects.create_task pid d u)) db in
      (match fst r with Ok _ => Ok tt | Err e => Err e end, snd r)
  | AssignTask pid tid w u =>
      let r := run_request (Projects.assign_task_assignee pid tid w u) db in
      (match fst r with Ok _ => Ok tt | Err e => Err e end, snd r)
  | SubmitRating d u =>
      let r := run_request (validated (valid_RatingCreate d)
                              (Ratings.create_rating d u)) db in
      (match fst r with Ok _ => Ok tt | Err e => Err e end, snd r)
  | Cancel pid u => run_request (Admin.delete_project pid u) db
  end.
Proof.
  unfold run_op. destruct op; cbn [handler_of];
    try apply run_answered; reflexivity.
Qed.

Ltac inner_destruct_hyp H :=
  match type of H with
  | context [match ?x with _ => _ end] =>
      lazymatch x with
      | context [match _ with _ => _ end] => fail
      | _ => destruct x eqn:?
      end
  end.

(** Case analysis along the equation of a handler, in hypothesis [H]. *)
Ltac crack H :=
  repeat first
    [ progress cbn [fst snd] in H
    | inner_destruct_hyp H ];
  try discriminate H.

Ltac handler_equations H :=
  cbv zeta in H;
  rewrite ?run_validated in H;
  rewrite ?create_project_run, ?publish_project_run, ?complete_project_run,
    ?request_review_run, ?delete_project_run, ?apply_for_project_run,
    ?assign_project_assignee_run, ?create_task_run, ?create_rating_run in H.

(** * Integrity is kept by every operation of the workflow *)

Lemma pk_unique_preserved (op : Op) (db db' : DB) (r : Result unit) :
  pk_unique db -> run_op op db = (r, db') -> pk_unique db'.
Proof.
  intros Hpk H. pose proof Hpk as (Hu & Hp & Htasks & Happs & Hr).
  rewrite run_op_unfold in H.
  destruct op; handler_equations H;
    try rewrite (update_application_status_run _ _ _ _ _ Happs) in H;
    try rewrite (assign_task_assignee_run _ _ _ _ _ Htasks) in H;
    crack H; inversion H; subst; clear H; try exact Hpk;
    unfold pk_unique; rsimpl; rewrite ?map_key_flush_row;
    repeat split; try assumption;
    apply NoDup_add_row; (assumption || reflexivity).
Qed.

Lemma by_id_head_In {A} (key : A -> Z) k rows r rest :
  by_id key k rows = r :: rest -> In k (map key rows).
Proof.
  intros H. pose proof (by_id_head _ _ _ _ _ H) as Hk.
  apply filter_head_In in H. destruct H as [_ Hin].
  rewrite <- Hk. apply in_map. exact Hin.
Qed.

Lemma In_flush_row {A} (key : A -> Z) (obj r : A) (rows : list A) :
  In r (flush_row key obj rows) -> r = obj \/ In r rows.
Proof.
  unfold flush_row. rewrite in_map_iff. intros [x [Hx Hin]].
  destruct (key x =? key obj); subst; auto.
Qed.

Lemma fk_project_preserved (op : Op) (db db' : DB) (r : Result unit) :
  pk_unique db -> fk_project db -> run_op op db = (r, db') -> fk_project db'.
Proof.
  intros (_ & _ & Htasks & Happs & _) Hfk H. pose proof Hfk as [Hfa Hfr].
  rewrite run_op_unfold in H.
  destruct op; handler_equations H;
    try rewrite (update_application_status_run _ _ _ _ _ Happs) in H;
    try rewrite (assign_task_assignee_run _ _ _ _ _ Htasks) in H;
    crack H; inversion H; subst; clear H; try exact Hfk;
    unfold fk_project; rsimpl; rewrite ?map_key_flush_row.
  all: try (split; assumption).
  all: split; intros x Hx; try (apply Hfa; exact Hx); try (apply Hfr; exact Hx).
  - rewrite map_app. apply in_or_app. left. apply Hfa. exact Hx.
  - rewrite map_app. apply in_or_app. left. apply Hfr. exact Hx.
  - apply in_app_or in Hx. destruct Hx as [Hx|[<-|[]]]; [apply Hfa; exact Hx|].
    rsimpl. eapply by_id_head_In. eassumption.
  - apply In_flush_row in Hx. destruct Hx as [->|Hx]; [|apply Hfa; exact Hx].
    rsimpl. apply Hfa.
    match goal with
    | Ha : filter _ (filter _ (applications db)) = [_] |- _ =>
        apply filter_head_In in Ha; destruct Ha as [_ Ha];
        apply filter_In in Ha; tauto
    end.
  - apply In_flush_row in Hx. destruct Hx as [->|Hx]; [|apply Hfa; exact Hx].
    rsimpl. apply Hfa.
    match goal with
    | Ha : filter _ (filter _ (applications db)) = [_] |- _ =>
        apply filter_head_In in Ha; destruct Ha as [_ Ha];
        apply filter_In in Ha; tauto
    end.
  - apply in_app_or in Hx. destruct Hx as [Hx|[<-|[]]]; [apply Hfr; exact Hx|].
    unfold new_rating. rsimpl. eapply by_id_head_In. eassumption.
  - apply in_app_or in Hx. destruct Hx as [Hx|[<-|[]]]; [apply Hfr; exact Hx|].
    unfold new_rating. rsimpl. eapply by_id_head_In. eassumption.
Qed.

(** * C10: a failed request writes nothing *)


Ltac concrete_pk_unique :=
  unfold pk_unique; cbn [map users projects tasks applications ratings];
  repeat split;
  repeat (constructor; [cbn; intuition congruence|]); constructor.


Lemma by_id_flush_row_cases {A} (key : A -> Z) k k' rows (p t obj : A) :
  by_id key k rows = [p] ->
  by_id key k' rows = [t] ->
  key obj = key t ->
  (t = p /\ by_id key k (flush_row key obj rows) = [obj]) \/
  (k' <> k /\ by_id key k (flush_row key obj rows) = [p]).
Proof.
  intros Hp Ht Hk. pose proof (by_id_head _ _ _ _ _ Ht) as Hkt.
  rewrite by_id_flush_row, Hp, Hk, Hkt.
  destruct (k' =? k) eqn:E.
  - apply Z.eqb_eq in E. subst k'. left. split; [congruence | reflexivity].
  - apply Z.eqb_neq in E. right. split; [exact E | reflexivity].
Qed.

(** * C4: the status of a project across one request *)

(** C4, as the code has it.  Across one request a stored project keeps its
    status or changes it as follows, and in no other way.
    - [publish_project]: from [DRAFT] to [OPEN];
      [assign_project_assignee]: from [OPEN] to [IN_PROGRESS];
      [request_review]: from [IN_PROGRESS] to [REVIEW];
      [complete_project]: from [IN_PROGRESS] or [REVIEW] to [COMPLETED].
      These are edges of the graph of section 4.1.
    - [create_project], [apply_for_project], [create_task],
      [assign_task_assignee] and [create_rating] never change it.
    - Not bound by the graph: accepting an application puts the project in
      [IN_PROGRESS] whatever its status was; the operator's cancel puts it
      in [CANCELLED] whatever its status was; the owner's [update_project]
      and the operator's [update_project] put it in the status that the
      body names, whatever that is and whatever the status was.
    - The operator's [create_project] changes no stored project; the
      project it adds starts in the status that the body names. *)
Theorem status_change_of_each_operation :
  forall (db : DB) (k : Z) (p : Project.t),
    pk_unique db ->
    by_id Project.id k (projects db) = [p] ->
    (forall (op : Op) (r : Result unit) (db' : DB),
       run_op op db = (r, db') ->
       exists p',
         by_id Project.id k (projects db') = [p'] /\
         (Project.status p' = Project.status p \/
          match op with
          | PublishProject _ _ =>
              Project.status p = DRAFT /\ Project.status p' = OPEN /\
              graph_edge (Project.status p) (Project.status p') = true
          | AssignWorker _ _ _ =>
              Project.status p = OPEN /\ Project.status p' = IN_PROGRESS /\
              graph_edge (Project.status p) (Project.status p') = true
          | RequestReview _ _ =>
              Project.status p = IN_PROGRESS /\ Project.status p' = REVIEW /\
              graph_edge (Project.status p) (Project.status p') = true
          | CompleteProject _ _ =>
              (Project.status p = IN_PROGRESS \/ Project.status p = REVIEW) /\
              Project.status p' = COMPLETED /\
              graph_edge (Project.status p) (Project.status p') = true
          | DecideApplication _ _ decision _ =>
              decision = ACCEPTED /\ Project.status p' = IN_PROGRESS
          | Cancel _ _ => Project.status p' = CANCELLED
          | CreateProject _ _ | Apply _ _ _ | CreateTask _ _ _
          | AssignTask _ _ _ _ | SubmitRating _ _ => False
          end)) /\
    (forall (project_id : Z) (project_data : ProjectUpdate) (current_user : User.t)
            (r : Result Project.t) (db' : DB),
       run_request (Projects.update_project project_id project_data current_user) db
       = (r, db') ->
       exists p',
         by_id Project.id k (projects db') = [p'] /\
         (Project.status p' = Project.status p \/
          pu_status project_data = Value (Project.status p'))) /\
    (forall (project_id : Z) (data : ProjectAdminUpdate) (current_admin : User.t)
            (r : Result unit) (db' : DB),
       run_request (Admin.update_project project_id data current_admin) db
       = (r, db') ->
       exists p',
         by_id Project.id k (projects db') = [p'] /\
         (Project.status p' = Project.status p \/
          pau_status data = Value (Project.status p'))) /\
    (forall (target : ProjectStatus) (current_user : User.t),
       Project.customer_id p = User.id current_user ->
       status_of k
         (snd (run_request
                 (Projects.update_project k (status_only target) current_user) db))
       = [target]) /\
    (forall (target : ProjectStatus) (current_admin : User.t),
       status_of k
         (snd (run_request
                 (Admin.update_project k (admin_status_only target) current_admin) db))
       = [target]) /\
    (forall (data : ProjectAdminCreate) (current_admin : User.t),
       by_id Project.id k
         (projects (snd (run_request (Admin.create_project data current_admin) db)))
       = [p]) /\
    (forall (data : ProjectAdminCreate) (customer : User.t) (current_admin : User.t),
       by_id User.id (pac_customer_id data) (users db) = [customer] ->
       pac_assignee_id data = None ->
       status_of (next_id Project.id (projects db))
         (snd (run_request (Admin.create_project data current_admin) db))
       = [pac_status data]).
Proof.
  intros db k p (_ & _ & Htasks & Happs & _) Hp.
  assert (Hfresh : (next_id Project.id (projects db) =? k) = false).
  { destruct (next_id Project.id (projects db) =? k) eqn:E; [|reflexivity].
    apply Z.eqb_eq in E. rewrite <- E, by_id_next_id in Hp. discriminate. }
  split; [|split; [|split; [|split; [|split; [|split]]]]].
  - intros op r db' H.
    rewrite run_op_unfold in H.
    destruct op; handler_equations H;
      try rewrite (update_application_status_run _ _ _ _ _ Happs) in H;
      try rewrite (assign_task_assignee_run _ _ _ _ _ Htasks) in H;
      crack H; inversion H; subst; clear H; rsimpl;
      try (exists p; split; [assumption | left; reflexivity]).
    1: { exists p. split; [|left; reflexivity].
         rewrite by_id_app, Hp, by_id_cons. rsimpl.
         destruct (next_id Project.id (projects db) =? k) eqn:E; [|reflexivity].
         apply Z.eqb_eq in E. rewrite <- E, by_id_next_id in Hp. discriminate. }
    all: match goal with
         | Ht : by_id Project.id _ _ = [?t]
           |- context [flush_row Project.id ?obj _] =>
             destruct (by_id_flush_row_cases Project.id _ _ _ p t obj Hp Ht
                         eq_refl) as [[-> Hq]|[_ Hq]];
             rewrite Hq; eexists; (split; [reflexivity|]);
             [|left; reflexivity]
         end; rsimpl.
    all: try (left; reflexivity).
    all: right; destruct (Project.status p); cbn in *; try discriminate.
    all: try (split; [first [reflexivity | left; reflexivity | right; reflexivity]
                     | split; reflexivity]).
    all: try reflexivity.
    all: destruct decision; cbn in *; try discriminate; split; reflexivity.
  - intros pid d u r db' H. rewrite update_project_run in H.
    crack H; inversion H; subst; clear H; rsimpl;
      try (exists p; split; [assumption | left; reflexivity]).
    match goal with
    | Ht : by_id Project.id _ _ = [?t]
      |- context [flush_row Project.id ?obj _] =>
        destruct (by_id_flush_row_cases Project.id _ _ _ p t obj Hp Ht
                    eq_refl) as [[-> Hq]|[_ Hq]];
        rewrite Hq; eexists; (split; [reflexivity|]);
        [|left; reflexivity]
    end; rsimpl.
    destruct (pu_status d); cbn [setattr];
      [left; reflexivity | left; reflexivity | right; reflexivity].
  - intros pid d admin r db' H. rewrite admin_update_project_run in H.
    crack H; inversion H; subst; clear H; rsimpl;
      try (exists p; split; [assumption | left; reflexivity]).
    match goal with
    | Ht : by_id Project.id _ _ = [?t]
      |- context [flush_row Project.id ?obj _] =>
        destruct (by_id_flush_row_cases Project.id _ _ _ p t obj Hp Ht
                    eq_refl) as [[-> Hq]|[_ Hq]];
        rewrite Hq; eexists; (split; [reflexivity|]);
        [|left; reflexivity]
    end; rsimpl.
    destruct (pau_status d); cbn [setattr];
      [left; reflexivity | left; reflexivity | right; reflexivity].
  - intros target u Hu.
    rewrite update_project_run, Hp, Hu, Z.eqb_refl.
    cbn [negb status_only pu_title pu_description pu_budget pu_status is_null
         orb setattr snd]. cbv zeta.
    unfold status_of. rsimpl.
    rewrite by_id_flush_row, Hp. rsimpl.
    rewrite (by_id_head _ _ _ _ _ Hp), Z.eqb_refl. reflexivity.
  - intros target admin.
    rewrite admin_update_project_run, Hp.
    cbn [negb admin_status_only pau_title pau_description pau_budget pau_status
         pau_customer_id pau_assignee_id is_null INTEGER_fits_sent
         sent_names_a_user andb orb setattr setattr_nullable snd]. cbv zeta.
    unfold status_of. rsimpl.
    rewrite by_id_flush_row, Hp. rsimpl.
    rewrite (by_id_head _ _ _ _ _ Hp), Z.eqb_refl. reflexivity.
  - intros d admin. rewrite admin_create_project_run.
    assert (Hadded :
      by_id Project.id k
        (projects
           (snd (if names_a_user (pac_assignee_id d) (users db)
                 then (Ok tt,
                       with_projects
                         (projects db ++
                          [Project.mk (next_id Project.id (projects db))
                             (pac_budget d) (pac_status d) (pac_customer_id d)
                             (pac_assignee_id d)]) db)
                 else (Err IntegrityError, db)))) = [p]).
    { destruct (names_a_user _ _); [|exact Hp].
      cbn [snd]. rsimpl. rewrite by_id_app, Hp, by_id_cons. rsimpl.
      rewrite Hfresh. reflexivity. }
    destruct (by_id User.id (pac_customer_id d) (users db)) as [|y [|z rest]];
      [exact Hp | | exact Hp].
    cbv zeta. destruct (truthy (pac_assignee_id d)); [|exact Hadded].
    destruct (by_id User.id (the_id (pac_assignee_id d)) (users db))
      as [|w [|w' rest']]; [exact Hp | exact Hadded | exact Hp].
  - intros d y admin Hy Hnone.
    rewrite admin_create_project_run, Hy, Hnone.
    cbn [truthy names_a_user]. cbv zeta. cbn [snd].
    unfold status_of. rsimpl.
    rewrite by_id_app, by_id_next_id, by_id_cons. rsimpl.
    rewrite Z.eqb_refl. reflexivity.
Qed.

Lemma status_change_of_each_operation_witness :
  status_of 1 db_draft = [DRAFT] /\
  status_of 1 (snd (run_op (PublishProject 1 U1) db_draft)) = [OPEN] /\
  (exists p',
     by_id Project.id 1
       (projects (snd (run_op (PublishProject 1 U1) db_draft))) = [p'] /\
     (Project.status p' = DRAFT \/
      DRAFT = DRAFT /\ Project.status p' = OPEN /\
      graph_edge DRAFT (Project.status p') = true)) /\
  status_of 1
    (snd (run_request (Projects.update_project 1 (status_only COMPLETED) U1)
            db_draft)) = [COMPLETED] /\
  status_of 1
    (snd (run_request (Admin.update_project 1 (admin_status_only DRAFT) U5)
            db_completed)) = [DRAFT].
Proof.
  assert (Hdraft : pk_unique db_draft) by (unfold db_draft; concrete_pk_unique).
  assert (Hdone : pk_unique db_completed)
    by (unfold db_completed; concrete_pk_unique).
  destruct (status_change_of_each_operation db_draft 1
              (Project.mk 1 1000 DRAFT 1 None) Hdraft eq_refl)
    as (Hops & _ & _ & Howner & _).
  destruct (status_change_of_each_operation db_completed 1
              (Project.mk 1 1000 COMPLETED 1 (Some 2)) Hdone eq_refl)
    as (_ & _ & _ & _ & Hoperator & _).
  split; [reflexivity|]. split; [reflexivity|]. split.
  - exact (Hops (PublishProject 1 U1) (Ok tt) _ eq_refl).
  - split; [exact (Howner COMPLETED U1 eq_refl) | exact (Hoperator DRAFT U5)].
Defined.

(** C4 as stated fails: the run [completing_run] ends with project 1
    [COMPLETED]; the owner then accepts the application of U3 that was still
    pending, and the project is [IN_PROGRESS] again.  [COMPLETED] is terminal
    and has no edge to [IN_PROGRESS]. *)
Lemma completed_project_reopened :
  run_all_ok completing_run db0 = Some db_completed /\
  map Project.status (projects db_completed) = [COMPLETED] /\
  fst (run_op (DecideApplication 1 2 ACCEPTED U1) db_completed) = Ok tt /\
  map Project.status
    (projects (snd (run_op (DecideApplication 1 2 ACCEPTED U1) db_completed))) =
  [IN_PROGRESS] /\
  terminal COMPLETED = true /\
  graph_edge COMPLETED IN_PROGRESS = false.
Proof. repeat split; reflexivity. Qed.

(** * C5: completing a project that has no assignee *)

(** C5, as the code has it.  The owner's [complete_project] on a project
    without assignee fails for every status and writes nothing; the status
    guard comes first, so the failure is the missing-assignee one
    (InvalidArgument) exactly for [IN_PROGRESS] and [REVIEW], and the
    wrong-status one (InvalidState) for every other status. *)
Theorem complete_project_without_assignee :
  forall (db : DB) (project_id : Z) (current_user : User.t) (project : Project.t),
    by_id Project.id project_id (projects db) = [project] ->
    Project.customer_id project = User.id current_user ->
    Project.assignee_id project = None ->
    exists e,
      run_request (Projects.complete_project project_id current_user) db =
      (Err e, db) /\
      match Project.status project with
      | IN_PROGRESS | REVIEW =>
          e = HTTPException 400 Cannot_complete_without_assignee /\
          error_class e = Some InvalidArgument
      | _ =>
          e = HTTPException 400 Complete_needs_in_progress_or_review /\
          error_class e = Some InvalidState
      end.
Proof.
  intros db pid u p Hp Ho Ha.
  rewrite complete_project_run, Hp, Ho, Z.eqb_refl, Ha.
  destruct (Project.status p); cbn; eexists; repeat split; reflexivity.
Qed.

Lemma complete_project_without_assignee_witness :
  exists e,
    run_request (Projects.complete_project 1 U1) db_accepted =
    (Err e, db_accepted) /\
    e = HTTPException 400 Cannot_complete_without_assignee /\
    error_class e = Some InvalidArgument.
Proof.
  apply (complete_project_without_assignee db_accepted 1 U1
           (Project.mk 1 1000 IN_PROGRESS 1 None));
    reflexivity.
Defined.

(** C5 as stated fails: on the published project 1, which has no assignee,
    the owner's [complete_project] is refused by the status guard, not by
    the missing-assignee guard. *)
Lemma complete_open_project_is_invalid_state :
  by_id Project.id 1 (projects db_open) = [Project.mk 1 1000 OPEN 1 None] /\
  run_request (Projects.complete_project 1 U1) db_open =
  (Err (HTTPException 400 Complete_needs_in_progress_or_review), db_open) /\
  error_class (HTTPException 400 Complete_needs_in_progress_or_review) =
  Some InvalidState /\
  error_class (HTTPException 400 Complete_needs_in_progress_or_review) <>
  Some InvalidArgument.
Proof. repeat split; try reflexivity. discriminate. Qed.

(** * C6: the operator's cancel *)

(** C6, as the code has it.  [DELETE /admin/projects/{id}] has no status
    guard: on every stored project, terminal or not, it succeeds and leaves
    the project [CANCELLED]; it fails, with NotFound and no write, only when
    no project has that id. *)
Theorem operator_cancel_has_no_status_guard :
  forall (db : DB) (project_id : Z) (current_admin : User.t),
    (forall project,
       by_id Project.id project_id (projects db) = [project] ->
       exists db',
         run_request (Admin.delete_project project_id current_admin) db =
         (Ok tt, db') /\
         by_id Project.id project_id (projects db') =
         [Project.with_status CANCELLED project]) /\
    (by_id Project.id project_id (projects db) = [] ->
     run_request (Admin.delete_project project_id current_admin) db =
     (Err (HTTPException 404 Project_not_found), db) /\
     error_class (HTTPException 404 Project_not_found) = Some NotFound).
Proof.
  intros db pid admin. split.
  - intros p Hp. rewrite delete_project_run, Hp. eexists. split; [reflexivity|].
    rsimpl. apply by_id_flush_row_one with (r := p); [|exact Hp].
    apply (by_id_head _ _ _ _ _ Hp).
  - intros Hp. rewrite delete_project_run, Hp. split; reflexivity.
Qed.

(** C6 as stated fails: project 1 of [db_completed] is [COMPLETED]; the
    operator's cancel succeeds on it and makes it [CANCELLED]. *)
Lemma completed_project_is_cancelled :
  map Project.status (projects db_completed) = [COMPLETED] /\
  terminal COMPLETED = true /\
  fst (run_request (Admin.delete_project 1 U5) db_completed) = Ok tt /\
  map Project.status
    (projects (snd (run_request (Admin.delete_project 1 U5) db_completed))) =
  [CANCELLED].
Proof. repeat split; reflexivity. Qed.

(** * C7: assigning a worker to a project *)

(** What [assign_project_assignee] does for the owner of a stored project.
    The handler tests the target for truthiness, so a target of [0] takes
    the branch of no target.
    - a target that is neither null nor 0 and names no user fails NotFound;
    - one that names a user who is not a worker fails InvalidArgument;
    - one that names a worker sets the assignee, and moves the status to
      [IN_PROGRESS] exactly when it was [OPEN];
    - a null or 0 target succeeds, clears the assignee and keeps the status. *)
Theorem assign_project_assignee_spec :
  forall (db : DB) (project_id : Z) (current_user : User.t) (project : Project.t),
    by_id Project.id project_id (projects db) = [project] ->
    Project.customer_id project = User.id current_user ->
    (forall w, w <> 0 ->
       by_id User.id w (users db) = [] ->
       run_request (Projects.assign_project_assignee project_id (Some w)
                      current_user) db =
       (Err (HTTPException 404 Assignee_not_found), db) /\
       error_class (HTTPException 404 Assignee_not_found) = Some NotFound) /\
    (forall w target, w <> 0 ->
       by_id User.id w (users db) = [target] ->
       User.role target <> STUDENT ->
       run_request (Projects.assign_project_assignee project_id (Some w)
                      current_user) db =
       (Err (HTTPException 400 Assignee_must_be_student), db) /\
       error_class (HTTPException 400 Assignee_must_be_student) =
       Some InvalidArgument) /\
    (forall w target, w <> 0 ->
       by_id User.id w (users db) = [target] ->
       User.role target = STUDENT ->
       exists project' db',
         run_request (Projects.assign_project_assignee project_id (Some w)
                        current_user) db = (Ok project', db') /\
         by_id Project.id project_id (projects db') = [project'] /\
         Project.assignee_id project' = Some w /\
         Project.status project' =
         match Project.status project with
         | OPEN => IN_PROGRESS
         | other => other
         end) /\
    (forall target, target = None \/ target = Some 0 ->
       exists project' db',
         run_request (Projects.assign_project_assignee project_id target
                        current_user) db = (Ok project', db') /\
         by_id Project.id project_id (projects db') = [project'] /\
         Project.assignee_id project' = None /\
         Project.status project' = Project.status project).
Proof.
  intros db pid u p Hp Ho.
  pose proof (by_id_head _ _ _ _ _ Hp) as Hk.
  split; [|split; [|split]].
  - intros w Hw Hu.
    rewrite assign_project_assignee_run, Hp, Ho, Z.eqb_refl.
    cbn [negb truthy the_id]. apply Z.eqb_neq in Hw. rewrite Hw, Hu.
    split; reflexivity.
  - intros w target Hw Hu Hr.
    rewrite assign_project_assignee_run, Hp, Ho, Z.eqb_refl.
    cbn [negb truthy the_id]. apply Z.eqb_neq in Hw. rewrite Hw, Hu.
    destruct (User.role target); cbn; split; congruence.
  - intros w target Hw Hu Hr.
    rewrite assign_project_assignee_run, Hp, Ho, Z.eqb_refl.
    cbn [negb truthy the_id]. apply Z.eqb_neq in Hw. rewrite Hw, Hu, Hr.
    cbn [negb UserRole_eqb]. cbv zeta.
    eexists. eexists. split; [reflexivity|]. rsimpl.
    split.
    + apply by_id_flush_row_one with (r := p); [|exact Hp].
      destruct (ProjectStatus_eqb (Project.status p) OPEN); exact Hk.
    + destruct (Project.status p) eqn:Hs; cbn [ProjectStatus_eqb]; rsimpl;
        split; (reflexivity || exact Hs).
  - intros target Ht.
    rewrite assign_project_assignee_run, Hp, Ho, Z.eqb_refl.
    assert (Hf : truthy target = false) by (destruct Ht; subst; reflexivity).
    rewrite Hf. cbn [negb].
    eexists. eexists. split; [reflexivity|]. rsimpl.
    split; [|split; reflexivity].
    apply by_id_flush_row_one with (r := p); [exact Hk | exact Hp].
Qed.

Lemma assign_project_assignee_spec_witness :
  exists project' db',
    run_request (Projects.assign_project_assignee 1 (Some 2) U1) db_open =
    (Ok project', db') /\
    by_id Project.id 1 (projects db') = [project'] /\
    Project.assignee_id project' = Some 2 /\
    Project.status project' = IN_PROGRESS.
Proof.
  apply (assign_project_assignee_spec db_open 1 U1
           (Project.mk 1 1000 OPEN 1 None) eq_refl eq_refl) with (target := U2).
  - discriminate.
  - reflexivity.
  - reflexivity.
Defined.

(** C7.  The claim asks for NotFound whenever a non-null target names no
    user.  0 is such a target (no user of [db_assigned] has id 0), but the
    handler guards the lookup with [if assignee_data.assignee_id:], under a
    comment that reads "if assignee_id is given, check that it is a
    student"; 0 is falsy, so the owner's call takes the branch that removes
    the assignee: it succeeds and U2 is no longer assigned. *)
Theorem assign_zero_unassigns :
  by_id User.id 0 (users db_assigned) = [] /\
  assignee_of 1 db_assigned = [Some 2] /\
  run_request (Projects.assign_project_assignee 1 (Some 0) U1) db_assigned =
  (Ok (Project.mk 1 1000 IN_PROGRESS 1 None),
   mkDB [U1; U2; U3; U4; U5] [Project.mk 1 1000 IN_PROGRESS 1 None] [] [] []).
Proof. repeat split; reflexivity. Qed.

Lemma operator_cancel_has_no_status_guard_witness :
  exists db',
    run_request (Admin.delete_project 1 U5) db_completed = (Ok tt, db') /\
    by_id Project.id 1 (projects db') =
    [Project.with_status CANCELLED (Project.mk 1 1000 COMPLETED 1 (Some 2))].
Proof.
  apply (proj1 (operator_cancel_has_no_status_guard db_completed 1 U5)
           (Project.mk 1 1000 COMPLETED 1 (Some 2))).
  reflexivity.
Defined.

(** * C2, C3: deciding an application *)

Lemma map_flush_row_same {A B} (key : A -> Z) (f : A -> B) k rows (p obj : A) :
  by_id key k rows = [p] -> key obj = k -> f obj = f p ->
  map f (flush_row key obj rows) = map f rows.
Proof.
  intros Hp Hk Hf. unfold flush_row. rewrite map_map. apply map_ext_in.
  intros r Hin. destruct (key r =? key obj) eqn:E; [|reflexivity].
  rewrite Hk in E.
  assert (Hr : In r (by_id key k rows)) by (apply filter_In; auto).
  rewrite Hp in Hr. destruct Hr as [<-|[]]. exact Hf.
Qed.

(** C2.  When the owner accepts an application, the application becomes
    [ACCEPTED] and the project [IN_PROGRESS], and the assignee of the project
    is what it was (null if it was null); no project's assignee changes. *)
Theorem accepting_keeps_assignee :
  forall (db : DB) (project_id application_id : Z) (current_user : User.t)
         (project : Project.t) (application : Application.t),
    NoDup (map Application.id (applications db)) ->
    by_id Project.id project_id (projects db) = [project] ->
    Project.customer_id project = User.id current_user ->
    filter (fun a => Application.project_id a =? project_id)
      (filter (fun a => Application.id a =? application_id) (applications db)) =
    [application] ->
    exists application' project' db',
      run_request (Projects.update_application_status project_id application_id
                     ACCEPTED current_user) db = (Ok application', db') /\
      by_id Application.id application_id (applications db') = [application'] /\
      Application.status application' = ACCEPTED /\
      by_id Project.id project_id (projects db') = [project'] /\
      Project.status project' = IN_PROGRESS /\
      Project.assignee_id project' = Project.assignee_id project /\
      map Project.assignee_id (projects db') =
      map Project.assignee_id (projects db).
Proof.
  intros db pid aid u p a Hnd Hp Ho Ha.
  pose proof (by_id_head _ _ _ _ _ Hp) as Hk.
  assert (Hin : In a (applications db) /\ Application.id a = aid).
  { apply filter_head_In in Ha. destruct Ha as [_ Ha].
    apply filter_In in Ha. destruct Ha as [Ha Hid].
    apply Z.eqb_eq in Hid. tauto. }
  destruct Hin as [Hin Hid].
  assert (Hone : by_id Application.id aid (applications db) = [a]).
  { rewrite <- Hid. apply by_id_unique; assumption. }
  rewrite (update_application_status_run _ _ _ _ _ Hnd), Hp, Ho, Z.eqb_refl, Ha.
  cbn [negb ApplicationStatus_eqb]. cbv zeta.
  eexists. exists (Project.with_status IN_PROGRESS p). eexists.
  split; [reflexivity|]. rsimpl.
  split; [|split; [reflexivity|split; [|split; [reflexivity|split;
    [reflexivity|]]]]].
  - apply by_id_flush_row_one with (r := a); assumption.
  - apply by_id_flush_row_one with (r := p); assumption.
  - apply map_flush_row_same with (k := pid) (p := p);
      [assumption | assumption | reflexivity].
Qed.

(** C3, as the code has it.  [update_application_status] does not look at
    the status the application has.  A caller who does not own the project
    is refused (Forbidden) and nothing is written, whatever the status of
    the application; the owner's call succeeds and gives the application the
    status it asks for, also when the application was decided before. *)
Theorem application_status_follows_owner :
  forall (db : DB) (project_id application_id : Z) (decision : ApplicationStatus)
         (current_user : User.t) (project : Project.t)
         (application : Application.t),
    NoDup (map Application.id (applications db)) ->
    by_id Project.id project_id (projects db) = [project] ->
    filter (fun a => Application.project_id a =? project_id)
      (filter (fun a => Application.id a =? application_id) (applications db)) =
    [application] ->
    (Project.customer_id project <> User.id current_user ->
     run_request (Projects.update_application_status project_id application_id
                    decision current_user) db =
     (Err (HTTPException 403 No_access), db) /\
     error_class (HTTPException 403 No_access) = Some Forbidden) /\
    (Project.customer_id project = User.id current_user ->
     exists application' db',
       run_request (Projects.update_application_status project_id application_id
                      decision current_user) db = (Ok application', db') /\
       by_id Application.id application_id (applications db') = [application'] /\
       Application.status application' = decision).
Proof.
  intros db pid aid st u p a Hnd Hp Ha.
  assert (Hin : In a (applications db) /\ Application.id a = aid).
  { pose proof Ha as Ha'. apply filter_head_In in Ha'. destruct Ha' as [_ Ha'].
    apply filter_In in Ha'. destruct Ha' as [Ha' Hid].
    apply Z.eqb_eq in Hid. tauto. }
  destruct Hin as [Hin Hid].
  assert (Hone : by_id Application.id aid (applications db) = [a]).
  { rewrite <- Hid. apply by_id_unique; assumption. }
  rewrite (update_application_status_run _ _ _ _ _ Hnd), Hp.
  split.
  - intros Ho. apply Z.eqb_neq in Ho. rewrite Ho. split; reflexivity.
  - intros Ho. rewrite Ho, Z.eqb_refl, Ha. cbn [negb]. cbv zeta.
    eexists. eexists. split; [reflexivity|]. split; [|reflexivity].
    destruct (ApplicationStatus_eqb st ACCEPTED); rsimpl;
      apply by_id_flush_row_one with (r := a); assumption.
Qed.

Lemma accepting_keeps_assignee_witness :
  exists application' project' db',
    run_request (Projects.update_application_status 1 1 ACCEPTED U1) db_applied =
    (Ok application', db') /\
    by_id Application.id 1 (applications db') = [application'] /\
    Application.status application' = ACCEPTED /\
    by_id Project.id 1 (projects db') = [project'] /\
    Project.status project' = IN_PROGRESS /\
    Project.assignee_id project' = None /\
    map Project.assignee_id (projects db') = [None].
Proof.
  apply (accepting_keeps_assignee db_applied 1 1 U1
           (Project.mk 1 1000 OPEN 1 None)
           (Application.mk 1 1 2 None PENDING)).
  - cbn. repeat constructor. intros [].
  - reflexivity.
  - reflexivity.
  - reflexivity.
Defined.

Lemma application_status_follows_owner_witness :
  run_request (Projects.update_application_status 1 1 REJECTED U4) db_accepted =
  (Err (HTTPException 403 No_access), db_accepted) /\
  error_class (HTTPException 403 No_access) = Some Forbidden.
Proof.
  apply (proj1 (application_status_follows_owner db_accepted 1 1 REJECTED U4
                  (Project.mk 1 1000 IN_PROGRESS 1 None)
                  (Application.mk 1 1 2 None ACCEPTED)
                  ltac:(cbn; repeat constructor; intros [])
                  eq_refl eq_refl)).
  discriminate.
Defined.

(** C3 as stated fails: in [db_accepted] the application of U2 is
    [ACCEPTED]; the owner decides again, and it is [REJECTED]. *)
Lemma accepted_application_is_rejected_later :
  run_all_ok accepting_run db0 = Some db_accepted /\
  map Application.status (applications db_accepted) = [ACCEPTED] /\
  fst (run_op (DecideApplication 1 1 REJECTED U1) db_accepted) = Ok tt /\
  map Application.status
    (applications (snd (run_op (DecideApplication 1 1 REJECTED U1) db_accepted))) =
  [REJECTED].
Proof. repeat split; reflexivity. Qed.

(** * C9: the uniqueness checks *)




(** * Rounding to a float *)

Lemma pow2_pos e : (0 < 2 ^ e)%Q.
Proof. apply Qpower_0_lt. reflexivity. Qed.

Lemma pow2_succ e : (2 ^ (e + 1) == 2 * 2 ^ e)%Q.
Proof.
  rewrite Qpower_plus by (intro H; discriminate H).
  rewrite Qpower_1_r. ring.
Qed.

Lemma pow2_pred e : (2 * 2 ^ (e - 1) == 2 ^ e)%Q.
Proof.
  rewrite <- pow2_succ. replace (e - 1 + 1) with e by lia. reflexivity.
Qed.

Lemma floor_log2_spec (q : Q) :
  (0 < q)%Q -> (2 ^ floor_log2 q <= q /\ q < 2 ^ (floor_log2 q + 1))%Q.
Proof.
  intros Hq. unfold floor_log2.
  destruct q as [n d]. cbn [Qnum Qden].
  assert (Hn : 0 < n) by (unfold Qlt in Hq; cbn in Hq; lia).
  set (a := Z.log2 n). set (b := Z.log2 (Z.pos d)).
  destruct (Z.log2_spec n Hn) as [Ha1 Ha2]. fold a in Ha1, Ha2.
  destruct (Z.log2_spec (Z.pos d) (Pos2Z.is_pos d)) as [Hb1 Hb2]. fold b in Hb1, Hb2.
  assert (Ha0 : 0 <= a) by apply Z.log2_nonneg.
  assert (Hb0 : 0 <= b) by apply Z.log2_nonneg.
  (* everything in Q *)
  assert (HA : (2 ^ a <= inject_Z n /\ inject_Z n < 2 * 2 ^ a)%Q).
  { rewrite <- pow2_succ. change 2%Q with (inject_Z 2).
    rewrite <- !Zpower_Qpower by lia.
    rewrite <- Zle_Qle, <- Zlt_Qlt. replace (a + 1) with (Z.succ a) by lia. lia. }
  assert (HB : (2 ^ b <= inject_Z (Z.pos d) /\ inject_Z (Z.pos d) < 2 * 2 ^ b)%Q).
  { rewrite <- pow2_succ. change 2%Q with (inject_Z 2).
    rewrite <- !Zpower_Qpower by lia.
    rewrite <- Zle_Qle, <- Zlt_Qlt. replace (b + 1) with (Z.succ b) by lia. lia. }
  assert (HE : (2 ^ (a - b) * 2 ^ b == 2 ^ a)%Q).
  { rewrite <- Qpower_plus by (intro H; discriminate H).
    replace (a - b + b) with a by lia. reflexivity. }
  assert (Hq' : (inject_Z n == (n # d) * inject_Z (Z.pos d))%Q).
  { unfold Qeq, Qmult, inject_Z. cbn [Qnum Qden]. rewrite Pos.mul_1_r. lia. }
  pose proof (pow2_pos (a - b)) as HEpos.
  pose proof (pow2_pos b) as HBpos.
  pose proof (pow2_pos a) as HApos.
  set (E := (2 ^ (a - b))%Q) in *. set (A := (2 ^ a)%Q) in *. set (B := (2 ^ b)%Q) in *.
  set (D := inject_Z (Z.pos d)) in *. set (N := inject_Z n) in *. set (x := (n # d)%Q) in *.
  assert (Hlo : (E < 2 * x)%Q).
  { (* E * B = A <= N = x * D < x * 2 B *)
    apply Qnot_le_lt. intro Hc.
    assert ((x * D <= x * (2 * B))%Q) by (apply Qmult_le_l; [exact Hq | lra]).
    assert ((2 * x * B <= E * B)%Q) by (apply Qmult_le_compat_r; lra).
    assert ((x * D < x * (2 * B))%Q) by (apply Qmult_lt_l; [exact Hq | lra]).
    lra. }
  assert (Hhi : (x < 2 * E)%Q).
  { apply Qnot_le_lt. intro Hc.
    assert ((2 * E * B <= x * B)%Q) by (apply Qmult_le_compat_r; lra).
    assert ((x * B <= x * D)%Q) by (apply Qmult_le_l; [exact Hq | lra]).
    lra. }
  destruct (Qle_bool E x) eqn:Hb.
  - apply Qle_bool_iff in Hb. split; [exact Hb |].
    rewrite pow2_succ. exact Hhi.
  - assert (Hlt : (x < E)%Q).
    { apply Qnot_le_lt. intro Hc. apply Qle_bool_iff in Hc. congruence. }
    replace (a - b - 1 + 1) with (a - b) by lia. fold E.
    split; [| exact Hlt].
    pose proof (pow2_pred (a - b)) as Hp. fold E in Hp. lra.
Qed.


Lemma round_half_even_ge (x : Q) (a : Z) :
  (inject_Z a <= x)%Q -> a <= round_half_even x.
Proof.
  intros H. assert (Ha : a <= Qfloor x).
  { apply Qfloor_resp_le in H. rewrite Qfloor_Z in H. exact H. }
  unfold round_half_even.
  destruct (Qcompare _ _); [destruct (Z.even _) | |]; lia.
Qed.

Lemma round_half_even_le (x : Q) (b : Z) :
  (x <= inject_Z b)%Q -> round_half_even x <= b.
Proof.
  intros H. unfold round_half_even.
  pose proof (Qfloor_le x) as Hlo.
  assert (Hb : Qfloor x <= b).
  { apply Qfloor_resp_le in H. rewrite Qfloor_Z in H. exact H. }
  destruct (Z.eq_dec (Qfloor x) b) as [He | Hne].
  - (* x = b exactly *)
    assert (Hx : (x - inject_Z (Qfloor x) == 0)%Q) by (rewrite He in *; lra).
    assert (Hc : Qcompare (x - inject_Z (Qfloor x)) (1 # 2) = Lt).
    { apply Qlt_alt. rewrite Hx. reflexivity. }
    rewrite Hc. lia.
  - destruct (Qcompare _ _); [destruct (Z.even _) | |]; lia.
Qed.

Lemma floor_log2_unique (q : Q) (e : Z) :
  (2 ^ e <= q)%Q -> (q < 2 ^ (e + 1))%Q -> floor_log2 q = e.
Proof.
  intros Hlo Hhi.
  assert (Hq : (0 < q)%Q) by (pose proof (pow2_pos e); lra).
  destruct (floor_log2_spec q Hq) as [Hlo' Hhi'].
  set (f := floor_log2 q) in *.
  assert (H1 : f < e + 1).
  { apply (Qpower_lt_compat_l_inv 2); [lra | reflexivity]. }
  assert (H2 : e < f + 1).
  { apply (Qpower_lt_compat_l_inv 2); [lra | reflexivity]. }
  lia.
Qed.

Lemma floor_log2_comp (q q' : Q) :
  (0 < q)%Q -> (q == q')%Q -> floor_log2 q = floor_log2 q'.
Proof.
  intros Hq Heq. destruct (floor_log2_spec q Hq) as [Hlo Hhi].
  symmetry. apply floor_log2_unique; rewrite <- Heq; assumption.
Qed.

Lemma round_half_even_comp (x y : Q) :
  (x == y)%Q -> round_half_even x = round_half_even y.
Proof.
  intros H. unfold round_half_even.
  rewrite (Qfloor_comp _ _ H).
  assert (Hc : Qcompare (x - inject_Z (Qfloor y)) (1 # 2)
               = Qcompare (y - inject_Z (Qfloor y)) (1 # 2)).
  { apply Qcompare_comp; [rewrite H |]; reflexivity. }
  rewrite Hc. reflexivity.
Qed.



Lemma Qabs_nonzero (q : Q) : ~ (q == 0)%Q -> (0 < Qabs q)%Q.
Proof.
  intros Hq. destruct (Qlt_le_dec 0 q) as [Hp | Hn].
  - rewrite Qabs_pos; lra.
  - rewrite Qabs_neg by exact Hn.
    destruct (Qeq_dec q 0) as [Hz | Hnz]; [contradiction |].
    apply Qnot_le_lt. intro Hc. apply Hnz. lra.
Qed.

Lemma ulp_comp (q q' : Q) : ~ (q == 0)%Q -> (q == q')%Q -> ulp q = ulp q'.
Proof.
  intros Hq H. unfold ulp. f_equal. f_equal.
  apply floor_log2_comp; [apply Qabs_nonzero; exact Hq | rewrite H; reflexivity].
Qed.

Lemma float_nonzero (q : Q) :
  ~ (q == 0)%Q ->
  (float q == inject_Z (round_half_even (q / ulp q)) * ulp q)%Q.
Proof.
  intros Hq. unfold float.
  assert (Hr : (Qred q == q)%Q) by apply Qred_correct.
  destruct (Qeq_bool (Qred q) 0) eqn:Hz.
  - apply Qeq_bool_iff in Hz. rewrite Hr in Hz. contradiction.
  - rewrite Qred_correct.
    assert (Hu : ulp (Qred q) = ulp q).
    { apply ulp_comp; [rewrite Hr; exact Hq | exact Hr]. }
    rewrite Hu.
    assert (Hm : round_half_even (Qred q / ulp q) = round_half_even (q / ulp q)).
    { apply round_half_even_comp. rewrite Hr. reflexivity. }
    rewrite Hm. reflexivity.
Qed.

Lemma ulp_pos (q : Q) : (0 < ulp q)%Q.
Proof. apply pow2_pos. Qed.



Lemma round_half_even_mono (x y : Q) :
  (x <= y)%Q -> round_half_even x <= round_half_even y.
Proof.
  intros H.
  pose proof (Qfloor_resp_le _ _ H) as Hf.
  destruct (Z.eq_dec (Qfloor x) (Qfloor y)) as [He | Hne].
  - unfold round_half_even. rewrite He.
    destruct (Qcompare (x - inject_Z (Qfloor y)) (1 # 2)) eqn:Hx;
      destruct (Qcompare (y - inject_Z (Qfloor y)) (1 # 2)) eqn:Hy;
      try (destruct (Z.even (Qfloor y)); lia);
      first [apply Qeq_alt in Hx | apply Qlt_alt in Hx | apply Qgt_alt in Hx];
      first [apply Qeq_alt in Hy | apply Qlt_alt in Hy | apply Qgt_alt in Hy];
      lra.
  - assert (Hx : round_half_even x <= Qfloor x + 1).
    { unfold round_half_even.
      destruct (Qcompare _ _); [destruct (Z.even _) | |]; lia. }
    assert (Hy : Qfloor y <= round_half_even y).
    { apply round_half_even_ge. apply Qfloor_le. }
    lia.
Qed.


Lemma pow2_52 (e : Z) : (2 ^ e == 2 ^ (e - 52) * inject_Z (2 ^ 52))%Q.
Proof.
  rewrite Zpower_Qpower by lia. change (inject_Z 2) with 2%Q.
  rewrite <- Qpower_plus by (intro H; discriminate H).
  replace (e - 52 + 52) with e by lia. reflexivity.
Qed.

(** A positive value is rounded inside its binade. *)
Lemma float_binade (q : Q) :
  (0 < q)%Q ->
  (2 ^ floor_log2 q <= float q /\ float q <= 2 ^ (floor_log2 q + 1))%Q.
Proof.
  intros Hq.
  assert (Hnz : ~ (q == 0)%Q) by lra.
  rewrite (float_nonzero q Hnz). unfold ulp.
  assert (Ha : floor_log2 (Qabs q) = floor_log2 q).
  { apply floor_log2_comp; [apply Qabs_nonzero; exact Hnz | apply Qabs_pos; lra]. }
  rewrite Ha.
  destruct (floor_log2_spec q Hq) as [Hlo Hhi].
  set (e := floor_log2 q) in *.
  pose proof (pow2_pos (e - 52)) as Hu.
  rewrite (pow2_52 e) in Hlo.
  rewrite (pow2_succ e), (pow2_52 e) in Hhi.
  rewrite (pow2_succ e), (pow2_52 e).
  set (u := (2 ^ (e - 52))%Q) in *.
  assert (H1 : (inject_Z (2 ^ 52) <= q / u)%Q).
  { apply Qle_shift_div_l; [exact Hu | lra]. }
  assert (H2 : (q / u <= inject_Z (2 * 2 ^ 52))%Q).
  { apply Qle_shift_div_r; [exact Hu |].
    rewrite inject_Z_mult. change (inject_Z 2) with 2%Q. lra. }
  apply round_half_even_ge in H1. apply round_half_even_le in H2.
  rewrite Zle_Qle in H1, H2.
  rewrite inject_Z_mult in H2. change (inject_Z 2) with 2%Q in H2.
  set (m := inject_Z (round_half_even (q / u))) in *.
  split.
  - rewrite (Qmult_comm u). apply Qmult_le_compat_r; lra.
  - assert ((m * u <= (2 * inject_Z (2 ^ 52)) * u)%Q)
      by (apply Qmult_le_compat_r; lra).
    lra.
Qed.

Lemma floor_log2_mono (q q' : Q) :
  (0 < q)%Q -> (q <= q')%Q -> floor_log2 q <= floor_log2 q'.
Proof.
  intros Hq Hle.
  destruct (floor_log2_spec q Hq) as [Hlo _].
  destruct (floor_log2_spec q') as [_ Hhi]; [lra |].
  assert (floor_log2 q < floor_log2 q' + 1); [| lia].
  apply (Qpower_lt_compat_l_inv 2); [lra | reflexivity].
Qed.

(** Rounding is monotone (stated for positive values, which is what the
    averages of scores are). *)
Lemma float_mono (q q' : Q) :
  (0 < q)%Q -> (q <= q')%Q -> (float q <= float q')%Q.
Proof.
  intros Hq Hle.
  assert (Hq' : (0 < q')%Q) by lra.
  pose proof (floor_log2_mono q q' Hq Hle) as He.
  destruct (Z.eq_dec (floor_log2 q) (floor_log2 q')) as [Heq | Hne].
  - assert (Hu : ulp q = ulp q').
    { unfold ulp.
      rewrite (floor_log2_comp (Qabs q) q), (floor_log2_comp (Qabs q') q');
        [rewrite Heq; reflexivity | | | |];
        try (apply Qabs_pos; lra); apply Qabs_nonzero; lra. }
    rewrite (float_nonzero q), (float_nonzero q') by lra.
    rewrite Hu. pose proof (ulp_pos q') as Hpos.
    apply Qmult_le_compat_r; [| lra].
    rewrite <- Zle_Qle. apply round_half_even_mono.
    apply Qmult_le_compat_r; [exact Hle |].
    apply Qlt_le_weak, Qinv_lt_0_compat, Hpos.
  - destruct (float_binade q Hq) as [_ H1].
    destruct (float_binade q' Hq') as [H2 _].
    assert (H3 : (2 ^ (floor_log2 q + 1) <= 2 ^ floor_log2 q')%Q).
    { apply Qpower_le_compat_l; [lia | discriminate]. }
    lra.
Qed.


(** * C8: the rating score is the rounded mean of the ratings received *)





(** One successful [SubmitRating] naming a stored user: the rating joins the
    table and the user's row is recomputed from the table with it. *)
Lemma submit_rating_ok db db' d u v x :
  rc_reviewee_id d = v ->
  by_id User.id v (users db) = [x] ->
  run_op (SubmitRating d u) db = (Ok tt, db') ->
  ratings db' = ratings db ++ [new_rating db d u] /\
  by_id User.id v (users db') = [rated (ratings db') u x].
Proof.
  intros Hv Hx H. subst v.
  rewrite run_op_unfold in H. handler_equations H. rewrite Hx in H.
  crack H; inversion H; subst; clear H. rsimpl.
  split; [reflexivity|].
  apply by_id_flush_row_one with (r := x); [|exact Hx].
  unfold rated. pose proof (by_id_head _ _ _ _ _ Hx) as Hk.
  destruct (UserRole_eqb (User.role u) CUSTOMER); exact Hk.
Qed.

Lemma scores_of_app v rows rows' :
  scores_of v (rows ++ rows') = scores_of v rows ++ scores_of v rows'.
Proof. unfold scores_of. rewrite filter_app, map_app. reflexivity. Qed.

Lemma rating_score_rated rows u x :
  User.rating_score (rated rows u x) =
  float (or_0 (sql_avg (scores_of (User.id x) rows))).
Proof.
  unfold rated. destruct (UserRole_eqb (User.role u) CUSTOMER); reflexivity.
Qed.





(** * C1: the scenario from creation to rating *)

Lemma no_row_of_fresh_project {A} (fk : A -> Z) (rows : list A)
    (stored : list Project.t) :
  (forall a, In a rows -> In (fk a) (map Project.id stored)) ->
  filter (fun a => fk a =? next_id Project.id stored) rows = [].
Proof.
  intros Hfk. induction rows as [|a rows IH]; [reflexivity|].
  cbn [filter]. destruct (fk a =? next_id Project.id stored) eqn:E.
  - apply Z.eqb_eq in E. exfalso.
    apply (next_id_fresh Project.id stored). rewrite <- E.
    apply Hfk. left. reflexivity.
  - apply IH. intros b Hb. apply Hfk. right. exact Hb.
Qed.

(** C1, as the code has it.  Accepting an application does not assign the
    worker, and only the assignee may ask for review: right after the
    acceptance U2's [RequestReview] is refused (Forbidden) and changes
    nothing.  With one more step, U1 assigning U2 with [AssignWorker] (the
    status stays [IN_PROGRESS]), the scenario runs to its end: draft, open,
    application pending, then accepted and project in progress, review,
    completed, and U1's rating of 5 makes U2's [rating_score] 5 and adds one
    to U2's [completed_projects] (U2 being a stored worker without ratings). *)
Theorem happy_path_with_assignment :
  forall (db : DB) (u1 u2 : User.t) (fields : ProjectCreate)
         (letter : ApplicationCreate),
    pk_unique db ->
    fk_project db ->
    User.role u1 = CUSTOMER ->
    User.role u2 = STUDENT ->
    User.id u2 <> 0 ->
    by_id User.id (User.id u2) (users db) = [u2] ->
    scores_of (User.id u2) (ratings db) = [] ->
    valid_ProjectCreate fields = true ->
    valid_ApplicationCreate letter = true ->
    let pid := next_id Project.id (projects db) in
    let aid := next_id Application.id (applications db) in
    let rating := Build_RatingCreate pid (User.id u2) 5 None None None in
    exists db1 db2 db3 db4 db5 db6 db7 db8 u2',
      run_op (CreateProject fields u1) db = (Ok tt, db1) /\
      status_of pid db1 = [DRAFT] /\
      run_op (PublishProject pid u1) db1 = (Ok tt, db2) /\
      status_of pid db2 = [OPEN] /\
      run_op (Apply pid letter u2) db2 = (Ok tt, db3) /\
      application_status_of aid db3 = [PENDING] /\
      run_op (DecideApplication pid aid ACCEPTED u1) db3 = (Ok tt, db4) /\
      application_status_of aid db4 = [ACCEPTED] /\
      status_of pid db4 = [IN_PROGRESS] /\
      assignee_of pid db4 = [None] /\
      run_op (RequestReview pid u2) db4 =
      (Err (HTTPException 403 Only_assignee_requests_review), db4) /\
      run_op (AssignWorker pid (Some (User.id u2)) u1) db4 = (Ok tt, db5) /\
      status_of pid db5 = [IN_PROGRESS] /\
      assignee_of pid db5 = [Some (User.id u2)] /\
      run_op (RequestReview pid u2) db5 = (Ok tt, db6) /\
      status_of pid db6 = [REVIEW] /\
      run_op (CompleteProject pid u1) db6 = (Ok tt, db7) /\
      status_of pid db7 = [COMPLETED] /\
      run_op (SubmitRating rating u1) db7 = (Ok tt, db8) /\
      by_id User.id (User.id u2) (users db8) = [u2'] /\
      User.rating_score u2' = 5%Q /\
      User.completed_projects u2' = User.completed_projects u2 + 1.
Proof.
  intros db u1 u2 fields letter (_ & _ & _ & Happs & _) [Hfka Hfkr]
    Hr1 Hr2 Hid2 Hu2 Hscores Hvp Hva pid aid rating.
  assert (Hid2b : (User.id u2 =? 0) = false) by (apply Z.eqb_neq; exact Hid2).
  (* 1: create *)
  set (P0 := Project.mk pid (pc_budget fields) DRAFT (User.id u1) None).
  set (db1 := with_projects (projects db ++ [P0]) db).
  assert (H1 : run_op (CreateProject fields u1) db = (Ok tt, db1)).
  { rewrite run_op_unfold. cbv zeta.
    rewrite run_validated, Hvp, create_project_run, Hr1. reflexivity. }
  assert (Hp1 : by_id Project.id pid (projects db1) = [P0]).
  { subst db1. rsimpl. rewrite by_id_app. unfold pid at 1.
    rewrite by_id_next_id, by_id_cons. subst P0. rsimpl.
    rewrite Z.eqb_refl. reflexivity. }
  (* 2: publish *)
  set (P1 := Project.mk pid (pc_budget fields) OPEN (User.id u1) None).
  set (db2 := with_projects (flush_row Project.id P1 (projects db1)) db1).
  assert (H2 : run_op (PublishProject pid u1) db1 = (Ok tt, db2)).
  { rewrite run_op_unfold. cbv zeta. rewrite publish_project_run, Hp1.
    subst P0. rsimpl. rewrite Z.eqb_refl. reflexivity. }
  assert (Hp2 : by_id Project.id pid (projects db2) = [P1]).
  { apply by_id_flush_row_one with (r := P0); [reflexivity | exact Hp1]. }
  (* 3: apply *)
  set (A0 := Application.mk aid pid (User.id u2) (ac_proposed_rate letter) PENDING).
  set (db3 := with_applications (applications db ++ [A0]) db2).
  assert (Hnone : filter (fun a => Application.project_id a =? pid)
                    (applications db) = []).
  { apply no_row_of_fresh_project. exact Hfka. }
  assert (H3 : run_op (Apply pid letter u2) db2 = (Ok tt, db3)).
  { rewrite run_op_unfold. cbv zeta.
    rewrite run_validated, Hva, apply_for_project_run, Hr2, Hp2.
    subst db2 db1. rsimpl. rewrite Hnone. reflexivity. }
  assert (Ha3 : by_id Application.id aid (applications db3) = [A0]).
  { subst db3. rsimpl. rewrite by_id_app. unfold aid at 1.
    rewrite by_id_next_id, by_id_cons. subst A0. rsimpl.
    rewrite Z.eqb_refl. reflexivity. }
  assert (Hp3 : by_id Project.id pid (projects db3) = [P1]) by exact Hp2.
  (* 4: accept *)
  set (A1 := Application.mk aid pid (User.id u2) (ac_proposed_rate letter) ACCEPTED).
  set (P2 := Project.mk pid (pc_budget fields) IN_PROGRESS (User.id u1) None).
  set (db4 := with_projects (flush_row Project.id P2 (projects db3))
                (with_applications
                   (flush_row Application.id A1 (applications db3)) db3)).
  assert (Hnd3 : NoDup (map Application.id (applications db3))).
  { subst db3. rsimpl. apply NoDup_add_row; [exact Happs | reflexivity]. }
  assert (H4 : run_op (DecideApplication pid aid ACCEPTED u1) db3 = (Ok tt, db4)).
  { rewrite run_op_unfold. cbv zeta.
    rewrite (update_application_status_run _ _ _ _ _ Hnd3), Hp3.
    subst P1. rsimpl. rewrite Z.eqb_refl. cbn [negb].
    fold (by_id Application.id aid (applications db3)). rewrite Ha3.
    subst A0. cbn [filter Application.project_id]. rewrite Z.eqb_refl.
    reflexivity. }
  assert (Ha4 : by_id Application.id aid (applications db4) = [A1]).
  { apply by_id_flush_row_one with (r := A0); [reflexivity | exact Ha3]. }
  assert (Hp4 : by_id Project.id pid (projects db4) = [P2]).
  { apply by_id_flush_row_one with (r := P1); [reflexivity | exact Hp3]. }
  assert (H4r : run_op (RequestReview pid u2) db4 =
                (Err (HTTPException 403 Only_assignee_requests_review), db4)).
  { rewrite run_op_unfold. cbv zeta. rewrite request_review_run, Hp4.
    reflexivity. }
  (* 5: assign *)
  set (P3 := Project.mk pid (pc_budget fields) IN_PROGRESS (User.id u1)
               (Some (User.id u2))).
  set (db5 := with_projects (flush_row Project.id P3 (projects db4)) db4).
  assert (H5 : run_op (AssignWorker pid (Some (User.id u2)) u1) db4 = (Ok tt, db5)).
  { rewrite run_op_unfold. cbv zeta. rewrite assign_project_assignee_run, Hp4.
    subst P2. rsimpl. rewrite Z.eqb_refl. cbn [negb truthy the_id].
    rewrite Hid2b. cbn [negb].
    replace (users db4) with (users db) by reflexivity.
    rewrite Hu2, Hr2. reflexivity. }
  assert (Hp5 : by_id Project.id pid (projects db5) = [P3]).
  { apply by_id_flush_row_one with (r := P2); [reflexivity | exact Hp4]. }
  (* 6: request review *)
  set (P4 := Project.mk pid (pc_budget fields) REVIEW (User.id u1)
               (Some (User.id u2))).
  set (db6 := with_projects (flush_row Project.id P4 (projects db5)) db5).
  assert (H6 : run_op (RequestReview pid u2) db5 = (Ok tt, db6)).
  { rewrite run_op_unfold. cbv zeta. rewrite request_review_run, Hp5.
    subst P3. rsimpl. cbn [opt_neq]. rewrite Z.eqb_refl. reflexivity. }
  assert (Hp6 : by_id Project.id pid (projects db6) = [P4]).
  { apply by_id_flush_row_one with (r := P3); [reflexivity | exact Hp5]. }
  (* 7: complete *)
  set (P5 := Project.mk pid (pc_budget fields) COMPLETED (User.id u1)
               (Some (User.id u2))).
  set (db7 := with_projects (flush_row Project.id P5 (projects db6)) db6).
  assert (H7 : run_op (CompleteProject pid u1) db6 = (Ok tt, db7)).
  { rewrite run_op_unfold. cbv zeta. rewrite complete_project_run, Hp6.
    subst P4. rsimpl. rewrite Z.eqb_refl. cbn [negb truthy ProjectStatus_eqb orb].
    rewrite Hid2b. reflexivity. }
  assert (Hp7 : by_id Project.id pid (projects db7) = [P5]).
  { apply by_id_flush_row_one with (r := P4); [reflexivity | exact Hp6]. }
  (* 8: rate *)
  set (rows := ratings db ++ [new_rating db7 rating u1]).
  set (db8 := with_users (flush_row User.id (rated rows u1 u2) (users db))
                (with_ratings rows db7)).
  assert (Hnor : filter (fun r => Rating.project_id r =? pid) (ratings db) = []).
  { apply no_row_of_fresh_project. exact Hfkr. }
  assert (H8 : run_op (SubmitRating rating u1) db7 = (Ok tt, db8)).
  { rewrite run_op_unfold. cbv zeta.
    rewrite run_validated, create_rating_run.
    cbn [valid_RatingCreate rating rc_score rc_quality_score
         rc_communication_score rc_deadline_score rc_project_id rc_reviewee_id
         in_1_5 opt_in_1_5 andb Z.leb Z.compare Pos.compare Pos.compare_cont].
    rewrite Hp7. unfold pairing_error. rewrite Hr1. subst P5. rsimpl.
    cbn [rc_reviewee_id rating]. rewrite Z.eqb_refl.
    cbn [negb truthy opt_neq ProjectStatus_eqb orb]. rewrite Hid2b, Z.eqb_refl.
    cbn [negb orb].
    replace (ratings db7) with (ratings db) by reflexivity. rewrite Hnor.
    cbn [filter]. replace (users db7) with (users db) by reflexivity.
    rewrite Hu2. reflexivity. }
  assert (Hu8 : by_id User.id (User.id u2) (users db8) = [rated rows u1 u2]).
  { apply by_id_flush_row_one with (r := u2); [|exact Hu2].
    unfold rated. rewrite Hr1. reflexivity. }
  exists db1, db2, db3, db4, db5, db6, db7, db8, (rated rows u1 u2).
  unfold status_of, assignee_of, application_status_of.
  rewrite Hp1, Hp2, Ha3, Ha4, Hp4, Hp5, Hp6, Hp7.
  repeat (split; [first [assumption | reflexivity]|]).
  split.
  - rewrite rating_score_rated. subst rows. rewrite scores_of_app, Hscores.
    unfold scores_of, new_rating.
    cbn [filter Rating.reviewee_id rc_reviewee_id rating].
    rewrite Z.eqb_refl. reflexivity.
  - unfold rated. rewrite Hr1. reflexivity.
Qed.

(** The requests of the scenario, with the assignment in it. *)
Lemma happy_path_with_assignment_witness :
  exists db8 u2',
    run_all_ok
      (accepting_run ++
       [AssignWorker 1 (Some 2) U1; RequestReview 1 U2; CompleteProject 1 U1;
        SubmitRating (rate_U2 1 5) U1]) db0 = Some db8 /\
    by_id User.id 2 (users db8) = [u2'] /\
    User.rating_score u2' = 5%Q /\
    User.completed_projects u2' = 1.
Proof.
  destruct (happy_path_with_assignment db0 U1 U2 budget_1000 no_rate)
    as (db1 & db2 & db3 & db4 & db5 & db6 & db7 & db8 & u2' &
        H1 & _ & H2 & _ & H3 & _ & H4 & _ & _ & _ & _ & H5 & _ & _ &
        H6 & _ & H7 & _ & H8 & Hu & Hs & Hc).
  - unfold db0. concrete_pk_unique.
  - split; intros ? [].
  - reflexivity.
  - reflexivity.
  - discriminate.
  - reflexivity.
  - reflexivity.
  - reflexivity.
  - reflexivity.
  - exists db8, u2'. split; [|split; [exact Hu | split; [exact Hs | exact Hc]]].
    vm_compute in H1. inversion H1; subst db1; clear H1.
    vm_compute in H2. inversion H2; subst db2; clear H2.
    vm_compute in H3. inversion H3; subst db3; clear H3.
    vm_compute in H4. inversion H4; subst db4; clear H4.
    vm_compute in H5. inversion H5; subst db5; clear H5.
    vm_compute in H6. inversion H6; subst db6; clear H6.
    vm_compute in H7. inversion H7; subst db7; clear H7.
    vm_compute in H8. inversion H8; subst db8; clear H8.
    reflexivity.
Defined.

(** C1 as stated fails: after the four requests of [accepting_run] the
    application is accepted and project 1 in progress, but it has no
    assignee, and U2's [RequestReview] is refused; the project stays
    [IN_PROGRESS]. *)
Lemma review_after_acceptance_is_refused :
  run_all_ok accepting_run db0 = Some db_accepted /\
  application_status_of 1 db_accepted = [ACCEPTED] /\
  status_of 1 db_accepted = [IN_PROGRESS] /\
  assignee_of 1 db_accepted = [None] /\
  run_op (RequestReview 1 U2) db_accepted =
  (Err (HTTPException 403 Only_assignee_requests_review), db_accepted) /\
  error_class (HTTPException 403 Only_assignee_requests_review) = Some Forbidden /\
  status_of 1 (snd (run_op (RequestReview 1 U2) db_accepted)) <> [REVIEW].
Proof. repeat split; try reflexivity. discriminate. Qed.

(** * Beyond the claims: what the requests keep and what they never do *)

Lemma composite_lookup_by_id {A} (key : A -> Z) (g : A -> bool) k rows (t : A) :
  NoDup (map key rows) ->
  filter g (filter (fun r => key r =? k) rows) = [t] ->
  by_id key k rows = [t].
Proof.
  intros Hnd H. apply filter_head_In in H. destruct H as [_ H].
  apply filter_In in H. destruct H as [Hin Hk]. apply Z.eqb_eq in Hk.
  rewrite <- Hk. apply by_id_unique; assumption.
Qed.

(** Runs the equation of the request in [H] to its leaves. *)
Ltac run_cases op H Happs Htasks :=
  rewrite run_op_unfold in H;
  destruct op; handler_equations H;
  try rewrite (update_application_status_run _ _ _ _ _ Happs) in H;
  try rewrite (assign_task_assignee_run _ _ _ _ _ Htasks) in H;
  crack H; inversion H; subst; clear H; rsimpl.

Ltac lookup_facts Happs Htasks :=
  repeat match goal with
  | H : filter _ (filter _ (applications _)) = [_] |- _ =>
      apply (composite_lookup_by_id Application.id _ _ _ _ Happs) in H
  | H : filter _ (filter _ (tasks _)) = [_] |- _ =>
      apply (composite_lookup_by_id Task.id _ _ _ _ Htasks) in H
  end.

Ltac frame_flush :=
  repeat match goal with
  | H : by_id ?key ?k ?rows = [?p]
    |- context [map ?f (flush_row ?key ?obj ?rows)] =>
      rewrite (map_flush_row_same key f k rows p obj H
                 ltac:(first [exact (by_id_head _ _ _ _ _ H)
                             | unfold rated;
                               destruct (UserRole_eqb _ _);
                               exact (by_id_head _ _ _ _ _ H)])
                 ltac:(first [reflexivity
                             | unfold rated;
                               destruct (UserRole_eqb _ _); reflexivity]))
  end.

Lemma users_identity_step :
  forall (op : Op) (db db' : DB) (r : Result unit),
    pk_unique db ->
    run_op op db = (r, db') ->
    map user_identity (users db') = map user_identity (users db).
Proof.
  intros op db db' r (_ & _ & Htasks & Happs & _) H.
  run_cases op H Happs Htasks; try reflexivity.
  all: frame_flush; reflexivity.
Qed.

Ltac frame_added :=
  lazymatch goal with
  | |- exists added, map ?f (?rows ++ [?x]) = _ =>
      exists [x]; apply map_app
  | |- exists added, ?rows ++ [?x] = _ =>
      exists [x]; reflexivity
  | |- exists added, _ =>
      exists []; rewrite app_nil_r; frame_flush; reflexivity
  end.

Lemma projects_fixed_step :
  forall (op : Op) (db db' : DB) (r : Result unit),
    pk_unique db ->
    run_op op db = (r, db') ->
    exists added,
      map project_fixed (projects db') =
      map project_fixed (projects db) ++ map project_fixed added.
Proof.
  intros op db db' r (_ & _ & Htasks & Happs & _) H.
  run_cases op H Happs Htasks; frame_added.
Qed.

Lemma tasks_fixed_step :
  forall (op : Op) (db db' : DB) (r : Result unit),
    pk_unique db ->
    run_op op db = (r, db') ->
    exists added,
      map task_fixed (tasks db') = map task_fixed (tasks db) ++ map task_fixed added.
Proof.
  intros op db db' r (_ & _ & Htasks & Happs & _) H.
  run_cases op H Happs Htasks; lookup_facts Happs Htasks; frame_added.
Qed.

Lemma applications_fixed_step :
  forall (op : Op) (db db' : DB) (r : Result unit),
    pk_unique db ->
    run_op op db = (r, db') ->
    exists added,
      map application_fixed (applications db') =
      map application_fixed (applications db) ++ map application_fixed added.
Proof.
  intros op db db' r (_ & _ & Htasks & Happs & _) H.
  run_cases op H Happs Htasks; lookup_facts Happs Htasks; frame_added.
Qed.

Lemma ratings_prefix_step :
  forall (op : Op) (db db' : DB) (r : Result unit),
    pk_unique db ->
    run_op op db = (r, db') ->
    exists added, ratings db' = ratings db ++ added.
Proof.
  intros op db db' r (_ & _ & Htasks & Happs & _) H.
  run_cases op H Happs Htasks;
    first [ exists []; rewrite app_nil_r; reflexivity
          | eexists; reflexivity ].
Qed.

(** * Uniqueness laws *)

Lemma NoDup_snoc {B} (l : list B) (y : B) :
  NoDup l -> ~ In y l -> NoDup (l ++ [y]).
Proof.
  intros Hnd Hy. apply (Permutation_NoDup (l := y :: l)).
  - apply Permutation_cons_append.
  - constructor; assumption.
Qed.

Lemma no_pair_when_lookup_is_empty {A} (f1 f2 : A -> Z) a b (rows : list A) :
  filter (fun x => f2 x =? b) (filter (fun x => f1 x =? a) rows) = [] ->
  ~ In (a, b) (map (fun x => (f1 x, f2 x)) rows).
Proof.
  intros He Hin. apply in_map_iff in Hin. destruct Hin as [x [Hx Hin]].
  inversion Hx; subst.
  assert (Hf : In x (filter (fun y => f2 y =? f2 x)
                       (filter (fun y => f1 y =? f1 x) rows))).
  { apply filter_In. split; [|apply Z.eqb_refl].
    apply filter_In. split; [exact Hin | apply Z.eqb_refl]. }
  rewrite He in Hf. destruct Hf.
Qed.

Lemma applications_unique_step :
  forall (op : Op) (db db' : DB) (r : Result unit),
    pk_unique db ->
    applications_unique db ->
    run_op op db = (r, db') ->
    applications_unique db'.
Proof.
  intros op db db' r (_ & _ & Htasks & Happs & _) Hu H.
  unfold applications_unique in *.
  run_cases op H Happs Htasks; lookup_facts Happs Htasks; try exact Hu.
  - rewrite map_app. apply NoDup_snoc; [exact Hu|].
    cbn [map application_pair Application.project_id Application.student_id].
    apply (no_pair_when_lookup_is_empty Application.project_id
             Application.student_id). assumption.
  - frame_flush. exact Hu.
  - frame_flush. exact Hu.
Qed.

Lemma ratings_unique_step :
  forall (op : Op) (db db' : DB) (r : Result unit),
    pk_unique db ->
    ratings_unique db ->
    run_op op db = (r, db') ->
    ratings_unique db'.
Proof.
  intros op db db' r (_ & _ & Htasks & Happs & _) Hu H.
  unfold ratings_unique in *.
  run_cases op H Happs Htasks; try exact Hu.
  all: rewrite map_app; apply NoDup_snoc; [exact Hu|];
    unfold new_rating;
    cbn [map rating_pair Rating.project_id Rating.reviewer_id];
    apply (no_pair_when_lookup_is_empty Rating.project_id Rating.reviewer_id);
    assumption.
Qed.

(** * Tasks *)

Lemma fold_max_bounds (base : Z) (rest : list Task.t) :
  base <= fold_right (fun r m => Z.max (Task.order r) m) base rest /\
  forall k, In k rest ->
    Task.order k <= fold_right (fun r m => Z.max (Task.order r) m) base rest.
Proof.
  induction rest as [|x rest [IHb IHr]]; cbn [fold_right].
  - split; [lia | intros k []].
  - split; [lia|]. intros k [->|Hin]; [lia|].
    specialize (IHr k Hin). lia.
Qed.

Lemma max_order_bounds (rows : list Task.t) (k : Task.t) :
  In k rows -> exists m, max_order rows = Some m /\ Task.order k <= m.
Proof.
  destruct rows as [|k0 rest]; [intros []|].
  intros Hin. eexists. split; [reflexivity|].
  destruct (fold_max_bounds (Task.order k0) rest) as [Hb Hr].
  destruct Hin as [->|Hin]; [exact Hb | apply Hr; exact Hin].
Qed.

Lemma or_0Z_Some (m : Z) : or_0Z (Some m) = m.
Proof.
  unfold or_0Z. destruct (m =? 0) eqn:E; [|reflexivity].
  apply Z.eqb_eq in E. congruence.
Qed.

Lemma next_order_is_above (pid : Z) (rows : list Task.t) (k : Task.t) :
  In k rows -> Task.project_id k = pid ->
  Task.order k <
  or_0Z (max_order (filter (fun x => Task.project_id x =? pid) rows)) + 1.
Proof.
  intros Hin Hp.
  assert (Hf : In k (filter (fun x => Task.project_id x =? pid) rows)).
  { apply filter_In. split; [exact Hin | apply Z.eqb_eq; exact Hp]. }
  destruct (max_order_bounds _ _ Hf) as (m & Hm & Hle).
  rewrite Hm, or_0Z_Some. lia.
Qed.

Lemma fold_max_is_reached (base : Z) (rest : list Task.t) (P : Z -> Prop) :
  P base -> (forall k, In k rest -> P (Task.order k)) ->
  P (fold_right (fun r m => Z.max (Task.order r) m) base rest).
Proof.
  intros Hb Hr. induction rest as [|x rest IH]; cbn [fold_right]; [exact Hb|].
  assert (IH' : P (fold_right (fun r m => Z.max (Task.order r) m) base rest)).
  { apply IH. intros k Hk. apply Hr. right. exact Hk. }
  destruct (Z.max_spec (Task.order x)
              (fold_right (fun r m => Z.max (Task.order r) m) base rest))
    as [[_ ->] | [_ ->]]; [exact IH' | apply Hr; left; reflexivity].
Qed.

(** The next order fits the column when every stored order stays below the
    largest INTEGER. *)
Lemma next_order_fits (rows : list Task.t) :
  (forall k, In k rows -> - 2 ^ 31 <= Task.order k < 2 ^ 31 - 1) ->
  INTEGER_fits (or_0Z (max_order rows) + 1) = true.
Proof.
  intros H. unfold INTEGER_fits.
  assert (Hb : - 2 ^ 31 <= or_0Z (max_order rows) < 2 ^ 31 - 1).
  { destruct rows as [|k0 rest]; [cbn; lia|].
    unfold max_order. rewrite or_0Z_Some.
    apply (fold_max_is_reached (Task.order k0) rest
             (fun m => - 2 ^ 31 <= m < 2 ^ 31 - 1)).
    - apply H. left. reflexivity.
    - intros k Hk. apply H. right. exact Hk. }
  apply andb_true_iff. split; [apply Z.leb_le | apply Z.ltb_lt]; lia.
Qed.

(** X10.  For the owner of a stored project, create_task succeeds whenever
    estimated_hours, if given, is a 32-bit integer and the stored orders are
    32-bit integers below the largest one.  It then appends one task:
    pending, unassigned, in that project, with order 1 when the project has
    no task and otherwise an order strictly greater than the order of every
    task of the project.  With estimated_hours outside the 64-bit range the
    request fails and nothing is written.  (Between the two ranges the
    outcome depends on the database: the INTEGER column has 32 bits in
    PostgreSQL, the configured database, which the embedding follows, and 64
    in SQLite.) *)
Theorem create_task_appends_in_order :
  forall (db : DB) (project_id : Z) (task_data : TaskCreate)
         (current_user : User.t) (project : Project.t),
    by_id Project.id project_id (projects db) = [project] ->
    Project.customer_id project = User.id current_user ->
    (INTEGER_fits_opt (tc_estimated_hours task_data) = true ->
     (forall k, In k (tasks db) -> - 2 ^ 31 <= Task.order k < 2 ^ 31 - 1) ->
     exists task,
       run_request (Projects.create_task project_id task_data current_user) db =
       (Ok task, with_tasks (tasks db ++ [task]) db) /\
       Task.project_id task = project_id /\
       Task.status task = TASK_PENDING /\
       Task.assignee_id task = None /\
       (filter (fun k => Task.project_id k =? project_id) (tasks db) = [] ->
        Task.order task = 1) /\
       (forall k, In k (tasks db) -> Task.project_id k = project_id ->
          Task.order k < Task.order task)) /\
    (forall hours,
       tc_estimated_hours task_data = Some hours ->
       hours < - 2 ^ 63 \/ 2 ^ 63 <= hours ->
       exists e,
         run_request (Projects.create_task project_id task_data current_user) db =
         (Err e, db)).
Proof.
  intros db pid d u p Hp Ho.
  rewrite create_task_run, Hp, Ho, Z.eqb_refl. cbn [negb]. cbv zeta.
  split.
  - intros Hh Hk. rewrite Hh, next_order_fits.
    + cbn [andb]. eexists. split; [reflexivity|].
      cbn [Task.project_id Task.status Task.assignee_id Task.order].
      repeat split.
      * intros He. rewrite He. reflexivity.
      * intros k Hin Hpk. apply next_order_is_above; assumption.
    + intros k Hin. apply filter_In in Hin. apply Hk, Hin.
  - intros hours Hh Hout. rewrite Hh.
    assert (Hf : INTEGER_fits hours = false).
    { unfold INTEGER_fits. apply andb_false_iff.
      destruct Hout; [left; apply Z.leb_gt | right; apply Z.ltb_ge]; lia. }
    cbn [INTEGER_fits_opt]. rewrite Hf. cbn [andb].
    eexists. reflexivity.
Qed.

Lemma task_orders_step :
  forall (op : Op) (db db' : DB) (r : Result unit),
    pk_unique db ->
    task_orders_unique db ->
    run_op op db = (r, db') ->
    task_orders_unique db'.
Proof.
  intros op db db' r (_ & _ & Htasks & Happs & _) Hu H.
  unfold task_orders_unique in *.
  run_cases op H Happs Htasks; lookup_facts Happs Htasks; try exact Hu.
  1: { rewrite map_app. apply NoDup_snoc; [exact Hu|].
       cbn [map task_slot Task.project_id Task.order].
       intros Hin. apply in_map_iff in Hin. destruct Hin as [k [Hk Hin]].
       unfold task_slot in Hk. injection Hk as Hp Ho.
       pose proof (next_order_is_above _ _ _ Hin Hp) as Hlt. lia. }
  all: frame_flush; exact Hu.
Qed.

(** * Who may do what *)

(** X5.  For a stored project and a caller who is not its owner,
    publish_project, complete_project, update_application_status,
    assign_project_assignee, assign_task_assignee and create_task all fail
    with 403, whatever their other arguments, and write nothing. *)
Theorem only_the_owner_manages_a_project :
  forall (db : DB) (project_id : Z) (current_user : User.t) (project : Project.t),
    pk_unique db ->
    by_id Project.id project_id (projects db) = [project] ->
    Project.customer_id project <> User.id current_user ->
    run_request (Projects.publish_project project_id current_user) db =
    (Err (HTTPException 403 No_rights_to_publish), db) /\
    run_request (Projects.complete_project project_id current_user) db =
    (Err (HTTPException 403 Only_customer_can_complete), db) /\
    (forall application_id decision,
       run_request (Projects.update_application_status project_id application_id
                      decision current_user) db =
       (Err (HTTPException 403 No_access), db)) /\
    (forall target,
       run_request (Projects.assign_project_assignee project_id target
                      current_user) db =
       (Err (HTTPException 403 Only_owner_assigns), db)) /\
    (forall task_id target,
       run_request (Projects.assign_task_assignee project_id task_id target
                      current_user) db =
       (Err (HTTPException 403 Only_owner_assigns), db)) /\
    (forall task_data,
       run_request (Projects.create_task project_id task_data current_user) db =
       (Err (HTTPException 403 Only_owner_creates_tasks), db)).
Proof.
  intros db pid u p (_ & _ & Htasks & Happs & _) Hp Ho.
  apply Z.eqb_neq in Ho.
  repeat split; intros;
    rewrite ?publish_project_run, ?complete_project_run,
      ?(update_application_status_run _ _ _ _ _ Happs),
      ?assign_project_assignee_run,
      ?(assign_task_assignee_run _ _ _ _ _ Htasks), ?create_task_run;
    rewrite Hp, Ho; reflexivity.
Qed.

(** X2.  On a stored project, publish_project succeeds exactly when the
    caller is the owner and the status is draft, and the stored project then
    has status open; the owner's publish of a project that is not a draft
    fails with 400 and writes nothing. *)
Theorem publish_needs_owner_and_draft :
  forall (db : DB) (project_id : Z) (current_user : User.t) (project : Project.t),
    by_id Project.id project_id (projects db) = [project] ->
    (Project.customer_id project = User.id current_user ->
     Project.status project = DRAFT ->
     exists db',
       run_request (Projects.publish_project project_id current_user) db =
       (Ok (Project.with_status OPEN project), db') /\
       by_id Project.id project_id (projects db') =
       [Project.with_status OPEN project]) /\
    (Project.customer_id project = User.id current_user ->
     Project.status project <> DRAFT ->
     run_request (Projects.publish_project project_id current_user) db =
     (Err (HTTPException 400 Only_draft_can_be_published), db)) /\
    (forall project' db',
       run_request (Projects.publish_project project_id current_user) db =
       (Ok project', db') ->
       Project.customer_id project = User.id current_user /\
       Project.status project = DRAFT).
Proof.
  intros db pid u p Hp. pose proof (by_id_head _ _ _ _ _ Hp) as Hk.
  rewrite publish_project_run, Hp. repeat split.
  - intros Ho Hs. rewrite Ho, Z.eqb_refl, Hs. cbn [negb ProjectStatus_eqb].
    eexists. split; [reflexivity|]. rsimpl.
    apply by_id_flush_row_one with (r := p); assumption.
  - intros Ho Hs. rewrite Ho, Z.eqb_refl. cbn [negb].
    destruct (Project.status p); cbn [negb ProjectStatus_eqb];
      congruence.
  - destruct (Project.customer_id p =? User.id u) eqn:E; cbn [negb] in H;
      [apply Z.eqb_eq in E; exact E | discriminate].
  - destruct (Project.customer_id p =? User.id u); cbn [negb] in H;
      [|discriminate].
    destruct (Project.status p); cbn [negb ProjectStatus_eqb] in H;
      (reflexivity || discriminate).
Qed.

(** X3.  request_review is refused with 403 for every caller who is not the
    project's assignee (the owner included, and everyone when the project
    has no assignee). For the assignee it fails with 400 unless the status
    is in_progress, in which case the stored project becomes review. *)
Theorem review_is_requested_by_the_assignee_only :
  forall (db : DB) (project_id : Z) (current_user : User.t) (project : Project.t),
    by_id Project.id project_id (projects db) = [project] ->
    (Project.assignee_id project <> Some (User.id current_user) ->
     run_request (Projects.request_review project_id current_user) db =
     (Err (HTTPException 403 Only_assignee_requests_review), db)) /\
    (Project.assignee_id project = Some (User.id current_user) ->
     Project.status project <> IN_PROGRESS ->
     run_request (Projects.request_review project_id current_user) db =
     (Err (HTTPException 400 Review_needs_in_progress), db)) /\
    (Project.assignee_id project = Some (User.id current_user) ->
     Project.status project = IN_PROGRESS ->
     exists db',
       run_request (Projects.request_review project_id current_user) db =
       (Ok (Project.with_status REVIEW project), db') /\
       by_id Project.id project_id (projects db') =
       [Project.with_status REVIEW project]).
Proof.
  intros db pid u p Hp. pose proof (by_id_head _ _ _ _ _ Hp) as Hk.
  rewrite request_review_run, Hp. split; [|split].
  - intros Ha.
    assert (Hn : opt_neq (Project.assignee_id p) (User.id u) = true).
    { destruct (Project.assignee_id p) as [a|]; [|reflexivity].
      cbn [opt_neq]. destruct (a =? User.id u) eqn:E; [|reflexivity].
      apply Z.eqb_eq in E. congruence. }
    rewrite Hn. reflexivity.
  - intros Ha Hs. rewrite Ha. cbn [opt_neq]. rewrite Z.eqb_refl. cbn [negb].
    destruct (Project.status p); cbn [negb ProjectStatus_eqb]; congruence.
  - intros Ha Hs. rewrite Ha, Hs. cbn [opt_neq]. rewrite Z.eqb_refl.
    cbn [negb ProjectStatus_eqb].
    eexists. split; [reflexivity|]. rsimpl.
    apply by_id_flush_row_one with (r := p); assumption.
Qed.

(** X4.  On a stored project, complete_project succeeds exactly when the
    caller is the owner, the status is in_progress or review, and the
    project has an assignee other than null and 0; the stored project then
    has status completed. *)
Theorem complete_needs_owner_status_and_assignee :
  forall (db : DB) (project_id : Z) (current_user : User.t) (project : Project.t),
    by_id Project.id project_id (projects db) = [project] ->
    (Project.customer_id project = User.id current_user ->
     Project.status project = IN_PROGRESS \/ Project.status project = REVIEW ->
     truthy (Project.assignee_id project) = true ->
     exists db',
       run_request (Projects.complete_project project_id current_user) db =
       (Ok (Project.with_status COMPLETED project), db') /\
       by_id Project.id project_id (projects db') =
       [Project.with_status COMPLETED project]) /\
    (forall project' db',
       run_request (Projects.complete_project project_id current_user) db =
       (Ok project', db') ->
       Project.customer_id project = User.id current_user /\
       (Project.status project = IN_PROGRESS \/ Project.status project = REVIEW) /\
       exists worker, Project.assignee_id project = Some worker /\ worker <> 0).
Proof.
  intros db pid u p Hp. pose proof (by_id_head _ _ _ _ _ Hp) as Hk.
  rewrite complete_project_run, Hp. split.
  - intros Ho Hs Ha. rewrite Ho, Z.eqb_refl, Ha. cbn [negb].
    assert (Hst : ProjectStatus_eqb (Project.status p) IN_PROGRESS
                  || ProjectStatus_eqb (Project.status p) REVIEW = true).
    { destruct Hs as [Hs|Hs]; rewrite Hs; reflexivity. }
    rewrite Hst. cbn [negb].
    eexists. split; [reflexivity|]. rsimpl.
    apply by_id_flush_row_one with (r := p); assumption.
  - intros p' db' Hrun.
    destruct (Project.customer_id p =? User.id u) eqn:Eo; cbn [negb] in Hrun;
      [|discriminate].
    apply Z.eqb_eq in Eo. split; [exact Eo|].
    destruct (ProjectStatus_eqb (Project.status p) IN_PROGRESS
              || ProjectStatus_eqb (Project.status p) REVIEW) eqn:Es;
      cbn [negb] in Hrun; [|discriminate].
    split.
    + destruct (Project.status p); cbn in Es; try discriminate; auto.
    + destruct (Project.assignee_id p) as [w|]; cbn [truthy negb] in Hrun;
        [|discriminate].
      destruct (w =? 0) eqn:Ew; cbn [negb] in Hrun; [discriminate|].
      apply Z.eqb_neq in Ew. exists w. split; [reflexivity | exact Ew].
Qed.

(** X1.  create_project is refused with 403, writing nothing, for a caller
    who is not a customer. For a customer it appends exactly one project,
    with an id no stored project has, status draft, the caller as owner, no
    assignee and the given budget; every other table is unchanged. *)
Theorem create_project_makes_a_draft_of_the_caller :
  forall (db : DB) (project_data : ProjectCreate) (current_user : User.t),
    (User.role current_user <> CUSTOMER ->
     run_request (Projects.create_project project_data current_user) db =
     (Err (HTTPException 403 Only_customers_create_projects), db)) /\
    (User.role current_user = CUSTOMER ->
     exists project db',
       run_request (Projects.create_project project_data current_user) db =
       (Ok project, db') /\
       projects db' = projects db ++ [project] /\
       by_id Project.id (Project.id project) (projects db) = [] /\
       by_id Project.id (Project.id project) (projects db') = [project] /\
       Project.status project = DRAFT /\
       Project.customer_id project = User.id current_user /\
       Project.assignee_id project = None /\
       Project.budget project = pc_budget project_data /\
       users db' = users db /\ tasks db' = tasks db /\
       applications db' = applications db /\ ratings db' = ratings db).
Proof.
  intros db d u. rewrite create_project_run. split.
  - intros Hr. destruct (User.role u); cbn [negb UserRole_eqb];
      congruence.
  - intros Hr. rewrite Hr. cbn [negb UserRole_eqb]. cbv zeta.
    eexists. eexists. split; [reflexivity|]. rsimpl.
    repeat split.
    + apply by_id_next_id.
    + rewrite by_id_app, by_id_next_id, by_id_cons. rsimpl.
      rewrite Z.eqb_refl. reflexivity.
Qed.

(** X6.  Whenever apply_for_project succeeds, the caller is a student, the
    project is stored with status open, and the caller had no application
    for it; exactly one application is appended, pending, for that project
    and that student, under an id no stored application has, and the
    projects are unchanged. *)
Theorem apply_needs_worker_open_project_and_no_application :
  forall (db : DB) (project_id : Z) (application_data : ApplicationCreate)
         (current_user : User.t) (application : Application.t) (db' : DB),
    run_request (Projects.apply_for_project project_id application_data
                   current_user) db = (Ok application, db') ->
    User.role current_user = STUDENT /\
    (exists project,
       by_id Project.id project_id (projects db) = [project] /\
       Project.status project = OPEN) /\
    ~ In (project_id, User.id current_user)
        (map application_pair (applications db)) /\
    applications db' = applications db ++ [application] /\
    Application.project_id application = project_id /\
    Application.student_id application = User.id current_user /\
    Application.status application = PENDING /\
    by_id Application.id (Application.id application) (applications db) = [] /\
    projects db' = projects db.
Proof.
  intros db pid d u a db' H.
  rewrite apply_for_project_run in H. crack H. inversion H; subst; clear H.
  rsimpl. repeat split.
  - destruct (User.role u); cbn in *; congruence.
  - eexists. split; [reflexivity|].
    match goal with
    | Hs : negb (ProjectStatus_eqb (Project.status ?p) OPEN) = false |- _ =>
        destruct (Project.status p); cbn in Hs; congruence
    end.
  - apply (no_pair_when_lookup_is_empty Application.project_id
             Application.student_id). assumption.
  - apply by_id_next_id.
Qed.

(** * Ratings *)

Lemma pairing_is_legitimate (p : Project.t) (d : RatingCreate) (u : User.t) :
  pairing_error p d u = None ->
  (User.role u = CUSTOMER /\ Project.customer_id p = User.id u /\
   Project.assignee_id p = Some (rc_reviewee_id d) /\ rc_reviewee_id d <> 0) \/
  (User.role u = STUDENT /\ Project.assignee_id p = Some (User.id u) /\
   Project.customer_id p = rc_reviewee_id d).
Proof.
  unfold pairing_error. destruct (User.role u) eqn:Hr; [| |discriminate].
  - destruct (Project.assignee_id p) as [a|]; cbn [opt_neq]; [|discriminate].
    destruct (a =? User.id u) eqn:Ea; cbn [negb]; [|discriminate].
    destruct (Project.customer_id p =? rc_reviewee_id d) eqn:Ec; cbn [negb];
      [|discriminate].
    intros _. right. apply Z.eqb_eq in Ea, Ec. subst a. auto.
  - destruct (Project.customer_id p =? User.id u) eqn:Ec; cbn [negb];
      [|discriminate].
    destruct (Project.assignee_id p) as [a|]; cbn [truthy opt_neq negb orb];
      [|discriminate].
    destruct (a =? 0) eqn:E0; cbn [negb orb]; [discriminate|].
    destruct (a =? rc_reviewee_id d) eqn:Ea; cbn [negb]; [|discriminate].
    intros _. left. apply Z.eqb_eq in Ec, Ea. apply Z.eqb_neq in E0.
    subst a. auto.
Qed.

(** X15.  Whenever create_rating succeeds, the project is stored with status
    completed, the reviewer had not rated it, and either the caller is a
    customer who owns the project and rates its assignee, or the caller is a
    student who is the assignee and rates the owner; exactly one rating is
    appended, with the caller as reviewer and the project, reviewee and
    score of the request. *)
Theorem ratings_are_between_owner_and_assignee_of_a_completed_project :
  forall (db db' : DB) (rating_data : RatingCreate) (current_user : User.t)
         (rating : Rating.t),
    run_request (Ratings.create_rating rating_data current_user) db =
    (Ok rating, db') ->
    exists project,
      by_id Project.id (rc_project_id rating_data) (projects db) = [project] /\
      Project.status project = COMPLETED /\
      ((User.role current_user = CUSTOMER /\
        Project.customer_id project = User.id current_user /\
        Project.assignee_id project = Some (rc_reviewee_id rating_data) /\
        rc_reviewee_id rating_data <> 0) \/
       (User.role current_user = STUDENT /\
        Project.assignee_id project = Some (User.id current_user) /\
        Project.customer_id project = rc_reviewee_id rating_data)) /\
      ~ In (rc_project_id rating_data, User.id current_user)
          (map rating_pair (ratings db)) /\
      ratings db' = ratings db ++ [rating] /\
      Rating.project_id rating = rc_project_id rating_data /\
      Rating.reviewer_id rating = User.id current_user /\
      Rating.reviewee_id rating = rc_reviewee_id rating_data /\
      Rating.score rating = rc_score rating_data.
Proof.
  intros db db' d u r H.
  rewrite create_rating_run in H. crack H; inversion H; subst; clear H; rsimpl.
  all: eexists; split; [reflexivity|]; split;
    [ match goal with
      | Hs : negb (ProjectStatus_eqb (Project.status ?p) COMPLETED) = false
        |- _ => destruct (Project.status p); cbn in Hs; congruence
      end |].
  all: split; [apply pairing_is_legitimate; assumption|].
  all: split;
    [ apply (no_pair_when_lookup_is_empty Rating.project_id Rating.reviewer_id);
      assumption |].
  all: repeat split.
Qed.

(** X16.  A successful create_rating writes the row of the reviewee only:
    its id, role and active flag are kept, its completed_projects grows by
    exactly one when the reviewer is a customer and is unchanged otherwise,
    and the row of every other user is as it was. *)
Theorem rating_by_the_owner_counts_one_completed_project :
  forall (db db' : DB) (rating_data : RatingCreate) (current_user : User.t)
         (rating : Rating.t) (reviewee : User.t),
    run_request (Ratings.create_rating rating_data current_user) db =
    (Ok rating, db') ->
    by_id User.id (rc_reviewee_id rating_data) (users db) = [reviewee] ->
    (exists reviewee',
       by_id User.id (rc_reviewee_id rating_data) (users db') = [reviewee'] /\
       user_identity reviewee' = user_identity reviewee /\
       User.completed_projects reviewee' =
       User.completed_projects reviewee +
       (if UserRole_eqb (User.role current_user) CUSTOMER then 1 else 0)) /\
    (forall other, other <> rc_reviewee_id rating_data ->
       by_id User.id other (users db') = by_id User.id other (users db)).
Proof.
  intros db db' d u r x H Hx.
  pose proof (by_id_head _ _ _ _ _ Hx) as Hk.
  rewrite create_rating_run in H. rewrite Hx in H.
  crack H; inversion H; subst; clear H; rsimpl.
  split.
  - eexists. split.
    + apply by_id_flush_row_one with (r := x); [|exact Hx].
      unfold rated. destruct (UserRole_eqb (User.role u) CUSTOMER); exact Hk.
    + unfold rated, user_identity.
      destruct (UserRole_eqb (User.role u) CUSTOMER); rsimpl;
        split; (reflexivity || lia).
  - intros other Ho. rewrite by_id_flush_row.
    assert (Hid : User.id (rated (ratings db ++ [new_rating db d u]) u x) =
                  rc_reviewee_id d).
    { unfold rated. destruct (UserRole_eqb (User.role u) CUSTOMER); exact Hk. }
    rewrite Hid.
    destruct (rc_reviewee_id d =? other) eqn:E; [|reflexivity].
    apply Z.eqb_eq in E. congruence.
Qed.

Lemma sum_of_scores_in_range (l : list Z) :
  Forall (fun s => 1 <= s <= 5) l ->
  Z.of_nat (length l) <= fold_right Z.add 0 l <= 5 * Z.of_nat (length l).
Proof.
  induction 1 as [|s l Hs _ IH]; cbn [fold_right length]; lia.
Qed.

Lemma exact_average_in_range (l : list Z) :
  l <> [] ->
  Forall (fun s => 1 <= s <= 5) l ->
  Qle 1 (or_0 (sql_avg l)) /\ Qle (or_0 (sql_avg l)) 5.
Proof.
  intros Hne Hall. pose proof (sum_of_scores_in_range l Hall) as Hsum.
  destruct l as [|z l]; [congruence|].
  unfold sql_avg, or_0.
  set (sum := fold_right Z.add 0 (z :: l)) in *.
  set (n := length (z :: l)) in *.
  assert (Hn : Z.pos (Pos.of_nat n) = Z.of_nat n).
  { subst n. cbn [length]. rewrite <- Pos.of_nat_succ.
    rewrite Znat.Zpos_P_of_succ_nat. lia. }
  assert (Hpos : 0 < Z.of_nat n) by (subst n; cbn [length]; lia).
  destruct (Qeq_bool (sum # Pos.of_nat n) 0) eqn:E.
  - apply Qeq_bool_eq in E. unfold Qeq in E. cbn [Qnum Qden] in E.
    change (Qnum 0) with 0 in E. lia.
  - unfold Qle. cbn [Qnum Qden]. rewrite Hn.
    change (Qnum 1) with 1. change (Qden 1) with 1%positive.
    change (Qnum 5) with 5. change (Qden 5) with 1%positive. lia.
Qed.

(** Rounding keeps the average in the range of the scores: 1 and 5 are
    floats and rounding is monotone. *)
Lemma stored_average_in_range (l : list Z) :
  l <> [] ->
  Forall (fun s => 1 <= s <= 5) l ->
  Qle 1 (float (or_0 (sql_avg l))) /\ Qle (float (or_0 (sql_avg l))) 5.
Proof.
  intros Hne Hall.
  destruct (exact_average_in_range l Hne Hall) as [Hlo Hhi].
  split.
  - change (Qle (float 1) (float (or_0 (sql_avg l)))).
    apply float_mono; [reflexivity | exact Hlo].
  - change (Qle (float (or_0 (sql_avg l))) (float 5)).
    apply float_mono; [| exact Hhi].
    apply Qlt_le_trans with (y := 1%Q); [reflexivity | exact Hlo].
Qed.

(** X17.  If every stored rating has a score from 1 to 5, then after a
    successful SubmitRating (whose body pydantic has validated) this still
    holds, and the rating_score written to the reviewee lies between 1 and
    5. *)
Theorem rating_score_stays_between_1_and_5 :
  forall (db db' : DB) (rating_data : RatingCreate) (reviewer : User.t),
    scores_in_range db ->
    run_op (SubmitRating rating_data reviewer) db = (Ok tt, db') ->
    scores_in_range db' /\
    forall reviewee,
      by_id User.id (rc_reviewee_id rating_data) (users db) = [reviewee] ->
      exists reviewee',
        by_id User.id (rc_reviewee_id rating_data) (users db') = [reviewee'] /\
        Qle 1 (User.rating_score reviewee') /\
        Qle (User.rating_score reviewee') 5.
Proof.
  intros db db' d u Hrange H.
  assert (Hvalid : in_1_5 (rc_score d) = true).
  { rewrite run_op_unfold in H. cbv zeta in H. rewrite run_validated in H.
    unfold valid_RatingCreate in H.
    destruct (in_1_5 (rc_score d)); [reflexivity|].
    cbn in H. discriminate. }
  assert (Hscore : 1 <= rc_score d <= 5).
  { unfold in_1_5 in Hvalid. apply andb_true_iff in Hvalid. lia. }
  assert (Hrows : ratings db' = ratings db ++ [new_rating db d u]).
  { rewrite run_op_unfold in H. handler_equations H.
    crack H; inversion H; subst; reflexivity. }
  assert (Hrange' : scores_in_range db').
  { unfold scores_in_range in *. rewrite Hrows. apply Forall_app. split;
      [exact Hrange|]. constructor; [exact Hscore | constructor]. }
  split; [exact Hrange'|].
  intros x Hx.
  destruct (submit_rating_ok _ _ _ _ _ _ eq_refl Hx H) as [_ Hx'].
  eexists. split; [exact Hx'|].
  rewrite rating_score_rated, (by_id_head _ _ _ _ _ Hx).
  apply stored_average_in_range.
  - rewrite Hrows, scores_of_app. unfold scores_of at 2, new_rating.
    cbn [filter Rating.reviewee_id]. rewrite Z.eqb_refl. cbn [map].
    intros Habs. apply app_eq_nil in Habs. destruct Habs; discriminate.
  - unfold scores_of. apply Forall_map.
    apply Forall_forall. intros r Hin. apply filter_In in Hin.
    destruct Hin as [Hin _]. unfold scores_in_range in Hrange'.
    rewrite Forall_forall in Hrange'. apply Hrange'. exact Hin.
Qed.

(** * Assignees are workers *)

Lemma names_a_worker_after_flush (stored : list User.t) (x x' : User.t)
    (assignee : option Z) :
  by_id User.id (User.id x) stored = [x] ->
  User.id x' = User.id x ->
  User.role x' = User.role x ->
  names_a_worker stored assignee ->
  names_a_worker (flush_row User.id x' stored) assignee.
Proof.
  intros Hx Hid Hrole Hw Ht. destruct (Hw Ht) as (w & Hlook & Hr).
  rewrite by_id_flush_row, Hid.
  destruct (User.id x =? the_id assignee) eqn:E.
  - apply Z.eqb_eq in E. rewrite <- E in Hlook. rewrite Hx in Hlook.
    inversion Hlook; subst w. rewrite <- E, Hx. cbn [map].
    exists x'. split; [reflexivity | congruence].
  - exists w. split; assumption.
Qed.

Lemma rated_keeps_identity rows u x :
  User.id (rated rows u x) = User.id x /\
  User.role (rated rows u x) = User.role x.
Proof.
  unfold rated. destruct (UserRole_eqb (User.role u) CUSTOMER); split; reflexivity.
Qed.

Lemma checked_target_names_a_worker (stored : list User.t) (target : option Z)
    (w : User.t) :
  by_id User.id (the_id target) stored = [w] ->
  negb (UserRole_eqb (User.role w) STUDENT) = false ->
  names_a_worker stored target.
Proof.
  intros Hw Hr _. exists w. split; [exact Hw|].
  destruct (User.role w); cbn in Hr; congruence.
Qed.

Lemma assignees_step :
  forall (op : Op) (db db' : DB) (r : Result unit),
    pk_unique db ->
    assignees_are_workers db ->
    run_op op db = (r, db') ->
    assignees_are_workers db'.
Proof.
  intros op db db' r (_ & _ & Htasks & Happs & _) Hinv H.
  pose proof Hinv as [Hps Hks].
  run_cases op H Happs Htasks; lookup_facts Happs Htasks; try exact Hinv.
  all: split; rsimpl; intros row Hin.
  all: try (apply Hps; exact Hin).
  all: try (apply Hks; exact Hin).
  all: try (apply in_app_or in Hin; destruct Hin as [Hin|[<-|[]]];
            [first [apply Hps; exact Hin | apply Hks; exact Hin]
            | intros Habs; discriminate Habs]).
  all: try (apply In_flush_row in Hin; destruct Hin as [->|Hin];
            [|first [apply Hps; exact Hin | apply Hks; exact Hin]]; rsimpl).
  all: try (intros Habs; discriminate Habs).
  all: try (eapply checked_target_names_a_worker; eassumption).
  all: try match goal with
       | Ht : by_id Project.id _ (projects _) = [?t]
         |- names_a_worker _ (Project.assignee_id ?t) =>
           apply Hps; apply filter_head_In in Ht; tauto
       end.
  all: match goal with
       | Hx : by_id User.id ?k (users _) = [?usr]
         |- names_a_worker (flush_row User.id (rated ?rows ?u ?usr) _) _ =>
           destruct (rated_keeps_identity rows u usr) as [Hid Hrole];
           pose proof (by_id_head _ _ _ _ _ Hx) as Hk;
           apply (names_a_worker_after_flush _ usr);
             [rewrite Hk; exact Hx | exact Hid | exact Hrole
             | first [apply Hps; exact Hin | apply Hks; exact Hin]]
       end.
Qed.

(** * One decision, one application *)

(** X8.  A successful update_application_status writes one application only:
    every other application is as it was (accepting one does not reject the
    others), users, tasks and ratings are untouched, every other project is
    untouched, and for a decision other than accepted the projects are
    untouched too. *)
Theorem decision_touches_one_application :
  forall (db db' : DB) (project_id application_id : Z)
         (decision : ApplicationStatus) (current_user : User.t)
         (application' : Application.t),
    pk_unique db ->
    run_request (Projects.update_application_status project_id application_id
                   decision current_user) db = (Ok application', db') ->
    (forall other, other <> application_id ->
       by_id Application.id other (applications db') =
       by_id Application.id other (applications db)) /\
    (decision <> ACCEPTED -> projects db' = projects db) /\
    (forall other, other <> project_id ->
       by_id Project.id other (projects db') =
       by_id Project.id other (projects db)) /\
    users db' = users db /\ tasks db' = tasks db /\ ratings db' = ratings db.
Proof.
  intros db db' pid aid st u a' (_ & _ & _ & Happs & _) H.
  rewrite (update_application_status_run _ _ _ _ _ Happs) in H.
  crack H; inversion H; subst; clear H; rsimpl.
  all: match goal with
       | Ha : filter _ (filter _ (applications _)) = [?a] |- _ =>
           pose proof (composite_lookup_by_id Application.id _ _ _ _ Happs Ha)
             as Hone;
           pose proof (by_id_head _ _ _ _ _ Hone) as Hid
       end.
  all: match goal with
       | Hp : by_id Project.id _ (projects _) = [?p] |- _ =>
           pose proof (by_id_head _ _ _ _ _ Hp) as Hpid
       end.
  all: repeat split; try reflexivity.
  all: try (intros other Ho; rewrite by_id_flush_row; rsimpl;
            first [rewrite Hid | rewrite Hpid];
            match goal with
            | |- (if ?c then _ else _) = _ =>
                destruct c eqn:E; [apply Z.eqb_eq in E; congruence|reflexivity]
            end).
  all: intros Hd; destruct st; cbn in *; congruence.
Qed.

(** X12.  For the owner of a stored project and a stored task,
    assign_task_assignee fails with 404 Task_not_found when the task belongs
    to another project. For a task of the project, a target other than null
    and 0 must name a stored student (404 if no such user, 400 if not a
    student) and is then stored as the task's assignee; a null or 0 target
    clears it. The projects are never written. *)
Theorem task_is_assigned_through_its_project :
  forall (db : DB) (project_id task_id : Z) (current_user : User.t)
         (project : Project.t) (task : Task.t),
    pk_unique db ->
    by_id Project.id project_id (projects db) = [project] ->
    Project.customer_id project = User.id current_user ->
    by_id Task.id task_id (tasks db) = [task] ->
    (Task.project_id task <> project_id ->
     forall target,
       run_request (Projects.assign_task_assignee project_id task_id target
                      current_user) db =
       (Err (HTTPException 404 Task_not_found), db)) /\
    (Task.project_id task = project_id ->
     (forall w worker, w <> 0 ->
        by_id User.id w (users db) = [worker] ->
        User.role worker = STUDENT ->
        exists db',
          run_request (Projects.assign_task_assignee project_id task_id (Some w)
                         current_user) db =
          (Ok (Task.with_assignee_id (Some w) task), db') /\
          by_id Task.id task_id (tasks db') =
          [Task.with_assignee_id (Some w) task] /\
          projects db' = projects db) /\
     (forall w worker, w <> 0 ->
        by_id User.id w (users db) = [worker] ->
        User.role worker <> STUDENT ->
        run_request (Projects.assign_task_assignee project_id task_id (Some w)
                       current_user) db =
        (Err (HTTPException 400 Assignee_must_be_student), db)) /\
     (forall w, w <> 0 ->
        by_id User.id w (users db) = [] ->
        run_request (Projects.assign_task_assignee project_id task_id (Some w)
                       current_user) db =
        (Err (HTTPException 404 Assignee_not_found), db)) /\
     (forall target, truthy target = false ->
        exists db',
          run_request (Projects.assign_task_assignee project_id task_id target
                         current_user) db =
          (Ok (Task.with_assignee_id None task), db') /\
          by_id Task.id task_id (tasks db') = [Task.with_assignee_id None task] /\
          projects db' = projects db)).
Proof.
  intros db pid tid u p k (_ & _ & Htasks & _) Hp Ho Hk.
  pose proof (by_id_head _ _ _ _ _ Hk) as Hkid.
  assert (Hsel : forall target,
            run_request (Projects.assign_task_assignee pid tid target u) db =
            match (if Task.project_id k =? pid then [k] else []) with
            | [] => (Err (HTTPException 404 Task_not_found), db)
            | task :: _ =>
              if truthy target then
                match by_id User.id (the_id target) (users db) with
                | [] => (Err (HTTPException 404 Assignee_not_found), db)
                | [assignee] =>
                  if negb (UserRole_eqb (User.role assignee) STUDENT) then
                    (Err (HTTPException 400 Assignee_must_be_student), db)
                  else
                    (Ok (Task.with_assignee_id target task),
                     with_tasks (flush_row Task.id
                                   (Task.with_assignee_id target task)
                                   (tasks db)) db)
                | _ :: _ :: _ => (Err MultipleResultsFound, db)
                end
              else
                (Ok (Task.with_assignee_id None task),
                 with_tasks (flush_row Task.id (Task.with_assignee_id None task)
                               (tasks db)) db)
            end).
  { intros target.
    rewrite (assign_task_assignee_run _ _ _ _ _ Htasks), Hp, Ho, Z.eqb_refl.
    cbn [negb]. fold (by_id Task.id tid (tasks db)). rewrite Hk.
    cbn [filter]. destruct (Task.project_id k =? pid); reflexivity. }
  split.
  - intros Hne target. rewrite Hsel. apply Z.eqb_neq in Hne. rewrite Hne.
    reflexivity.
  - intros He. apply Z.eqb_eq in He.
    split; [|split; [|split]].
    + intros w worker Hw Hu Hr. rewrite Hsel, He. cbn [truthy the_id].
      apply Z.eqb_neq in Hw. rewrite Hw, Hu, Hr. cbn [negb UserRole_eqb].
      eexists. split; [reflexivity|]. rsimpl. split; [|reflexivity].
      apply by_id_flush_row_one with (r := k); assumption.
    + intros w worker Hw Hu Hr. rewrite Hsel, He. cbn [truthy the_id].
      apply Z.eqb_neq in Hw. rewrite Hw, Hu. cbn [negb].
      destruct (User.role worker); cbn; congruence.
    + intros w Hw Hu. rewrite Hsel, He. cbn [truthy the_id].
      apply Z.eqb_neq in Hw. rewrite Hw, Hu. reflexivity.
    + intros target Ht. rewrite Hsel, He, Ht.
      eexists. split; [reflexivity|]. rsimpl. split; [|reflexivity].
      apply by_id_flush_row_one with (r := k); assumption.
Qed.

(** * Reading back what was written *)

Lemma get_project_run db pid :
  run_request (get_project pid) db =
  match by_id Project.id pid (projects db) with
  | [] => (Err (HTTPException 404 Project_not_found), db)
  | [project] => (Ok project, db)
  | _ :: _ :: _ => (Err MultipleResultsFound, db)
  end.
Proof. unfold get_project. hstep. run; reflexivity. Qed.

(** X24.  The project that create_project, publish_project,
    assign_project_assignee, request_review or complete_project answers with
    is the stored one: get_project on its id, right after the request,
    returns that same project and writes nothing. *)
Theorem get_project_returns_what_was_written :
  forall (db db' : DB) (project : Project.t) (current_user : User.t),
    (forall project_data,
       run_request (Projects.create_project project_data current_user) db =
       (Ok project, db') ->
       run_request (get_project (Project.id project)) db' = (Ok project, db')) /\
    (forall project_id,
       run_request (Projects.publish_project project_id current_user) db =
       (Ok project, db') ->
       run_request (get_project project_id) db' = (Ok project, db')) /\
    (forall project_id target,
       run_request (Projects.assign_project_assignee project_id target
                      current_user) db = (Ok project, db') ->
       run_request (get_project project_id) db' = (Ok project, db')) /\
    (forall project_id,
       run_request (Projects.request_review project_id current_user) db =
       (Ok project, db') ->
       run_request (get_project project_id) db' = (Ok project, db')) /\
    (forall project_id,
       run_request (Projects.complete_project project_id current_user) db =
       (Ok project, db') ->
       run_request (get_project project_id) db' = (Ok project, db')).
Proof.
  intros db db' p u.
  split; [|split; [|split; [|split]]]; intros * H;
    rewrite ?create_project_run, ?publish_project_run,
      ?assign_project_assignee_run, ?request_review_run,
      ?complete_project_run in H;
    crack H; inversion H; subst; clear H;
    rewrite get_project_run; run; reflexivity.
Qed.

Lemma get_project_of_an_unknown_id_is_not_found :
  forall (db : DB) (project_id : Z),
    ~ In project_id (map Project.id (projects db)) ->
    run_request (get_project project_id) db =
    (Err (HTTPException 404 Project_not_found), db).
Proof.
  intros db pid Hn. rewrite get_project_run, (by_id_none _ _ _ Hn). reflexivity.
Qed.

(** * Paging *)

Lemma pages_bounds :
  forall total per_page : Z,
    0 <= total ->
    1 <= per_page ->
    total <= pages total per_page * per_page < total + per_page /\
    (pages total per_page = 0 <-> total = 0).
Proof.
  intros total pp Ht Hp. unfold pages.
  assert (Hgt : (pp >? 0) = true) by (apply Z.gtb_lt; lia).
  rewrite Hgt.
  pose proof (Z.mul_div_le (total + pp - 1) pp ltac:(lia)) as Hle.
  pose proof (Z.mul_succ_div_gt (total + pp - 1) pp ltac:(lia)) as Hlt.
  split; [nia|]. split; intros H.
  - rewrite H in Hlt. lia.
  - subst total. apply Z.div_small. lia.
Qed.

Lemma firstn_plus {A} (a b : nat) (l : list A) :
  firstn (a + b) l = firstn a l ++ firstn b (skipn a l).
Proof.
  revert l. induction a as [|a IH]; intros l; [reflexivity|].
  destruct l as [|x l]; cbn [Nat.add firstn skipn app].
  - rewrite firstn_nil. reflexivity.
  - rewrite IH. reflexivity.
Qed.

Lemma chunks_make_a_prefix {A} (k n : nat) (l : list A) :
  concat (map (fun i => firstn k (skipn (i * k) l)) (seq 0 n)) =
  firstn (n * k) l.
Proof.
  induction n as [|n IH]; [reflexivity|].
  rewrite seq_S, map_app, concat_app, IH. cbn [map concat Nat.add].
  rewrite app_nil_r, <- firstn_plus. f_equal. lia.
Qed.

Lemma page_items_as_chunk {A} (ordered : list A) (i : nat) (per_page : Z) :
  1 <= per_page ->
  page_items ordered (Z.of_nat i + 1) per_page =
  firstn (Z.to_nat per_page) (skipn (i * Z.to_nat per_page) ordered).
Proof.
  intros Hp. unfold page_items, page_offset. do 2 f_equal.
  replace (Z.of_nat i + 1 - 1) with (Z.of_nat i) by lia.
  rewrite Z2Nat.inj_mul by lia. rewrite Nat2Z.id. reflexivity.
Qed.

(** X26.  With offset = (page - 1) * per_page and limit per_page (per_page
    >= 1), the pages 1..pages of an admin listing, one after the other, are
    exactly the ordered rows of the query: each page has at most per_page
    rows, every page up to pages is non-empty, and every page beyond is
    empty. *)
Theorem pages_cover_the_listing :
  forall (A : Type) (ordered : list A) (per_page : Z),
    1 <= per_page ->
    let total := Z.of_nat (length ordered) in
    concat (map (fun i => page_items ordered (Z.of_nat i + 1) per_page)
              (seq 0 (Z.to_nat (pages total per_page)))) = ordered /\
    (forall page,
       (length (page_items ordered page per_page) <= Z.to_nat per_page)%nat) /\
    (forall page, pages total per_page < page ->
       page_items ordered page per_page = []) /\
    (forall page, 1 <= page <= pages total per_page ->
       page_items ordered page per_page <> []).
Proof.
  intros A ordered pp Hp total.
  destruct (pages_bounds total pp ltac:(subst total; lia) Hp)
    as [[Hlo Hhi] _].
  assert (Hn : 0 <= pages total pp) by nia.
  split; [|split; [|split]].
  - rewrite (map_ext _ (fun i => firstn (Z.to_nat pp)
                                   (skipn (i * Z.to_nat pp) ordered)))
      by (intros i; apply page_items_as_chunk; exact Hp).
    rewrite chunks_make_a_prefix. apply firstn_all2.
    apply Nat2Z.inj_le. rewrite Nat2Z.inj_mul, !Z2Nat.id by lia. exact Hlo.
  - intros page. unfold page_items. apply firstn_le_length.
  - intros page Hpage. unfold page_items.
    rewrite skipn_all2; [apply firstn_nil|].
    unfold page_offset. apply Nat2Z.inj_le. rewrite Z2Nat.id by nia.
    fold total. nia.
  - intros page [H1 H2] Habs. unfold page_items in Habs.
    apply (f_equal (@length A)) in Habs.
    rewrite length_firstn, length_skipn in Habs. cbn [length] in Habs.
    unfold page_offset in Habs.
    assert (Hoff : (page - 1) * pp < total) by nia.
    assert (Hz : Z.of_nat (Nat.min (Z.to_nat pp)
                   (length ordered - Z.to_nat ((page - 1) * pp))) = 0)
      by (rewrite Habs; reflexivity).
    rewrite Nat2Z.inj_min, Nat2Z.inj_sub in Hz.
    + rewrite !Z2Nat.id in Hz by nia. fold total in Hz. lia.
    + apply Nat2Z.inj_le. rewrite Z2Nat.id by nia. fold total. lia.
Qed.

(** * Statistics *)

Lemma users_split_by_role (l : list User.t) :
  Z.of_nat (length l) =
  Z.of_nat (length (filter (fun u => UserRole_eqb (User.role u) STUDENT) l)) +
  Z.of_nat (length (filter (fun u => UserRole_eqb (User.role u) CUSTOMER) l)) +
  Z.of_nat (length (filter (fun u => UserRole_eqb (User.role u) ADMIN) l)).
Proof.
  induction l as [|u l IH]; [reflexivity|].
  cbn [filter length]. destruct (User.role u); cbn [UserRole_eqb length]; lia.
Qed.

Lemma projects_split_by_status (l : list Project.t) :
  Z.of_nat (length (filter (fun p => ProjectStatus_eqb (Project.status p) OPEN) l)) +
  Z.of_nat (length (filter (fun p => ProjectStatus_eqb (Project.status p) IN_PROGRESS) l)) +
  Z.of_nat (length (filter (fun p => ProjectStatus_eqb (Project.status p) COMPLETED) l))
  <= Z.of_nat (length l).
Proof.
  induction l as [|p l IH]; [reflexivity|].
  cbn [filter length]. destruct (Project.status p);
    cbn [ProjectStatus_eqb length]; lia.
Qed.

Lemma filter_is_shorter {A} (f : A -> bool) (l : list A) :
  Z.of_nat (length (filter f l)) <= Z.of_nat (length l).
Proof.
  apply Nat2Z.inj_le. induction l as [|x l IH]; [reflexivity|].
  cbn [filter]. destruct (f x); cbn [length]; lia.
Qed.

(** X27.  get_admin_stats writes nothing, and in its answer total_users is
    the sum of total_students, total_customers and total_admins; open, in-
    progress and completed projects together are at most total_projects;
    pending applications are at most total_applications and active contracts
    at most total_contracts. *)
Theorem stats_count_every_user_once :
  forall (db : DB) (contracts : list Contract.t) (current_admin : User.t),
    exists s,
      run_request (get_admin_stats contracts current_admin) db = (Ok s, db) /\
      Stats.total_users s =
      Stats.total_students s + Stats.total_customers s + Stats.total_admins s /\
      Stats.open_projects s + Stats.in_progress_projects s +
      Stats.completed_projects s <= Stats.total_projects s /\
      0 <= Stats.pending_applications s <= Stats.total_applications s /\
      0 <= Stats.active_contracts s <= Stats.total_contracts s.
Proof.
  intros db contracts admin. eexists. split; [reflexivity|].
  cbn [Stats.total_users Stats.total_students Stats.total_customers
       Stats.total_admins Stats.total_projects Stats.open_projects
       Stats.in_progress_projects Stats.completed_projects
       Stats.total_applications Stats.pending_applications
       Stats.total_contracts Stats.active_contracts].
  unfold count_rows. rewrite !or_0Z_Some.
  split; [apply users_split_by_role|].
  split; [apply projects_split_by_status|].
  split; (split; [lia | apply filter_is_shorter]).
Qed.

(** * Along every run of requests *)

Lemma scores_stay_in_range (op : Op) (db db' : DB) (r : Result unit) :
  pk_unique db ->
  scores_in_range db ->
  run_op op db = (r, db') ->
  scores_in_range db'.
Proof.
  intros (_ & _ & Htasks & Happs & _) Hrange H. unfold scores_in_range in *.
  run_cases op H Happs Htasks; try exact Hrange.
  all: apply Forall_app; split; [exact Hrange|];
    constructor; [|constructor]; unfold new_rating; rsimpl;
    match goal with
    | Hv : valid_RatingCreate ?d = true |- _ =>
        unfold valid_RatingCreate, in_1_5 in Hv;
        repeat (apply andb_true_iff in Hv; destruct Hv as [Hv ?]); lia
    end.
Qed.

Lemma run_all_invariant (P : DB -> Prop) :
  (forall op db db' r, pk_unique db -> P db -> run_op op db = (r, db') -> P db') ->
  forall ops db, pk_unique db -> P db -> P (run_all ops db).
Proof.
  intros Hstep ops. induction ops as [|op rest IH]; intros db Hpk HP;
    [exact HP|].
  cbn [run_all]. destruct (run_op op db) as [r db1] eqn:Hrun. cbn [snd].
  apply IH.
  - exact (pk_unique_preserved op db db1 r Hpk Hrun).
  - exact (Hstep op db db1 r Hpk HP Hrun).
Qed.

Lemma run_all_relation (R : DB -> DB -> Prop) :
  (forall db, R db db) ->
  (forall a b c, R a b -> R b c -> R a c) ->
  (forall op db db' r, pk_unique db -> run_op op db = (r, db') -> R db db') ->
  forall ops db, pk_unique db -> R db (run_all ops db).
Proof.
  intros Hrefl Htrans Hstep ops.
  induction ops as [|op rest IH]; intros db Hpk; [apply Hrefl|].
  cbn [run_all]. destruct (run_op op db) as [r db1] eqn:Hrun. cbn [snd].
  apply Htrans with (b := db1).
  - exact (Hstep op db db1 r Hpk Hrun).
  - apply IH. exact (pk_unique_preserved op db db1 r Hpk Hrun).
Qed.

Lemma prefix_relation {A B} (f : A -> B) (table : DB -> list A) :
  (forall db, exists added, map f (table db) = map f (table db) ++ map f added) /\
  (forall a b c,
     (exists added, map f (table b) = map f (table a) ++ map f added) ->
     (exists added, map f (table c) = map f (table b) ++ map f added) ->
     exists added, map f (table c) = map f (table a) ++ map f added).
Proof.
  split.
  - intros db. exists []. cbn [map]. rewrite app_nil_r. reflexivity.
  - intros a b c [x Hx] [y Hy]. exists (x ++ y).
    rewrite Hy, Hx, map_app, app_assoc. reflexivity.
Qed.

Lemma stored_user_is_named (c : Z) (rows : list User.t) (x : User.t) :
  by_id User.id c rows = [x] -> names_a_user (Some c) rows = true.
Proof.
  intros Hx. cbn [names_a_user]. apply existsb_exists. exists x.
  assert (Hin : In x (by_id User.id c rows)) by (rewrite Hx; left; reflexivity).
  apply by_id_In in Hin. destruct Hin as [Hid Hin].
  split; [exact Hin | apply Z.eqb_eq; exact Hid].
Qed.

Lemma assignee_who_is_no_worker (db : DB) (p : Project.t) (c : Z) (x : User.t) :
  In p (projects db) ->
  Project.assignee_id p = Some c ->
  c <> 0 ->
  by_id User.id c (users db) = [x] ->
  User.role x <> STUDENT ->
  ~ assignees_are_workers db.
Proof.
  intros Hin Ha Hc Hx Hrole [Hprojects _].
  destruct (Hprojects p Hin) as (w & Hw & Hstudent).
  - rewrite Ha. cbn [truthy]. apply negb_true_iff, Z.eqb_neq. exact Hc.
  - rewrite Ha in Hw. cbn [the_id] in Hw. rewrite Hx in Hw.
    inversion Hw; subst w. contradiction.
Qed.

(** X20.  Along every run of workflow requests (the operations of section 6
    of the specification and the operator's cancel) the users table keeps
    its rows and each row keeps its id, role and active flag: these requests
    never add or remove a user and write only rating_score and
    completed_projects.  Role and active flag are the operator's to change:
    PATCH /admin/users/{id} keeps the ids of the table and gives the user the
    role that the body names; block sets the active flag of any user but the
    operator to false and unblock sets it to true, both keeping every id and
    role. *)
Theorem users_are_only_rated :
  forall (db : DB),
    pk_unique db ->
    (forall ops : list Op,
       map user_identity (users (run_all ops db)) = map user_identity (users db)) /\
    (forall (user_id : Z) (data : UserAdminUpdate) (current_admin : User.t),
       map User.id
         (users (snd (run_request (Admin.update_user user_id data current_admin) db)))
       = map User.id (users db)) /\
    (forall (user_id : Z) (user : User.t) (role : UserRole) (current_admin : User.t),
       by_id User.id user_id (users db) = [user] ->
       map User.role
         (by_id User.id user_id
            (users (snd (run_request
                           (Admin.update_user user_id (role_only role) current_admin)
                           db))))
       = [role]) /\
    (forall (user_id : Z) (user : User.t) (current_admin : User.t),
       by_id User.id user_id (users db) = [user] ->
       let blocked := snd (run_request (Admin.block_user user_id current_admin) db) in
       let unblocked :=
         snd (run_request (Admin.unblock_user user_id current_admin) db) in
       (user_id <> User.id current_admin ->
        map User.is_active (by_id User.id user_id (users blocked)) = [false]) /\
       map User.is_active (by_id User.id user_id (users unblocked)) = [true] /\
       map (fun u => (User.id u, User.role u)) (users blocked) =
       map (fun u => (User.id u, User.role u)) (users db) /\
       map (fun u => (User.id u, User.role u)) (users unblocked) =
       map (fun u => (User.id u, User.role u)) (users db)).
Proof.
  intros db Hpk. split; [|split; [|split]].
  - intros ops.
    apply (run_all_relation
             (fun a b => map user_identity (users b) = map user_identity (users a)));
      [reflexivity | | | exact Hpk].
    + intros a b c Hab Hbc. rewrite Hbc. exact Hab.
    + intros op d d' r Hd Hrun. exact (users_identity_step op d d' r Hd Hrun).
  - intros uid d admin. rewrite update_user_run.
    destruct (by_id User.id uid (users db)) as [|x [|y rest]] eqn:Hx;
      try reflexivity.
    destruct (negb _); [reflexivity|]. destruct (_ || _); [reflexivity|].
    cbv zeta. cbn [snd]. rsimpl. apply map_key_flush_row.
  - intros uid x role admin Hx. rewrite update_user_run, Hx.
    cbn [role_only uau_first_name uau_last_name uau_role uau_rating_score
         uau_completed_projects uau_is_active uau_is_verified is_null
         INTEGER_fits_sent negb orb setattr]. cbv zeta. cbn [snd]. rsimpl.
    rewrite (by_id_flush_row_one User.id uid _ x); [reflexivity | | exact Hx].
    exact (by_id_head _ _ _ _ _ Hx).
  - intros uid x admin Hx. cbv zeta.
    rewrite block_user_run, unblock_user_run, Hx.
    pose proof (by_id_head _ _ _ _ _ Hx) as Hid.
    split; [|split; [|split]].
    + intros Hne. rewrite Hid.
      destruct (uid =? User.id admin) eqn:E;
        [apply Z.eqb_eq in E; contradiction|].
      cbn [snd]. rsimpl.
      rewrite (by_id_flush_row_one User.id uid _ x); [reflexivity | | exact Hx].
      exact Hid.
    + cbn [snd]. rsimpl.
      rewrite (by_id_flush_row_one User.id uid _ x); [reflexivity | | exact Hx].
      exact Hid.
    + destruct (User.id x =? User.id admin); [reflexivity|].
      cbn [snd]. rsimpl.
      apply (map_flush_row_same User.id _ uid _ x);
        [exact Hx | exact Hid | reflexivity].
    + cbn [snd]. rsimpl.
      apply (map_flush_row_same User.id _ uid _ x);
        [exact Hx | exact Hid | reflexivity].
Qed.

(** X21.  Along every run of workflow requests (the operations of section 6
    of the specification and the operator's cancel) projects are only
    appended and a stored project keeps its id, its owner and its budget:
    none of these requests removes a project (cancel only sets the status)
    or moves it to another owner.  Budget and owner are rewritten by the two
    update requests only: the owner's PUT /projects/{id} keeps id, owner and
    assignee of every project and sets the budget that the body names; the
    operator's PATCH /admin/projects/{id} keeps the ids and gives the
    project to the stored user that the body names as owner, whatever the
    role of that user; the operator's POST /admin/projects appends at most
    one project and changes none. *)
Theorem projects_keep_owner_and_budget :
  forall (db : DB),
    pk_unique db ->
    (forall ops : list Op,
       exists added,
         map project_fixed (projects (run_all ops db)) =
         map project_fixed (projects db) ++ map project_fixed added) /\
    (forall (project_id : Z) (project_data : ProjectUpdate) (current_user : User.t),
       map project_parties
         (projects (snd (run_request
                           (Projects.update_project project_id project_data
                              current_user) db)))
       = map project_parties (projects db)) /\
    (forall (project_id : Z) (project : Project.t) (budget : Q)
            (current_user : User.t),
       by_id Project.id project_id (projects db) = [project] ->
       Project.customer_id project = User.id current_user ->
       valid_ProjectUpdate (budget_only budget) = true ->
       map Project.budget
         (by_id Project.id project_id
            (projects (snd (run_request
                              (Projects.update_project project_id
                                 (budget_only budget) current_user) db))))
       = [budget]) /\
    (forall (project_id : Z) (data : ProjectAdminUpdate) (current_admin : User.t),
       map Project.id
         (projects (snd (run_request
                           (Admin.update_project project_id data current_admin) db)))
       = map Project.id (projects db)) /\
    (forall (project_id : Z) (project : Project.t) (customer_id : Z)
            (customer : User.t) (current_admin : User.t),
       by_id Project.id project_id (projects db) = [project] ->
       by_id User.id customer_id (users db) = [customer] ->
       INTEGER_fits customer_id = true ->
       map Project.customer_id
         (by_id Project.id project_id
            (projects (snd (run_request
                              (Admin.update_project project_id
                                 (admin_owner_only customer_id) current_admin) db))))
       = [customer_id]) /\
    (forall (data : ProjectAdminCreate) (current_admin : User.t),
       exists added,
         projects (snd (run_request (Admin.create_project data current_admin) db))
         = projects db ++ added /\ (length added <= 1)%nat).
Proof.
  intros db Hpk. split; [|split; [|split; [|split; [|split]]]].
  - intros ops.
    destruct (prefix_relation project_fixed projects) as [Hrefl Htrans].
    apply (run_all_relation
             (fun a b => exists added,
                map project_fixed (projects b) =
                map project_fixed (projects a) ++ map project_fixed added));
      [exact Hrefl | exact Htrans | | exact Hpk].
    intros op d d' r Hd Hrun. exact (projects_fixed_step op d d' r Hd Hrun).
  - intros pid d u. rewrite update_project_run.
    destruct (by_id Project.id pid (projects db)) as [|p [|q rest]] eqn:Hp;
      try reflexivity.
    destruct (negb _); [reflexivity|]. destruct (_ || _); [reflexivity|].
    cbv zeta. cbn [snd]. rsimpl.
    apply (map_flush_row_same Project.id project_parties pid _ p);
      [exact Hp | exact (by_id_head _ _ _ _ _ Hp) | reflexivity].
  - intros pid p b u Hp Hu _. rewrite update_project_run, Hp, Hu, Z.eqb_refl.
    cbn [negb budget_only pu_title pu_description pu_budget pu_status is_null
         orb setattr]. cbv zeta. cbn [snd]. rsimpl.
    rewrite (by_id_flush_row_one Project.id pid _ p); [reflexivity | | exact Hp].
    exact (by_id_head _ _ _ _ _ Hp).
  - intros pid d admin. rewrite admin_update_project_run.
    destruct (by_id Project.id pid (projects db)) as [|p [|q rest]] eqn:Hp;
      try reflexivity.
    destruct (negb _); [reflexivity|]. destruct (_ || _); [reflexivity|].
    cbv zeta. cbn [snd]. rsimpl. apply map_key_flush_row.
  - intros pid p c x admin Hp Hx Hfits.
    rewrite admin_update_project_run, Hp.
    cbn [admin_owner_only pau_title pau_description pau_budget pau_status
         pau_customer_id pau_assignee_id is_null INTEGER_fits_sent
         sent_names_a_user setattr setattr_nullable].
    rewrite Hfits, (stored_user_is_named c _ x Hx).
    cbn [negb andb orb]. cbv zeta. cbn [snd]. rsimpl.
    rewrite (by_id_flush_row_one Project.id pid _ p); [reflexivity | | exact Hp].
    exact (by_id_head _ _ _ _ _ Hp).
  - intros d admin. rewrite admin_create_project_run.
    assert (Hnone : exists added : list Project.t,
               projects db = projects db ++ added /\ (length added <= 1)%nat).
    { exists []. split; [symmetry; apply app_nil_r | cbn; lia]. }
    destruct (by_id User.id (pac_customer_id d) (users db)) as [|y [|z rest]];
      [exact Hnone | | exact Hnone].
    cbv zeta.
    assert (Hadded :
      exists added : list Project.t,
        projects
          (snd (if names_a_user (pac_assignee_id d) (users db)
                then (Ok tt,
                      with_projects
                        (projects db ++
                         [Project.mk (next_id Project.id (projects db))
                            (pac_budget d) (pac_status d) (pac_customer_id d)
                            (pac_assignee_id d)]) db)
                else (Err IntegrityError, db)))
        = projects db ++ added /\ (length added <= 1)%nat).
    { destruct (names_a_user _ _); [|exact Hnone].
      eexists. split; [reflexivity | cbn; lia]. }
    destruct (truthy (pac_assignee_id d)); [|exact Hadded].
    destruct (by_id User.id (the_id (pac_assignee_id d)) (users db))
      as [|w [|w' rest']]; [exact Hnone | exact Hadded | exact Hnone].
Qed.

(** X13.  Along every run of workflow requests, tasks are only appended, and
    a stored task keeps its id, complexity, estimated hours, status, order
    and project: no project transition (publish, accept, review, complete,
    cancel) advances the status of a task, and only the assignee of a task
    is ever rewritten. *)
Theorem tasks_keep_status_and_order :
  forall (ops : list Op) (db : DB),
    pk_unique db ->
    exists added,
      map task_fixed (tasks (run_all ops db)) =
      map task_fixed (tasks db) ++ map task_fixed added.
Proof.
  intros ops db Hpk.
  destruct (prefix_relation task_fixed tasks) as [Hrefl Htrans].
  apply (run_all_relation
           (fun a b => exists added,
              map task_fixed (tasks b) =
              map task_fixed (tasks a) ++ map task_fixed added));
    [exact Hrefl | exact Htrans | | exact Hpk].
  intros op d d' r Hd Hrun. exact (tasks_fixed_step op d d' r Hd Hrun).
Qed.

(** X22.  Along every run of workflow requests, applications are only
    appended and a stored application keeps its id, project, student and
    proposed rate: only its status is ever rewritten. *)
Theorem applications_keep_project_and_student :
  forall (ops : list Op) (db : DB),
    pk_unique db ->
    exists added,
      map application_fixed (applications (run_all ops db)) =
      map application_fixed (applications db) ++ map application_fixed added.
Proof.
  intros ops db Hpk.
  destruct (prefix_relation application_fixed applications) as [Hrefl Htrans].
  apply (run_all_relation
           (fun a b => exists added,
              map application_fixed (applications b) =
              map application_fixed (applications a) ++
              map application_fixed added));
    [exact Hrefl | exact Htrans | | exact Hpk].
  intros op d d' r Hd Hrun. exact (applications_fixed_step op d d' r Hd Hrun).
Qed.

(** X19.  Along every run of workflow requests (the operations of section 6
    of the specification and the operator's cancel) the ratings table only
    grows at its end: these requests never change or remove a stored
    rating.  The request that removes one is the operator's
    DELETE /admin/ratings/{id}: it fails with 404 and writes nothing when no
    rating has the id; otherwise it removes that rating, keeps every other
    rating in place and leaves the other tables as they were, so that the
    reviewee's rating_score and completed_projects still count the rating
    that is gone. *)
Theorem ratings_are_never_rewritten :
  forall (db : DB),
    pk_unique db ->
    (forall ops : list Op,
       exists added, ratings (run_all ops db) = ratings db ++ added) /\
    (forall (rating_id : Z) (current_admin : User.t),
       by_id Rating.id rating_id (ratings db) = [] ->
       run_request (Admin.delete_rating rating_id current_admin) db =
       (Err (HTTPException 404 Rating_not_found), db)) /\
    (forall (rating_id : Z) (current_admin : User.t) (rating : Rating.t),
       In rating (ratings db) ->
       Rating.id rating = rating_id ->
       exists db',
         run_request (Admin.delete_rating rating_id current_admin) db =
         (Ok tt, db') /\
         ratings db' =
         filter (fun r => negb (Rating.id r =? rating_id)) (ratings db) /\
         ~ In rating (ratings db') /\
         (forall r, In r (ratings db) -> r <> rating -> In r (ratings db')) /\
         users db' = users db /\
         projects db' = projects db /\
         tasks db' = tasks db /\
         applications db' = applications db).
Proof.
  intros db Hpk. split; [|split].
  - intros ops.
    apply (run_all_relation
             (fun a b => exists added, ratings b = ratings a ++ added));
      [ | | | exact Hpk].
    + intros d. exists []. symmetry. apply app_nil_r.
    + intros a b c [x Hx] [y Hy]. exists (x ++ y).
      rewrite Hy, Hx, app_assoc. reflexivity.
    + intros op d d' r Hd Hrun. exact (ratings_prefix_step op d d' r Hd Hrun).
  - intros rid admin Hnone. rewrite delete_rating_run, Hnone. reflexivity.
  - intros rid admin rating Hin Hid.
    destruct Hpk as (_ & _ & _ & _ & Hratings).
    pose proof (by_id_unique Rating.id _ _ Hratings Hin) as Hrow.
    rewrite Hid in Hrow.
    rewrite delete_rating_run, Hrow, Hid.
    eexists. split; [reflexivity|]. rsimpl.
    split; [reflexivity|]. split; [|split].
    + intros Hc. apply filter_In in Hc. destruct Hc as [_ Hc].
      rewrite Hid, Z.eqb_refl in Hc. discriminate.
    + intros r Hr Hne. apply filter_In. split; [exact Hr|].
      destruct (Rating.id r =? rid) eqn:E; [|reflexivity].
      apply Z.eqb_eq in E. exfalso. apply Hne.
      pose proof (by_id_unique Rating.id _ _ Hratings Hr) as Hr'.
      rewrite E, Hrow in Hr'. congruence.
    + repeat split; reflexivity.
Qed.

(** X7.  Along every run of workflow requests, answered or refused, the
    applications keep the law that no two of them have the same (project,
    student) pair, although the table has no unique constraint:
    apply_for_project checks it by hand and no other request changes those
    columns. *)
Theorem one_application_per_worker_and_project :
  forall (ops : list Op) (db : DB),
    pk_unique db ->
    applications_unique db ->
    applications_unique (run_all ops db).
Proof.
  intros ops db Hpk Hu.
  apply (run_all_invariant applications_unique); [|exact Hpk | exact Hu].
  intros op d d' r Hd HP Hrun. exact (applications_unique_step op d d' r Hd HP Hrun).
Qed.

(** X18.  Along every run of workflow requests, no two ratings have the same
    (project, reviewer) pair, provided this held at the start: create_rating
    checks it by hand before it adds a row. *)
Theorem one_rating_per_reviewer_and_project :
  forall (ops : list Op) (db : DB),
    pk_unique db ->
    ratings_unique db ->
    ratings_unique (run_all ops db).
Proof.
  intros ops db Hpk Hu.
  apply (run_all_invariant ratings_unique); [|exact Hpk | exact Hu].
  intros op d d' r Hd HP Hrun. exact (ratings_unique_step op d d' r Hd HP Hrun).
Qed.

(** X11.  Along every run of workflow requests, no two tasks of the same
    project have the same order, provided this held at the start:
    create_task takes max+1 and no other request writes the order or the
    project of a task. *)
Theorem task_orders_stay_distinct :
  forall (ops : list Op) (db : DB),
    pk_unique db ->
    task_orders_unique db ->
    task_orders_unique (run_all ops db).
Proof.
  intros ops db Hpk Hu.
  apply (run_all_invariant task_orders_unique); [|exact Hpk | exact Hu].
  intros op d d' r Hd HP Hrun. exact (task_orders_step op d d' r Hd HP Hrun).
Qed.

(** X14.  Along every run of workflow requests (the operations of section 6
    of the specification and the operator's cancel) every project and every
    task that has an assignee (other than null and 0) names a stored user
    whose role is student, provided this held at the start: both assign
    handlers check the role, and none of these requests changes a role or
    removes a user.  The operator's requests are not bound by it:
    PATCH /admin/projects/{id} and POST /admin/projects store any stored
    user as assignee, and PATCH /admin/users/{id} changes the role of a user
    who is an assignee; each of them breaks the property. *)
Theorem assignees_stay_workers :
  forall (db : DB),
    pk_unique db ->
    (assignees_are_workers db ->
     forall ops : list Op, assignees_are_workers (run_all ops db)) /\
    (forall (project_id : Z) (project : Project.t) (user_id : Z) (user : User.t)
            (current_admin : User.t),
       by_id Project.id project_id (projects db) = [project] ->
       by_id User.id user_id (users db) = [user] ->
       User.role user <> STUDENT ->
       user_id <> 0 ->
       INTEGER_fits user_id = true ->
       let db' :=
         snd (run_request
                (Admin.update_project project_id (admin_assignee_only user_id)
                   current_admin) db) in
       assignee_of project_id db' = [Some user_id] /\
       ~ assignees_are_workers db') /\
    (forall (data : ProjectAdminCreate) (customer user : User.t)
            (user_id : Z) (current_admin : User.t),
       by_id User.id (pac_customer_id data) (users db) = [customer] ->
       pac_assignee_id data = Some user_id ->
       by_id User.id user_id (users db) = [user] ->
       User.role user <> STUDENT ->
       user_id <> 0 ->
       ~ assignees_are_workers
           (snd (run_request (Admin.create_project data current_admin) db))) /\
    (forall (project : Project.t) (user_id : Z) (user : User.t) (role : UserRole)
            (current_admin : User.t),
       In project (projects db) ->
       Project.assignee_id project = Some user_id ->
       user_id <> 0 ->
       by_id User.id user_id (users db) = [user] ->
       role <> STUDENT ->
       ~ assignees_are_workers
           (snd (run_request
                   (Admin.update_user user_id (role_only role) current_admin) db))).
Proof.
  intros db Hpk. split; [|split; [|split]].
  - intros Hu ops.
    apply (run_all_invariant assignees_are_workers); [|exact Hpk | exact Hu].
    intros op d d' r Hd HP Hrun. exact (assignees_step op d d' r Hd HP Hrun).
  - intros pid p c x admin Hp Hx Hrole Hc Hfits. cbv zeta.
    rewrite admin_update_project_run, Hp.
    cbn [admin_assignee_only pau_title pau_description pau_budget pau_status
         pau_customer_id pau_assignee_id is_null INTEGER_fits_sent
         sent_names_a_user setattr setattr_nullable].
    rewrite Hfits, (stored_user_is_named c _ x Hx).
    cbn [negb andb orb]. cbv zeta. cbn [snd].
    pose proof (by_id_head _ _ _ _ _ Hp) as Hid.
    assert (Hrow :
      by_id Project.id pid
        (flush_row Project.id
           (Project.mk (Project.id p) (Project.budget p) (Project.status p)
              (Project.customer_id p) (Some c)) (projects db))
      = [Project.mk (Project.id p) (Project.budget p) (Project.status p)
           (Project.customer_id p) (Some c)]).
    { apply (by_id_flush_row_one Project.id pid _ p); [exact Hid | exact Hp]. }
    split.
    + unfold assignee_of. rsimpl. rewrite Hrow. reflexivity.
    + apply (assignee_who_is_no_worker _
               (Project.mk (Project.id p) (Project.budget p) (Project.status p)
                  (Project.customer_id p) (Some c)) c x);
        [| reflexivity | exact Hc | exact Hx | exact Hrole].
      rsimpl.
      assert (Hin : In (Project.mk (Project.id p) (Project.budget p)
                          (Project.status p) (Project.customer_id p) (Some c))
                       (by_id Project.id pid
                          (flush_row Project.id
                             (Project.mk (Project.id p) (Project.budget p)
                                (Project.status p) (Project.customer_id p)
                                (Some c)) (projects db))))
        by (rewrite Hrow; left; reflexivity).
      apply by_id_In in Hin. exact (proj2 Hin).
  - intros d y x c admin Hy Ha Hx Hrole Hc.
    rewrite admin_create_project_run, Hy, Ha.
    assert (Ht : truthy (Some c) = true)
      by (cbn [truthy]; apply negb_true_iff, Z.eqb_neq; exact Hc).
    rewrite Ht. cbn [the_id]. rewrite Hx, (stored_user_is_named c _ x Hx).
    cbv zeta. cbn [snd].
    apply (assignee_who_is_no_worker _
             (Project.mk (next_id Project.id (projects db)) (pac_budget d)
                (pac_status d) (pac_customer_id d) (Some c)) c x);
      [| reflexivity | exact Hc | exact Hx | exact Hrole].
    rsimpl. apply in_or_app. right. left. reflexivity.
  - intros p c x role admin Hin Ha Hc Hx Hrole.
    rewrite update_user_run, Hx.
    cbn [role_only uau_first_name uau_last_name uau_role uau_rating_score
         uau_completed_projects uau_is_active uau_is_verified is_null
         INTEGER_fits_sent negb orb setattr]. cbv zeta. cbn [snd].
    apply (assignee_who_is_no_worker _ p c
             (User.mk (User.id x) role (User.rating_score x)
                (User.completed_projects x) (User.is_active x)));
      [exact Hin | exact Ha | exact Hc | | exact Hrole].
    rsimpl. apply (by_id_flush_row_one User.id c _ x); [| exact Hx].
    exact (by_id_head _ _ _ _ _ Hx).
Qed.

(** X23.  Along every run of workflow requests, every application and every
    rating refers to a stored project, provided this held at the start:
    apply_for_project and create_rating answer 404 before they add a row for
    an unknown project, and no request removes a project. *)
Theorem applications_and_ratings_name_stored_projects :
  forall (ops : list Op) (db : DB),
    pk_unique db ->
    fk_project db ->
    fk_project (run_all ops db).
Proof.
  intros ops db Hpk Hfk.
  apply (run_all_invariant fk_project); [|exact Hpk | exact Hfk].
  intros op d d' r Hd HP Hrun. exact (fk_project_preserved op d d' r Hd HP Hrun).
Qed.

(** X25.  For total >= 0 and per_page >= 1, the pages entry of the admin
    listings, (total + per_page - 1) // per_page, is the least number of
    pages of per_page rows that hold total rows; it is 0 exactly when there
    is no row. *)
Theorem pages_is_the_number_of_pages_needed :
  forall total per_page : Z,
    0 <= total ->
    1 <= per_page ->
    total <= pages total per_page * per_page < total + per_page /\
    (pages total per_page = 0 <-> total = 0) /\
    (forall n, 0 <= n -> total <= n * per_page -> pages total per_page <= n).
Proof.
  intros total pp Ht Hp.
  destruct (pages_bounds total pp Ht Hp) as [[Hlo Hhi] Hz].
  split; [split; assumption|]. split; [exact Hz|].
  intros n Hn Hcover. nia.
Qed.

(** * The theorems above at concrete requests *)

Ltac concrete_nodup :=
  unfold application_pair, rating_pair, task_slot; cbn; repeat (constructor; [cbn; intuition congruence|]); constructor.

Lemma create_project_makes_a_draft_of_the_caller_witness :
  exists project db',
    run_request (Projects.create_project budget_1000 U4) db_open =
    (Ok project, db') /\
    projects db' = projects db_open ++ [project] /\
    by_id Project.id (Project.id project) (projects db_open) = [] /\
    by_id Project.id (Project.id project) (projects db') = [project] /\
    Project.status project = DRAFT /\
    Project.customer_id project = 4 /\
    Project.assignee_id project = None /\
    Project.budget project = 1000%Q /\
    users db' = users db_open /\ tasks db' = tasks db_open /\
    applications db' = applications db_open /\ ratings db' = ratings db_open.
Proof.
  apply (proj2 (create_project_makes_a_draft_of_the_caller db_open budget_1000 U4)).
  reflexivity.
Defined.

Lemma publish_needs_owner_and_draft_witness :
  exists db',
    run_request (Projects.publish_project 1 U1) db_draft =
    (Ok (Project.mk 1 1000 OPEN 1 None), db') /\
    by_id Project.id 1 (projects db') = [Project.mk 1 1000 OPEN 1 None].
Proof.
  apply (proj1 (publish_needs_owner_and_draft db_draft 1 U1
                  (Project.mk 1 1000 DRAFT 1 None) eq_refl));
    reflexivity.
Defined.

Lemma review_is_requested_by_the_assignee_only_witness :
  run_request (Projects.request_review 1 U1) db_assigned =
  (Err (HTTPException 403 Only_assignee_requests_review), db_assigned).
Proof.
  apply (proj1 (review_is_requested_by_the_assignee_only db_assigned 1 U1
                  (Project.mk 1 1000 IN_PROGRESS 1 (Some 2)) eq_refl)).
  discriminate.
Defined.

Lemma complete_needs_owner_status_and_assignee_witness :
  exists db',
    run_request (Projects.complete_project 1 U1) db_assigned =
    (Ok (Project.mk 1 1000 COMPLETED 1 (Some 2)), db') /\
    by_id Project.id 1 (projects db') = [Project.mk 1 1000 COMPLETED 1 (Some 2)].
Proof.
  apply (proj1 (complete_needs_owner_status_and_assignee db_assigned 1 U1
                  (Project.mk 1 1000 IN_PROGRESS 1 (Some 2)) eq_refl));
    [reflexivity | left; reflexivity | reflexivity].
Defined.

Lemma only_the_owner_manages_a_project_witness :
  run_request (Projects.publish_project 1 U4) db_with_tasks =
  (Err (HTTPException 403 No_rights_to_publish), db_with_tasks) /\
  run_request (Projects.complete_project 1 U4) db_with_tasks =
  (Err (HTTPException 403 Only_customer_can_complete), db_with_tasks) /\
  run_request (Projects.update_application_status 1 1 ACCEPTED U4) db_with_tasks =
  (Err (HTTPException 403 No_access), db_with_tasks) /\
  run_request (Projects.assign_project_assignee 1 (Some 3) U4) db_with_tasks =
  (Err (HTTPException 403 Only_owner_assigns), db_with_tasks) /\
  run_request (Projects.assign_task_assignee 1 1 (Some 3) U4) db_with_tasks =
  (Err (HTTPException 403 Only_owner_assigns), db_with_tasks) /\
  run_request (Projects.create_task 1 one_task U3) db_with_tasks =
  (Err (HTTPException 403 Only_owner_creates_tasks), db_with_tasks).
Proof.
  assert (Hpk : pk_unique db_with_tasks) by (unfold db_with_tasks; concrete_pk_unique).
  destruct (only_the_owner_manages_a_project db_with_tasks 1 U4
              (Project.mk 1 1000 IN_PROGRESS 1 (Some 2)) Hpk eq_refl
              ltac:(discriminate)) as (H1 & H2 & H3 & H4 & H5 & _).
  destruct (only_the_owner_manages_a_project db_with_tasks 1 U3
              (Project.mk 1 1000 IN_PROGRESS 1 (Some 2)) Hpk eq_refl
              ltac:(discriminate)) as (_ & _ & _ & _ & _ & H6).
  exact (conj H1 (conj H2 (conj (H3 _ _) (conj (H4 _) (conj (H5 _ _) (H6 _)))))).
Defined.

Lemma apply_needs_worker_open_project_and_no_application_witness :
  User.role U2 = STUDENT /\
  (exists project,
     by_id Project.id 1 (projects db_open) = [project] /\
     Project.status project = OPEN) /\
  ~ In (1, 2) (map application_pair (applications db_open)) /\
  applications db_applied = applications db_open ++ [Application.mk 1 1 2 None PENDING] /\
  Application.project_id (Application.mk 1 1 2 None PENDING) = 1 /\
  Application.student_id (Application.mk 1 1 2 None PENDING) = 2 /\
  Application.status (Application.mk 1 1 2 None PENDING) = PENDING /\
  by_id Application.id 1 (applications db_open) = [] /\
  projects db_applied = projects db_open.
Proof.
  apply (apply_needs_worker_open_project_and_no_application db_open 1 no_rate U2
           (Application.mk 1 1 2 None PENDING) db_applied).
  reflexivity.
Defined.

Lemma one_application_per_worker_and_project_witness :
  applications_unique (run_all (completing_run ++ [Apply 1 no_rate U2]) db0).
Proof.
  apply one_application_per_worker_and_project.
  - unfold db0. concrete_pk_unique.
  - unfold applications_unique. concrete_nodup.
Defined.

Lemma decision_touches_one_application_witness :
  (forall other, other <> 2 ->
     by_id Application.id other
       (applications (snd (run_request
          (Projects.update_application_status 1 2 REJECTED U1) db_completed))) =
     by_id Application.id other (applications db_completed)) /\
  (REJECTED <> ACCEPTED ->
   projects (snd (run_request
     (Projects.update_application_status 1 2 REJECTED U1) db_completed)) =
   projects db_completed).
Proof.
  destruct (decision_touches_one_application db_completed
              (snd (run_request
                 (Projects.update_application_status 1 2 REJECTED U1) db_completed))
              1 2 REJECTED U1 (Application.mk 2 1 3 None REJECTED))
    as (H1 & H2 & _).
  - unfold db_completed. concrete_pk_unique.
  - reflexivity.
  - split; assumption.
Defined.

Lemma create_task_appends_in_order_witness :
  (exists task,
     run_request (Projects.create_task 1 one_task U1) db_with_tasks =
     (Ok task, with_tasks (tasks db_with_tasks ++ [task]) db_with_tasks) /\
     Task.project_id task = 1 /\
     Task.status task = TASK_PENDING /\
     Task.assignee_id task = None /\
     (filter (fun k => Task.project_id k =? 1) (tasks db_with_tasks) = [] ->
      Task.order task = 1) /\
     (forall k, In k (tasks db_with_tasks) -> Task.project_id k = 1 ->
        Task.order k < Task.order task)) /\
  (exists e,
     run_request (Projects.create_task 1 huge_task U1) db_with_tasks =
     (Err e, db_with_tasks)).
Proof.
  split.
  - apply (create_task_appends_in_order db_with_tasks 1 one_task U1
             (Project.mk 1 1000 IN_PROGRESS 1 (Some 2)));
      [reflexivity | reflexivity | reflexivity |].
    intros k Hk. cbn in Hk.
    destruct Hk as [<- | [<- | [<- | []]]]; cbn; lia.
  - apply (create_task_appends_in_order db_with_tasks 1 huge_task U1
             (Project.mk 1 1000 IN_PROGRESS 1 (Some 2)))
      with (hours := 2 ^ 63);
      [reflexivity | reflexivity | reflexivity | right; lia].
Defined.

Lemma task_orders_stay_distinct_witness :
  task_orders_unique
    (run_all [CreateTask 1 one_task U1; CreateTask 2 one_task U4;
              CreateTask 1 one_task U1] db_with_tasks).
Proof.
  apply task_orders_stay_distinct.
  - unfold db_with_tasks. concrete_pk_unique.
  - unfold task_orders_unique, db_with_tasks. concrete_nodup.
Defined.

Lemma task_is_assigned_through_its_project_witness :
  run_request (Projects.assign_task_assignee 1 3 (Some 3) U1) db_with_tasks =
  (Err (HTTPException 404 Task_not_found), db_with_tasks).
Proof.
  apply (proj1 (task_is_assigned_through_its_project db_with_tasks 1 3 U1
                  (Project.mk 1 1000 IN_PROGRESS 1 (Some 2))
                  (Task.mk 3 2 None TASK_PENDING 1 2 None)
                  ltac:(unfold db_with_tasks; concrete_pk_unique)
                  eq_refl eq_refl eq_refl)).
  discriminate.
Defined.

Lemma tasks_keep_status_and_order_witness :
  exists added,
    map task_fixed
      (tasks (run_all [AssignTask 1 1 (Some 3) U1; CreateTask 1 one_task U1;
                       CompleteProject 1 U1] db_with_tasks)) =
    map task_fixed (tasks db_with_tasks) ++ map task_fixed added.
Proof.
  apply tasks_keep_status_and_order.
  unfold db_with_tasks. concrete_pk_unique.
Defined.

Lemma assignees_stay_workers_witness :
  assignees_are_workers
    (run_all (completing_run ++ [AssignWorker 1 (Some 1) U1]) db0) /\
  (assignee_of 1
     (snd (run_request (Admin.update_project 1 (admin_assignee_only 4) U5) db_open))
   = [Some 4] /\
   ~ assignees_are_workers
       (snd (run_request (Admin.update_project 1 (admin_assignee_only 4) U5)
               db_open))) /\
  ~ assignees_are_workers
      (snd (run_request (Admin.update_user 2 (role_only CUSTOMER) U5) db_assigned)).
Proof.
  assert (H0 : pk_unique db0) by (unfold db0; concrete_pk_unique).
  assert (Hopen : pk_unique db_open) by (unfold db_open; concrete_pk_unique).
  assert (Hassigned : pk_unique db_assigned)
    by (unfold db_assigned; concrete_pk_unique).
  destruct (assignees_stay_workers db0 H0) as (Hrun & _).
  destruct (assignees_stay_workers db_open Hopen) as (_ & Hupdate & _).
  destruct (assignees_stay_workers db_assigned Hassigned) as (_ & _ & _ & Hrole).
  split; [|split].
  - apply Hrun. split; intros ? [].
  - apply (Hupdate 1 (Project.mk 1 1000 OPEN 1 None) 4 U4 U5);
      [reflexivity | reflexivity | discriminate | lia | reflexivity].
  - apply (Hrole (Project.mk 1 1000 IN_PROGRESS 1 (Some 2)) 2 U2 CUSTOMER U5);
      [left; reflexivity | reflexivity | lia | reflexivity | discriminate].
Defined.

Lemma ratings_are_between_owner_and_assignee_of_a_completed_project_witness :
  exists project,
    by_id Project.id 1 (projects db_two_completed) = [project] /\
    Project.status project = COMPLETED /\
    ((User.role U1 = CUSTOMER /\ Project.customer_id project = 1 /\
      Project.assignee_id project = Some 2 /\ 2 <> 0) \/
     (User.role U1 = STUDENT /\ Project.assignee_id project = Some 1 /\
      Project.customer_id project = 2)) /\
    ~ In (1, 1) (map rating_pair (ratings db_two_completed)) /\
    ratings (snd (run_request (Ratings.create_rating (rate_U2 1 5) U1)
                    db_two_completed)) =
    ratings db_two_completed ++ [Rating.mk 1 1 1 2 5 None None None] /\
    Rating.project_id (Rating.mk 1 1 1 2 5 None None None) = 1 /\
    Rating.reviewer_id (Rating.mk 1 1 1 2 5 None None None) = 1 /\
    Rating.reviewee_id (Rating.mk 1 1 1 2 5 None None None) = 2 /\
    Rating.score (Rating.mk 1 1 1 2 5 None None None) = 5.
Proof.
  apply (ratings_are_between_owner_and_assignee_of_a_completed_project
           db_two_completed
           (snd (run_request (Ratings.create_rating (rate_U2 1 5) U1)
                   db_two_completed))
           (rate_U2 1 5) U1 (Rating.mk 1 1 1 2 5 None None None)).
  reflexivity.
Defined.

Lemma rating_by_the_owner_counts_one_completed_project_witness :
  (exists reviewee',
     by_id User.id 2
       (users (snd (run_request (Ratings.create_rating (rate_U2 1 5) U1)
                      db_two_completed))) = [reviewee'] /\
     user_identity reviewee' = user_identity U2 /\
     User.completed_projects reviewee' = 0 + 1) /\
  (forall other, other <> 2 ->
     by_id User.id other
       (users (snd (run_request (Ratings.create_rating (rate_U2 1 5) U1)
                      db_two_completed))) =
     by_id User.id other (users db_two_completed)).
Proof.
  apply (rating_by_the_owner_counts_one_completed_project db_two_completed
           (snd (run_request (Ratings.create_rating (rate_U2 1 5) U1)
                   db_two_completed))
           (rate_U2 1 5) U1 (Rating.mk 1 1 1 2 5 None None None) U2);
    reflexivity.
Defined.

Lemma rating_score_stays_between_1_and_5_witness :
  scores_in_range
    (snd (run_op (SubmitRating (rate_U2 1 5) U1) db_two_completed)) /\
  forall reviewee,
    by_id User.id 2 (users db_two_completed) = [reviewee] ->
    exists reviewee',
      by_id User.id 2
        (users (snd (run_op (SubmitRating (rate_U2 1 5) U1) db_two_completed))) =
      [reviewee'] /\
      Qle 1 (User.rating_score reviewee') /\
      Qle (User.rating_score reviewee') 5.
Proof.
  apply (rating_score_stays_between_1_and_5 db_two_completed
           (snd (run_op (SubmitRating (rate_U2 1 5) U1) db_two_completed))
           (rate_U2 1 5) U1).
  - constructor.
  - reflexivity.
Defined.

Lemma one_rating_per_reviewer_and_project_witness :
  ratings_unique
    (run_all [SubmitRating (rate_U2 1 5) U1; SubmitRating (rate_U2 1 3) U1;
              SubmitRating (rate_U2 2 4) U4] db_two_completed).
Proof.
  apply one_rating_per_reviewer_and_project.
  - unfold db_two_completed. concrete_pk_unique.
  - unfold ratings_unique. concrete_nodup.
Defined.

Lemma ratings_are_never_rewritten_witness :
  (exists added,
     ratings (run_all [SubmitRating (rate_U2 2 4) U4; Cancel 1 U5] db_two_rated) =
     ratings db_two_rated ++ added) /\
  (exists db',
     run_request (Admin.delete_rating 2 U5) db_two_rated = (Ok tt, db') /\
     ratings db' =
     filter (fun r => negb (Rating.id r =? 2)) (ratings db_two_rated) /\
     ~ In (Rating.mk 2 2 4 2 4 None None None) (ratings db') /\
     (forall r, In r (ratings db_two_rated) ->
        r <> Rating.mk 2 2 4 2 4 None None None -> In r (ratings db')) /\
     users db' = users db_two_rated /\
     projects db' = projects db_two_rated /\
     tasks db' = tasks db_two_rated /\
     applications db' = applications db_two_rated) /\
  map User.rating_score
    (by_id User.id 2
       (users (snd (run_request (Admin.delete_rating 2 U5) db_two_rated)))) =
  [9 # 2].
Proof.
  assert (Hpk : pk_unique db_two_rated)
    by (unfold db_two_rated; concrete_pk_unique).
  destruct (ratings_are_never_rewritten db_two_rated Hpk)
    as (Hrun & _ & Hdelete).
  split; [exact (Hrun _)|]. split; [|reflexivity].
  apply (Hdelete 2 U5 (Rating.mk 2 2 4 2 4 None None None));
    [right; left; reflexivity | reflexivity].
Defined.

Lemma users_are_only_rated_witness :
  map user_identity
    (users (run_all [SubmitRating (rate_U2 1 5) U1; SubmitRating (rate_U2 2 4) U4]
              db_two_completed)) =
  map user_identity (users db_two_completed) /\
  map User.role
    (by_id User.id 2
       (users (snd (run_request (Admin.update_user 2 (role_only ADMIN) U5)
                      db_two_completed)))) = [ADMIN] /\
  map User.is_active
    (by_id User.id 2
       (users (snd (run_request (Admin.block_user 2 U5) db_two_completed))))
  = [false].
Proof.
  assert (Hpk : pk_unique db_two_completed)
    by (unfold db_two_completed; concrete_pk_unique).
  destruct (users_are_only_rated db_two_completed Hpk)
    as (Hrun & _ & Hrole & Hblock).
  split; [exact (Hrun _)|]. split.
  - exact (Hrole 2 U2 ADMIN U5 eq_refl).
  - destruct (Hblock 2 U2 U5 eq_refl) as (Hblocked & _).
    apply Hblocked. cbn. lia.
Defined.

Lemma projects_keep_owner_and_budget_witness :
  (exists added,
     map project_fixed
       (projects (run_all (completing_run ++ [Cancel 1 U5]) db0)) =
     map project_fixed (projects db0) ++ map project_fixed added) /\
  map Project.budget
    (by_id Project.id 1
       (projects (snd (run_request (Projects.update_project 1 (budget_only 7) U1)
                         db_open)))) = [7%Q] /\
  map Project.customer_id
    (by_id Project.id 1
       (projects (snd (run_request (Admin.update_project 1 (admin_owner_only 2) U5)
                         db_open)))) = [2].
Proof.
  assert (H0 : pk_unique db0) by (unfold db0; concrete_pk_unique).
  assert (Hopen : pk_unique db_open) by (unfold db_open; concrete_pk_unique).
  destruct (projects_keep_owner_and_budget db0 H0) as (Hrun & _).
  destruct (projects_keep_owner_and_budget db_open Hopen)
    as (_ & _ & Hbudget & _ & Howner & _).
  split; [exact (Hrun _)|]. split.
  - exact (Hbudget 1 (Project.mk 1 1000 OPEN 1 None) 7%Q U1
             eq_refl eq_refl eq_refl).
  - exact (Howner 1 (Project.mk 1 1000 OPEN 1 None) 2 U2 U5
             eq_refl eq_refl eq_refl).
Defined.

Lemma applications_keep_project_and_student_witness :
  exists added,
    map application_fixed
      (applications (run_all [DecideApplication 1 1 REJECTED U1;
                              DecideApplication 1 2 ACCEPTED U1] db_completed)) =
    map application_fixed (applications db_completed) ++
    map application_fixed added.
Proof.
  apply applications_keep_project_and_student.
  unfold db_completed. concrete_pk_unique.
Defined.

Lemma applications_and_ratings_name_stored_projects_witness :
  fk_project (run_all (completing_run ++ [SubmitRating (rate_U2 1 5) U1]) db0).
Proof.
  apply applications_and_ratings_name_stored_projects.
  - unfold db0. concrete_pk_unique.
  - split; intros ? [].
Defined.

Lemma get_project_returns_what_was_written_witness :
  run_request (get_project 1) db_open =
  (Ok (Project.mk 1 1000 OPEN 1 None), db_open).
Proof.
  apply (proj1 (proj2 (get_project_returns_what_was_written db_draft db_open
                         (Project.mk 1 1000 OPEN 1 None) U1)) 1).
  reflexivity.
Defined.

Lemma pages_is_the_number_of_pages_needed_witness :
  41 <= pages 41 20 * 20 < 41 + 20 /\
  (pages 41 20 = 0 <-> 41 = 0) /\
  (forall n, 0 <= n -> 41 <= n * 20 -> pages 41 20 <= n).
Proof.
  apply pages_is_the_number_of_pages_needed; lia.
Defined.

Lemma pages_cover_the_listing_witness :
  concat (map (fun i => page_items [U1; U2; U3; U4; U5] (Z.of_nat i + 1) 2)
            (seq 0 (Z.to_nat (pages 5 2)))) = [U1; U2; U3; U4; U5] /\
  (forall page,
     (length (page_items [U1; U2; U3; U4; U5] page 2) <= Z.to_nat 2)%nat) /\
  (forall page, pages 5 2 < page -> page_items [U1; U2; U3; U4; U5] page 2 = []) /\
  (forall page, 1 <= page <= pages 5 2 ->
     page_items [U1; U2; U3; U4; U5] page 2 <> []).
Proof.
  apply (pages_cover_the_listing User.t [U1; U2; U3; U4; U5] 2). lia.
Defined.
